(** * ChainReactors5: the task orchestration and event streaming core

    A shallow embedding of
      - [agent/agent/rule_based_orchestrator.py] (registry, rule engine,
        router and dispatcher),
      - [agent/agent/streaming_orchestrator.py] (the broadcast bus),
      - [agent/agent/agent_orchestrator.py] (intent classifier, the
        collaboration pipeline and the handlers of the three agents),
      - the loops of [inventory_agent.py], [forecasting_agent.py] and
        [supplier_agent.py] that the orchestrator calls, with the
        selection of suppliers and the forecasting methods,
    followed by the properties of the specification that concern them
    and by further properties of the same code.

    Conventions of the embedding.
      - A Python [str] is a [string]; the texts are ASCII, and [lower]
        only moves the letters A..Z.
      - A Python [float] is a binary64 primitive float, with the
        comparisons and the arithmetic of the kernel.
      - A call that may raise returns a [result]; methods that change
        the orchestrator take the state and return the new state.
      - The readings of the wall clock and the behaviour of handlers and
        of sockets come from the environment and are arguments. *)

From Stdlib Require Import List String Ascii Bool ZArith Arith Lia.
From Stdlib Require Import PrimFloat Uint63 Sorted Permutation.
From Stdlib Require FloatAxioms SpecFloat.
Import ListNotations.

Set Warnings "-inexact-float,-register-all".
Local Open Scope string_scope.
Local Open Scope list_scope.

(* ================================================================== *)
(** * Python values and primitives *)
(* ================================================================== *)

Module Py.

(** The double quote character, which the rule conditions are split on. *)
Definition dquote : ascii := ascii_of_nat 34.

(** [c.lower()] on an ASCII character. *)
Definition lower_ascii (c : ascii) : ascii :=
  let n := nat_of_ascii c in
  if ((65 <=? n) && (n <=? 90))%nat then ascii_of_nat (n + 32) else c.

(** [s.lower()]. *)
Fixpoint lower (s : string) : string :=
  match s with
  | EmptyString => EmptyString
  | String c s' => String (lower_ascii c) (lower s')
  end.

(** [needle in hay] for two strings: [needle] occurs as a substring. *)
Fixpoint str_in (needle hay : string) : bool :=
  if String.prefix needle hay then true
  else match hay with
       | EmptyString => false
       | String _ hay' => str_in needle hay'
       end.

(** [s.split(sep)] for a separator of one character. *)
Fixpoint split (sep : ascii) (s : string) : list string :=
  match s with
  | EmptyString => [EmptyString]
  | String c s' =>
      if Ascii.eqb c sep then EmptyString :: split sep s'
      else match split sep s' with
           | [] => [String c EmptyString]
           | w :: ws => String c w :: ws
           end
  end.

(** [any(k in text for k in keywords)]. *)
Definition any_in (keywords : list string) (text : string) : bool :=
  existsb (fun k => str_in k text) keywords.

(** Exceptions: [Exn] is an instance of a subclass of [Exception], which
    [except Exception] catches; [BaseExn] is a [BaseException] outside
    [Exception] (asyncio.CancelledError, KeyboardInterrupt, ...), which it
    does not catch. *)
Inductive exn : Type :=
| Exn (cls msg : string)
| BaseExn (cls msg : string).

Inductive result (A : Type) : Type :=
| Ok (a : A)
| Raise (e : exn).
Arguments Ok {A} a.
Arguments Raise {A} e.

Definition bind {A B : Type} (r : result A) (k : A -> result B) : result B :=
  match r with
  | Ok a => k a
  | Raise e => Raise e
  end.

Notation "x <- r ;; k" := (bind r (fun x => k))
  (at level 61, r at next level, right associativity).

(** The values that travel in request contexts, rule dictionaries and
    handler results. *)
Inductive pyval : Type :=
| PyNone
| PyBool (b : bool)
| PyInt (z : Z)
| PyStr (s : string)
| PyList (l : list pyval)
| PyDict (d : list (string * pyval)).

(** Dictionaries keep insertion order; assigning to a present key keeps
    its place and replaces the value. *)
Section Dict.
Context {V : Type}.

Fixpoint dict_get (d : list (string * V)) (k : string) : option V :=
  match d with
  | [] => None
  | (k', v) :: d' => if String.eqb k' k then Some v else dict_get d' k
  end.

Fixpoint dict_set (d : list (string * V)) (k : string) (v : V)
  : list (string * V) :=
  match d with
  | [] => [(k, v)]
  | (k', v') :: d' =>
      if String.eqb k' k then (k, v) :: d' else (k', v') :: dict_set d' k v
  end.

Definition dict_has (d : list (string * V)) (k : string) : bool :=
  match dict_get d k with Some _ => true | None => false end.

(** [{**a, **b}]. *)
Definition dict_merge (a b : list (string * V)) : list (string * V) :=
  fold_left (fun d kv => dict_set d (fst kv) (snd kv)) b a.
End Dict.

(** [d.get(k, default)]. *)
Definition get_default (d : list (string * pyval)) (k : string)
  (default : pyval) : pyval :=
  match dict_get d k with Some v => v | None => default end.

(** Truth value of an object, as [if x:] tests it. *)
Definition truthy (v : pyval) : bool :=
  match v with
  | PyNone => false
  | PyBool b => b
  | PyInt z => negb (z =? 0)%Z
  | PyStr s => negb (String.eqb s EmptyString)
  | PyList l => match l with [] => false | _ => true end
  | PyDict d => match d with [] => false | _ => true end
  end.

(** [needle in container] for a string [needle]: substring of a string,
    element of a list, key of a dictionary; the other values are not
    iterable. *)
Definition contains (container : pyval) (needle : string) : result bool :=
  match container with
  | PyStr s => Ok (str_in needle s)
  | PyList l =>
      Ok (existsb (fun v => match v with
                            | PyStr s => String.eqb s needle
                            | _ => false
                            end) l)
  | PyDict d => Ok (dict_has d needle)
  | PyNone | PyBool _ | PyInt _ =>
      Raise (Exn "TypeError" "argument is not iterable")
  end.

(** [v.split(sep)]: only strings have the method. *)
Definition split_method (v : pyval) (sep : ascii) : result (list string) :=
  match v with
  | PyStr s => Ok (split sep s)
  | _ => Raise (Exn "AttributeError" "object has no attribute split")
  end.

(** [l[i]]. *)
Definition index {A : Type} (l : list A) (i : nat) : result A :=
  match nth_error l i with
  | Some a => Ok a
  | None => Raise (Exn "IndexError" "list index out of range")
  end.

(** [min(a, b)] and [max(a, b)] on floats: the first argument is kept
    unless the second is strictly smaller (larger). *)
Definition min (a b : float) : float := if (b <? a)%float then b else a.
Definition max (a b : float) : float := if (a <? b)%float then b else a.

End Py.

Import Py.

(* ================================================================== *)
(** * rule_based_orchestrator.py *)
(* ================================================================== *)

Module RuleBased.

(** A reading of [datetime.now()], in microseconds. *)
Definition datetime : Type := Z.

Record AgentCapability : Type := {
  name : string;
  description : string;
  input_types : list string;
  output_types : list string;
  keywords : list string;
  cap_priority : Z
}.

Record TaskRequest : Type := {
  task_id : string;
  user_input : string;
  context : list (string * pyval);
  task_priority : Z;
  task_required_capabilities : list string;
  timestamp : datetime
}.

(** What awaiting [agent.handler(task)] gives: the returned value with
    the measured [(end_time - start_time).total_seconds()], or the
    exception that came out of the handler. A handler is a function of
    the request; within one dispatch it is called at most once. *)
Inductive HandlerOutcome : Type :=
| Returned (value : pyval) (elapsed : float)
| Raised (e : exn).

Record AgentRegistration : Type := {
  agent_id : string;
  agent_name : string;
  capabilities : list AgentCapability;
  handler : TaskRequest -> HandlerOutcome;
  status : string;
  last_used : option datetime;
  success_rate : float;
  response_time : float
}.

(** An agent as [register_agent] receives it. *)
Record BaseAgent : Type := {
  base_agent_id : string;
  base_agent_name : string;
  get_capabilities : list AgentCapability;
  handle_task : TaskRequest -> HandlerOutcome
}.

(** A routing rule: the dictionary with the keys [condition],
    [required_capabilities] and [priority]. The condition is whatever
    value the dictionary holds; a rule without the key has the default
    [PyStr EmptyString] of [rule.get]. *)
Record RoutingRule : Type := {
  condition : pyval;
  required_capabilities : list string;
  priority : Z
}.

(** [registered_agents] is the dictionary from [agent_id] to the
    registration, in insertion order; the key of an entry is the
    [agent_id] field of its value, as [register_agent] stores it.
    [active_tasks] is never read or written and is left out. *)
Definition Registry : Type := list AgentRegistration.

Record Orchestrator : Type := {
  registered_agents : Registry;
  routing_rules : list RoutingRule;
  task_history : list TaskRequest
}.

(** ** Field assignments *)

Definition set_busy (now : datetime) (a : AgentRegistration)
  : AgentRegistration :=
  {| agent_id := agent_id a; agent_name := agent_name a;
     capabilities := capabilities a; handler := handler a;
     status := "busy"; last_used := Some now;
     success_rate := success_rate a; response_time := response_time a |}.

(** The three assignments after a handler returned. *)
Definition set_succeeded (elapsed : float) (a : AgentRegistration)
  : AgentRegistration :=
  {| agent_id := agent_id a; agent_name := agent_name a;
     capabilities := capabilities a; handler := handler a;
     status := "active"; last_used := last_used a;
     success_rate := Py.min 1.0 (success_rate a + 0.1);
     response_time := elapsed |}.

(** The two assignments of the [except Exception] branch. *)
Definition set_failed (a : AgentRegistration) : AgentRegistration :=
  {| agent_id := agent_id a; agent_name := agent_name a;
     capabilities := capabilities a; handler := handler a;
     status := "active"; last_used := last_used a;
     success_rate := Py.max 0.0 (success_rate a - 0.1);
     response_time := response_time a |}.

(** Assignment through a reference to the registration object that the
    registry holds under [id]. *)
Definition update_agent (id : string)
  (f : AgentRegistration -> AgentRegistration) (reg : Registry) : Registry :=
  map (fun a => if String.eqb (agent_id a) id then f a else a) reg.

(** The three assignments leave [agent_id] alone. *)
Definition keeps_id (f : AgentRegistration -> AgentRegistration) : Prop :=
  forall a, agent_id (f a) = agent_id a.

Definition with_registry (o : Orchestrator) (reg : Registry) : Orchestrator :=
  {| registered_agents := reg; routing_rules := routing_rules o;
     task_history := task_history o |}.

(** [d[a.agent_id] = a]. *)
Fixpoint registry_set (a : AgentRegistration) (reg : Registry) : Registry :=
  match reg with
  | [] => [a]
  | b :: reg' =>
      if String.eqb (agent_id b) (agent_id a) then a :: reg'
      else b :: registry_set a reg'
  end.

(** The registry is a dictionary: no two entries under one key. *)
Definition wf_registry (reg : Registry) : Prop := NoDup (map agent_id reg).

(** The entries are the objects of the registry, so two of them with the
    same key are the same object. *)
Definition same_id_same_agent (l : list AgentRegistration) : Prop :=
  forall x y, In x l -> In y l -> agent_id x = agent_id y -> x = y.

(** ** _initialize_default_rules

    Each condition is the value of a Python expression over string
    literals, computed when the orchestrator is built. [a in b in c] is
    the chained comparison [(a in b) and (b in c)]. *)
Definition default_rules : list RoutingRule :=
  [ {| condition := PyBool (str_in "inventory" "user_input.lower()");
       required_capabilities := ["inventory_management"];
       priority := 1 |};
    {| condition :=
         PyBool (str_in "forecast" "user_input.lower() or predict"
                 && str_in "user_input.lower() or predict"
                           "user_input.lower()");
       required_capabilities := ["demand_forecasting"];
       priority := 1 |};
    {| condition := PyBool (str_in "supplier" "user_input.lower()");
       required_capabilities := ["supplier_management"];
       priority := 1 |};
    {| condition := PyBool (str_in "order" "user_input.lower()");
       required_capabilities := ["order_management"];
       priority := 1 |};
    {| condition :=
         PyBool (str_in "cost" "user_input.lower() or optimize"
                 && str_in "user_input.lower() or optimize"
                           "user_input.lower()");
       required_capabilities := ["cost_optimization"];
       priority := 2 |} ].

(** [RuleBasedOrchestrator()]. *)
Definition new_orchestrator : Orchestrator :=
  {| registered_agents := []; routing_rules := default_rules;
     task_history := [] |}.

(** ** register_agent *)
Definition new_registration (agent : BaseAgent) : AgentRegistration :=
  {| agent_id := base_agent_id agent;
     agent_name := base_agent_name agent;
     capabilities := get_capabilities agent;
     handler := handle_task agent;
     status := "active";
     last_used := None;
     success_rate := 1.0;
     response_time := 0.0 |}.

Definition register_agent (agent : BaseAgent) (o : Orchestrator)
  : result unit * Orchestrator :=
  (Ok tt,
   with_registry o (registry_set (new_registration agent) (registered_agents o))).

(** ** add_routing_rule *)
Definition add_routing_rule (rule : RoutingRule) (o : Orchestrator)
  : Orchestrator :=
  {| registered_agents := registered_agents o;
     routing_rules := routing_rules o ++ [rule];
     task_history := task_history o |}.

(** ** _evaluate_rule

    The body of the [try] block; every exception it can raise is an
    [Exception], which the [except] clause turns into [False]. *)
Definition evaluate_rule_body (rule : RoutingRule) (task : TaskRequest)
  : result bool :=
  let user_input_lower := lower (user_input task) in
  let condition := condition rule in
  has_in <- contains condition "in" ;;
  if has_in then
    has_lower <- contains condition "user_input.lower()" ;;
    if has_lower then
      parts <- split_method condition dquote ;;
      keyword <- index parts 1 ;;
      Ok (str_in keyword user_input_lower)
    else Ok false
  else Ok false.

Definition _evaluate_rule (rule : RoutingRule) (task : TaskRequest) : bool :=
  match evaluate_rule_body rule task with
  | Ok b => b
  | Raise _ => false
  end.

(** ** _find_agents_by_capabilities *)
Definition capability_names (a : AgentRegistration) : list string :=
  map name (capabilities a).

Definition has_any_capability (required : list string)
  (a : AgentRegistration) : bool :=
  existsb (fun cap => existsb (String.eqb cap) (capability_names a)) required.

Definition _find_agents_by_capabilities (reg : Registry)
  (required : list string) : list AgentRegistration :=
  filter (fun a => String.eqb (status a) "active"
                   && has_any_capability required a) reg.

(** ** find_best_agents *)

(** [list({agent.agent_id: agent for agent in suitable_agents}.values())]. *)
Definition unique_by_id (suitable : list AgentRegistration)
  : list AgentRegistration :=
  fold_left (fun d a => registry_set a d) suitable [].

(** The sort key [(x.success_rate, -x.response_time)] and the order of
    tuples: the first components that differ decide. *)
Definition sort_key (a : AgentRegistration) : float * float :=
  (success_rate a, (- response_time a)%float).

Definition key_lt (k1 k2 : float * float) : bool :=
  if negb (fst k1 =? fst k2)%float then (fst k1 <? fst k2)%float
  else if negb (snd k1 =? snd k2)%float then (snd k1 <? snd k2)%float
  else false.

(** [sort(key=..., reverse=True)]: descending and stable. An element
    moves behind those of the sorted rest whose key is strictly larger,
    which is what the list sort gives whenever the keys are comparable
    (no NaN among them). *)
Fixpoint insert_desc (a : AgentRegistration) (l : list AgentRegistration)
  : list AgentRegistration :=
  match l with
  | [] => [a]
  | b :: l' =>
      if key_lt (sort_key a) (sort_key b) then b :: insert_desc a l'
      else a :: l
  end.

Definition sort_desc (l : list AgentRegistration) : list AgentRegistration :=
  fold_right insert_desc [] l.

Definition suitable_agents (o : Orchestrator) (task : TaskRequest)
  : list AgentRegistration :=
  flat_map (fun rule =>
              if _evaluate_rule rule task
              then _find_agents_by_capabilities (registered_agents o)
                     (required_capabilities rule)
              else [])
           (routing_rules o).

Definition find_best_agents (o : Orchestrator) (task : TaskRequest)
  : list AgentRegistration :=
  sort_desc (unique_by_id (suitable_agents o task)).

(** ** route_task *)

(** The dictionary that [route_task] returns. *)
Inductive RouteResult : Type :=
| Success (result : pyval) (agent_used : string) (resp_time : float)
          (task : string)
| Failure (error : string) (task : string).

(** One pass through the loop body, as the environment saw it: the agent
    whose handler was awaited, the registry while the handler ran, and
    what came out of the handler. *)
Record Attempt : Type := {
  attempt_agent : string;
  attempt_registry : Registry;
  attempt_outcome : HandlerOutcome
}.

(** The [for agent in suitable_agents] loop. [agent] is a reference to
    an object of the registry, so its fields are assigned in the
    registry. [clock k] is the reading of the clock when the [k]-th
    candidate is assigned. An exception outside [Exception] leaves the
    loop and [route_task] with it. *)
Fixpoint try_agents (clock : nat -> datetime) (k : nat) (task : TaskRequest)
  (candidates : list AgentRegistration) (o : Orchestrator)
  : result RouteResult * Orchestrator * list Attempt :=
  match candidates with
  | [] =>
      (Ok (Failure "All suitable agents failed to process the task"
             (task_id task)), o, [])
  | agent :: rest =>
      let id := agent_id agent in
      let reg1 := update_agent id (set_busy (clock k)) (registered_agents o) in
      let outcome := handler agent task in
      let attempt := {| attempt_agent := id; attempt_registry := reg1;
                        attempt_outcome := outcome |} in
      match outcome with
      | Returned value elapsed =>
          let reg2 := update_agent id (set_succeeded elapsed) reg1 in
          (Ok (Success value (agent_name agent) elapsed (task_id task)),
           {| registered_agents := reg2; routing_rules := routing_rules o;
              task_history := task_history o ++ [task] |},
           [attempt])
      | Raised (Exn _ _) =>
          let reg2 := update_agent id set_failed reg1 in
          let '(r, o', attempts) :=
            try_agents clock (S k) task rest (with_registry o reg2) in
          (r, o', attempt :: attempts)
      | Raised (BaseExn cls msg) =>
          (Raise (BaseExn cls msg), with_registry o reg1, [attempt])
      end
  end.

Definition route_task (clock : nat -> datetime) (task : TaskRequest)
  (o : Orchestrator) : result RouteResult * Orchestrator * list Attempt :=
  match find_best_agents o task with
  | [] =>
      (Ok (Failure "No suitable agents found for this task" (task_id task)),
       o, [])
  | candidates => try_agents clock 0 task candidates o
  end.

(** ** The success rate

    The two updates of [success_rate] in [route_task], as one function
    of the outcome of the attempt. *)
Definition rate_after (succeeded : bool) (r : float) : float :=
  if succeeded then Py.min 1.0 (r + 0.1) else Py.max 0.0 (r - 0.1).

(** The rate after a sequence of attempts, oldest first, from the rate
    [1.0] of a new registration. *)
Definition rate_after_all (outcomes : list bool) : float :=
  fold_left (fun r ok => rate_after ok r) outcomes 1.0%float.

(** The binary64 values that the rate takes. *)
Definition reachable_rates : list float :=
  [ 0.0; 2.7755575615628914e-17; 1.3877787807814457e-16;
    0.1; 0.10000000000000003; 0.10000000000000014;
    0.2; 0.20000000000000004; 0.20000000000000015;
    0.30000000000000004; 0.30000000000000016;
    0.4; 0.40000000000000013;
    0.5; 0.5000000000000001;
    0.6; 0.6000000000000001;
    0.7; 0.7000000000000001;
    0.7999999999999999; 0.8;
    0.8999999999999999; 0.9;
    0.9999999999999999; 1.0 ]%float.

(** The rate of an entry comes from [1.0] by a sequence of attempts. *)
Definition rate_from_attempts (a : AgentRegistration) : Prop :=
  exists outcomes, success_rate a = rate_after_all outcomes.

Definition rate_in_unit (a : AgentRegistration) : Prop :=
  (0 <=? success_rate a)%float = true /\ (success_rate a <=? 1)%float = true.

(** ** The operations of a session *)
Inductive Operation : Type :=
| Register (agent : BaseAgent)
| AddRule (rule : RoutingRule)
| Route (clock : nat -> datetime) (task : TaskRequest).

Definition apply_operation (op : Operation) (o : Orchestrator) : Orchestrator :=
  match op with
  | Register agent => snd (register_agent agent o)
  | AddRule rule => add_routing_rule rule o
  | Route clock task => snd (fst (route_task clock task o))
  end.

Definition run_operations (ops : list Operation) (o : Orchestrator)
  : Orchestrator :=
  fold_left (fun o op => apply_operation op o) ops o.

(** ** The example agents of the module *)
Definition inventory_capabilities : list AgentCapability :=
  [ {| name := "inventory_management";
       description :=
         "Manage inventory levels, reorder points, and stock optimization";
       input_types := ["inventory_data"; "stock_levels"];
       output_types := ["inventory_recommendations"; "reorder_alerts"];
       keywords := ["inventory"; "stock"; "reorder"; "warehouse"];
       cap_priority := 1 |};
    {| name := "stock_analysis";
       description :=
         "Analyze stock levels and identify optimization opportunities";
       input_types := ["inventory_data"];
       output_types := ["analysis_report"];
       keywords := ["analyze"; "stock"; "levels"; "optimization"];
       cap_priority := 1 |} ].

Definition inventory_answer : pyval :=
  PyDict
    [ ("agent", PyStr "inventory_agent");
      ("action", PyStr "inventory_analysis");
      ("result", PyStr "Inventory levels analyzed. 3 items need reordering.");
      ("recommendations",
       PyList [ PyStr "Reorder microprocessors (current: 5, min: 10)";
                PyStr "Reorder memory chips (current: 8, min: 15)";
                PyStr "Reorder steel brackets (current: 2, min: 20)" ]) ].

(** [InventoryManagementAgent()]; [elapsed] is the time the orchestrator
    measures around its handler. *)
Definition InventoryManagementAgent (elapsed : float) : BaseAgent :=
  {| base_agent_id := "inventory_agent";
     base_agent_name := "Inventory Management Agent";
     get_capabilities := inventory_capabilities;
     handle_task := fun _ => Returned inventory_answer elapsed |}.

(** An agent with the same capabilities whose handler raises. *)
Definition FailingAgent (id : string) (reason : string) : BaseAgent :=
  {| base_agent_id := id;
     base_agent_name := id;
     get_capabilities := inventory_capabilities;
     handle_task := fun _ => Raised (Exn "RuntimeError" reason) |}.

(** A rule in the form that [_evaluate_rule] reads: the keyword between
    the first two double quotes, followed by [in user_input.lower()]. *)
Definition keyword_rule (keyword : string) (required : list string)
  : RoutingRule :=
  {| condition :=
       PyStr (String dquote keyword
              ++ String dquote " in user_input.lower()");
     required_capabilities := required;
     priority := 1 |}.

Definition stock_request : TaskRequest :=
  {| task_id := "task-1";
     user_input := "check stock levels";
     context := [];
     task_priority := 1;
     task_required_capabilities := [];
     timestamp := 0%Z |}.

(** The orchestrator of the module with the inventory agent registered,
    under the default rules. *)
Definition default_setup : Orchestrator :=
  snd (register_agent (InventoryManagementAgent 0.1) new_orchestrator).

(** The same with a rule on the keyword [stock] added. *)
Definition stocked_setup : Orchestrator :=
  add_routing_rule (keyword_rule "stock" ["inventory_management"])
    default_setup.

(** One agent, whose handler raises, and the rule on [stock]. *)
Definition failing_setup : Orchestrator :=
  add_routing_rule (keyword_rule "stock" ["inventory_management"])
    (snd (register_agent (FailingAgent "inventory_agent" "disk full")
            new_orchestrator)).

Definition midnight : nat -> datetime := fun _ => 0%Z.

(** The state after the request about stock failed on the one agent. *)
Definition worn_setup : Orchestrator :=
  snd (fst (route_task midnight stock_request failing_setup)).

(** The registry as a second request sees it while the handler of the
    first attempt of a dispatch runs. *)
Definition in_flight (o : Orchestrator) (attempts : list Attempt)
  : Orchestrator :=
  match attempts with
  | attempt :: _ => with_registry o (attempt_registry attempt)
  | [] => o
  end.

Definition busy_inventory_agent : AgentRegistration :=
  set_busy 0%Z (new_registration (InventoryManagementAgent 0.1)).

End RuleBased.

(* ================================================================== *)
(** * streaming_orchestrator.py *)
(* ================================================================== *)

Module Streaming.

(** A connected websocket, by the identity of the object. *)
Definition Client : Type := nat.

Record StreamingEvent : Type := {
  event_type : string;
  item_id : string;
  data : list (string * pyval);
  timestamp : Z;
  agent_id : string;
  user_id : option string
}.

(** What [await client.send(json.dumps(event_data))] does: it returns,
    it raises [websockets.exceptions.ConnectionClosed], or it raises
    something else (the payload does not serialize, the object given as
    a client has another [send], ...). *)
Inductive SendOutcome : Type :=
| Sent
| ConnectionClosed
| SendRaised (e : exn).

(** The behaviour of the sockets during one fan-out. *)
Definition Link : Type := Client -> SendOutcome.

(** ** add_client, remove_client *)
Definition add_client (c : Client) (clients : list Client) : list Client :=
  clients ++ [c].

(** [list.remove]: the first occurrence goes. *)
Fixpoint list_remove (c : Client) (clients : list Client) : list Client :=
  match clients with
  | [] => []
  | c' :: rest => if Nat.eqb c' c then rest else c' :: list_remove c rest
  end.

Definition remove_client (c : Client) (clients : list Client) : list Client :=
  if existsb (Nat.eqb c) clients then list_remove c clients else clients.

(** ** broadcast_event *)

(** The [for client in self.connected_clients] loop: the clients whose
    send raised [ConnectionClosed], unless another exception left the
    loop, and the sends that were made. *)
Fixpoint send_loop (link : Link) (clients : list Client)
  : result (list Client) * list (Client * SendOutcome) :=
  match clients with
  | [] => (Ok [], [])
  | c :: rest =>
      match link c with
      | Sent =>
          let '(r, sends) := send_loop link rest in (r, (c, Sent) :: sends)
      | ConnectionClosed =>
          let '(r, sends) := send_loop link rest in
          (disconnected <- r ;; Ok (c :: disconnected),
           (c, ConnectionClosed) :: sends)
      | SendRaised e => (Raise e, [(c, SendRaised e)])
      end
  end.

(** The second loop: [remove_client] for each disconnected client. *)
Definition remove_all (disconnected clients : list Client) : list Client :=
  fold_left (fun cl c => remove_client c cl) disconnected clients.

Definition broadcast_event (link : Link) (event : StreamingEvent)
  (clients : list Client)
  : result unit * list Client * list (Client * SendOutcome) :=
  match clients with
  | [] => (Ok tt, clients, [])
  | _ =>
      match send_loop link clients with
      | (Ok disconnected, sends) =>
          (Ok tt, remove_all disconnected clients, sends)
      | (Raise e, sends) => (Raise e, clients, sends)
      end
  end.

(** ** The bus

    [event_queue] is the FIFO queue of asyncio. Each queued event carries
    the number of the [put] that enqueued it; the number is not in the
    program and only names the event in the statements. *)
Record Bus : Type := {
  connected_clients : list Client;
  event_queue : list (nat * StreamingEvent);
  puts : nat
}.

Definition new_bus : Bus :=
  {| connected_clients := []; event_queue := []; puts := 0 |}.

(** The steps of the event loop that touch the bus. [Consume] is one
    pass of the [while] loop of [_process_event_queue]; a fan-out is
    taken as one step. *)
Inductive Action : Type :=
| Put (event : StreamingEvent)
| AddClient (c : Client)
| RemoveClient (c : Client)
| Consume (link : Link).

Record Delivery : Type := {
  seq_no : nat;
  delivered_event : StreamingEvent;
  receiver : Client;
  send_outcome : SendOutcome
}.

(** One pass of [_process_event_queue]: with an empty queue [wait_for]
    times out and the loop continues; otherwise the head of the queue is
    broadcast, and an exception of the broadcast is printed and dropped.
    (An exception outside [Exception] ends the loop instead: such a run
    has no later [Consume].) *)
Definition process_one (link : Link) (b : Bus) : Bus * list Delivery :=
  match event_queue b with
  | [] => (b, [])
  | (n, event) :: queue' =>
      let '(_, clients', sends) :=
        broadcast_event link event (connected_clients b) in
      ({| connected_clients := clients'; event_queue := queue';
          puts := puts b |},
       map (fun s => {| seq_no := n; delivered_event := event;
                        receiver := fst s; send_outcome := snd s |}) sends)
  end.

Definition step (a : Action) (b : Bus) : Bus * list Delivery :=
  match a with
  | Put event =>
      ({| connected_clients := connected_clients b;
          event_queue := event_queue b ++ [(puts b, event)];
          puts := S (puts b) |}, [])
  | AddClient c =>
      ({| connected_clients := add_client c (connected_clients b);
          event_queue := event_queue b; puts := puts b |}, [])
  | RemoveClient c =>
      ({| connected_clients := remove_client c (connected_clients b);
          event_queue := event_queue b; puts := puts b |}, [])
  | Consume link => process_one link b
  end.

Fixpoint run (actions : list Action) (b : Bus) : Bus * list Delivery :=
  match actions with
  | [] => (b, [])
  | a :: rest =>
      let '(b1, log1) := step a b in
      let '(b2, log2) := run rest b1 in
      (b2, log1 ++ log2)
  end.

(** The events that were put, in the order of the puts. *)
Fixpoint published (actions : list Action) : list StreamingEvent :=
  match actions with
  | [] => []
  | Put event :: rest => event :: published rest
  | _ :: rest => published rest
  end.

(** An event and a behaviour of two sockets for the examples: the first
    is closed, the second is an object whose [send] does not take a
    string. *)
Definition item_added : StreamingEvent :=
  {| event_type := "item_added"; item_id := "item_0";
     data := [("name", PyStr "New Product 1")]; timestamp := 0%Z;
     agent_id := "inventory_agent"; user_id := None |}.

Definition closed_then_broken : Link :=
  fun c => if Nat.eqb c 1 then ConnectionClosed
           else SendRaised (Exn "TypeError" "string indices must be integers").

Definition first_closed : Link :=
  fun c => if Nat.eqb c 1 then ConnectionClosed else Sent.

Definition is_closed (outcome : SendOutcome) : bool :=
  match outcome with ConnectionClosed => true | _ => false end.

(** ** The order of deliveries

    A delivery is not later than another one when the event it carries
    was put no later. *)
Definition not_later (d1 d2 : Delivery) : Prop := seq_no d1 <= seq_no d2.

(** The numbers of the queued events. *)
Definition queued (b : Bus) : list nat := map fst (event_queue b).

(** Every queued event is the put that its number names. *)
Definition queue_recorded (history : list StreamingEvent) (b : Bus) : Prop :=
  puts b = List.length history /\
  Forall (fun ne => nth_error history (fst ne) = Some (snd ne)) (event_queue b).

End Streaming.

(* ================================================================== *)
(** * agent_orchestrator.py *)
(* ================================================================== *)

Module Collab.

Definition dict : Type := list (string * pyval).

(** ** Python operations on the data of a request *)

(** [len(v)]. *)
Definition py_len (v : pyval) : result nat :=
  match v with
  | PyStr s => Ok (String.length s)
  | PyList l => Ok (List.length l)
  | PyDict d => Ok (List.length d)
  | PyNone | PyBool _ | PyInt _ => Raise (Exn "TypeError" "object has no len")
  end.

(** [for x in v]: the elements of a list, the keys of a dictionary, the
    characters of a string. *)
Definition py_iter (v : pyval) : result (list pyval) :=
  match v with
  | PyList l => Ok l
  | PyDict d => Ok (map (fun kv => PyStr (fst kv)) d)
  | PyStr s =>
      Ok (map (fun c => PyStr (String c EmptyString)) (list_ascii_of_string s))
  | PyNone | PyBool _ | PyInt _ =>
      Raise (Exn "TypeError" "object is not iterable")
  end.

(** The receiver of [item.get(...)] has to be a dictionary. *)
Definition as_dict (v : pyval) : result dict :=
  match v with
  | PyDict d => Ok d
  | _ => Raise (Exn "AttributeError" "object has no attribute get")
  end.

(** The stock figures of the model are integers ([bool] counts as one). *)
Definition as_int (v : pyval) : result Z :=
  match v with
  | PyInt z => Ok z
  | PyBool b => Ok (if b then 1 else 0)%Z
  | _ => Raise (Exn "TypeError" "not a number")
  end.

(** [float(z)], exact below 2^53. *)
Definition float_of_Z (z : Z) : float :=
  if (z <? 0)%Z then (- of_uint63 (Uint63.of_Z (- z)))%float
  else of_uint63 (Uint63.of_Z z).

(** [d[k].append(x)]. *)
Definition dict_append (d : dict) (k : string) (x : pyval) : dict :=
  match dict_get d k with
  | Some (PyList l) => dict_set d k (PyList (l ++ [x]))
  | _ => d
  end.

Fixpoint map_result {A B : Type} (f : A -> result B) (l : list A)
  : result (list B) :=
  match l with
  | [] => Ok []
  | a :: l' => b <- f a ;; bs <- map_result f l' ;; Ok (b :: bs)
  end.

(** ** _analyze_intent

    The source binds the keyword lists between the branches of the
    [if]/[elif] chain; the chain is read as it is meant, with the lists
    bound before it. *)
Record Intent : Type := {
  primary_agent : option string;
  needs_forecasting : bool;
  needs_supplier_recommendations : bool;
  needs_logistics_optimization : bool;
  needs_inventory_integration : bool;
  complex_request : bool
}.

Definition inventory_keywords : list string :=
  ["inventory"; "stock"; "reorder"; "low stock"; "out of stock"].
Definition forecasting_keywords : list string :=
  ["forecast"; "predict"; "demand"; "trend"; "seasonal"].
Definition supplier_keywords : list string :=
  ["supplier"; "vendor"; "procurement"; "cost"; "performance"].
Definition complex_keywords : list string :=
  ["optimize"; "analyze"; "comprehensive"; "supply chain"; "strategy"].

Definition _analyze_intent (user_input : string) : Intent :=
  let user_lower := lower user_input in
  let intent :=
    if any_in inventory_keywords user_lower then
      {| primary_agent := Some "inventory_agent";
         needs_forecasting :=
           str_in "forecast" user_lower || str_in "predict" user_lower;
         needs_supplier_recommendations :=
           str_in "supplier" user_lower || str_in "recommend" user_lower;
         needs_logistics_optimization := false;
         needs_inventory_integration := false;
         complex_request := false |}
    else if any_in forecasting_keywords user_lower then
      {| primary_agent := Some "forecasting_agent";
         needs_forecasting := false;
         needs_supplier_recommendations := false;
         needs_logistics_optimization := false;
         needs_inventory_integration :=
           str_in "inventory" user_lower || str_in "stock" user_lower;
         complex_request := false |}
    else if any_in supplier_keywords user_lower then
      {| primary_agent := Some "supplier_agent";
         needs_forecasting := false;
         needs_supplier_recommendations := false;
         needs_logistics_optimization :=
           str_in "shipping" user_lower || str_in "logistics" user_lower;
         needs_inventory_integration := false;
         complex_request := false |}
    else
      {| primary_agent := None;
         needs_forecasting := false;
         needs_supplier_recommendations := false;
         needs_logistics_optimization := false;
         needs_inventory_integration := false;
         complex_request := false |} in
  if any_in complex_keywords user_lower then
    {| primary_agent := Some "orchestrator";
       needs_forecasting := needs_forecasting intent;
       needs_supplier_recommendations := needs_supplier_recommendations intent;
       needs_logistics_optimization := needs_logistics_optimization intent;
       needs_inventory_integration := needs_inventory_integration intent;
       complex_request := true |}
  else intent.

(** The branch that [process_user_request] takes on an intent. *)
Inductive Branch : Type :=
| InventoryRequest
| ForecastingRequest
| SupplierRequest
| ComplexRequest.

Definition selected_branch (intent : Intent) : Branch :=
  match primary_agent intent with
  | Some a =>
      if String.eqb a "inventory_agent" then InventoryRequest
      else if String.eqb a "forecasting_agent" then ForecastingRequest
      else if String.eqb a "supplier_agent" then SupplierRequest
      else ComplexRequest
  | None => ComplexRequest
  end.

(** ** The specialised agents, as the orchestrator calls them *)
Record DomainAgents : Type := {
  forecast_demand : pyval -> result dict;
  analyze_stock_levels : pyval -> result dict;
  calculate_reorder_points : pyval -> dict -> result dict;
  optimize_procurement : pyval -> dict -> result dict
}.

(** The calls that the pipeline makes, with their arguments. *)
Inductive Call : Type :=
| ForecastDemand (historical_data : pyval)
| AnalyzeStockLevels (inventory_data : pyval)
| CalculateReorderPoints (inventory_data : pyval) (forecasts : dict)
| OptimizeProcurement (supplier_data : pyval) (requirements : dict).

(** ** _generate_comprehensive_recommendations

    A recommendation stands for its sentence; the two counts are the
    [len] that the sentence prints. *)
Inductive Recommendation : Type :=
| LowOnStock (count : nat)
| OutOfStock (count : nat)
| ForecastsGenerated
| SupplierRecommendationsGenerated.

Definition count_if_any (inventory : dict) (key : string)
  (mk : nat -> Recommendation) : result (list Recommendation) :=
  let items := get_default inventory key PyNone in
  if truthy items then n <- py_len items ;; Ok [mk n] else Ok [].

Definition _generate_comprehensive_recommendations (results : dict)
  : result (list Recommendation) :=
  r1 <- match dict_get results "inventory" with
        | Some inventory =>
            inv <- as_dict inventory ;;
            low <- count_if_any inv "low_stock_items" LowOnStock ;;
            out <- count_if_any inv "out_of_stock_items" OutOfStock ;;
            Ok (low ++ out)
        | None => Ok []
        end ;;
  let r2 := if dict_has results "forecast" then [ForecastsGenerated] else [] in
  let r3 := if dict_has results "supplier_recommendations"
            then [SupplierRecommendationsGenerated] else [] in
  Ok (r1 ++ r2 ++ r3).

(** ** _get_collaboration_summary *)
Record Summary : Type := {
  agents_involved : list string;
  messages_queued : nat;
  collaboration_active : bool
}.

Definition _get_collaboration_summary (message_queue : nat) : Summary :=
  {| agents_involved := ["inventory_agent"; "forecasting_agent"; "supplier_agent"];
     messages_queued := message_queue;
     collaboration_active := (0 <? message_queue)%nat |}.

(** ** _handle_complex_request *)
Record Response : Type := {
  response_type : string;
  data : dict;
  recommendations : list Recommendation;
  collaboration_summary : Summary
}.

(** One element of the list comprehension over the low stock items. *)
Definition procurement_item (item : pyval) : result pyval :=
  match item with
  | PyDict d =>
      match dict_get d "name" with
      | Some n =>
          Ok (PyDict [("item_name", n);
                      ("quantity", get_default d "reorder_quantity" (PyInt 100));
                      ("urgency", PyStr "medium")])
      | None => Raise (Exn "KeyError" "name")
      end
  | _ => Raise (Exn "TypeError" "indices must be integers")
  end.

Definition procurement_items (low_stock_items : pyval) : result (list pyval) :=
  items <- py_iter low_stock_items ;; map_result procurement_item items.

Definition respond (message_queue : nat) (results : dict) : result Response :=
  recs <- _generate_comprehensive_recommendations results ;;
  Ok {| response_type := "comprehensive_analysis";
        data := results;
        recommendations := recs;
        collaboration_summary := _get_collaboration_summary message_queue |}.

(** The result, or the exception that ended the request, with the calls
    made to the agents in the order they were made. [message_queue] is
    the length of [self.message_queue]. *)
Definition _handle_complex_request (agents : DomainAgents)
  (message_queue : nat) (user_input : string) (context : dict)
  (intent : Intent) : result Response * list Call :=
  let historical_data :=
    get_default context "historical_demand_data" (PyList []) in
  let c1 := ForecastDemand historical_data in
  match forecast_demand agents historical_data with
  | Raise e => (Raise e, [c1])
  | Ok forecasts =>
  let results1 := dict_set [] "forecast" (PyDict forecasts) in
  let inventory_data := get_default context "inventory_data" (PyList []) in
  let c2 := AnalyzeStockLevels inventory_data in
  match analyze_stock_levels agents inventory_data with
  | Raise e => (Raise e, [c1; c2])
  | Ok inventory_analysis =>
  let c3 := CalculateReorderPoints inventory_data forecasts in
  match calculate_reorder_points agents inventory_data forecasts with
  | Raise e => (Raise e, [c1; c2; c3])
  | Ok reorder_analysis =>
  let results2 :=
    dict_set results1 "inventory"
      (PyDict (dict_merge inventory_analysis reorder_analysis)) in
  let low_stock_items :=
    get_default inventory_analysis "low_stock_items" (PyList []) in
  if truthy low_stock_items then
    let supplier_data := get_default context "supplier_data" (PyList []) in
    match procurement_items low_stock_items with
    | Raise e => (Raise e, [c1; c2; c3])
    | Ok items =>
    let requirements := [("items", PyList items)] in
    let c4 := OptimizeProcurement supplier_data requirements in
    match optimize_procurement agents supplier_data requirements with
    | Raise e => (Raise e, [c1; c2; c3; c4])
    | Ok procurement_recs =>
        (respond message_queue
           (dict_set results2 "supplier_recommendations"
              (PyDict procurement_recs)),
         [c1; c2; c3; c4])
    end
    end
  else (respond message_queue results2, [c1; c2; c3])
  end
  end
  end.

(** [process_user_request] on a request that takes the last branch; the
    three handlers of the other branches are not part of this
    development, and the note that the memory manager takes of the
    request is left out. *)
Definition process_user_request (agents : DomainAgents)
  (message_queue : nat) (user_input : string) (context : dict)
  : option (result Response * list Call) :=
  let intent := _analyze_intent user_input in
  match selected_branch intent with
  | ComplexRequest =>
      Some (_handle_complex_request agents message_queue user_input
              context intent)
  | _ => None
  end.

(** The response of a run that returned one, and the calls of a run. *)
Definition returned (run : option (result Response * list Call))
  : option Response :=
  match run with
  | Some (Ok response, _) => Some response
  | _ => None
  end.

Definition calls_made (run : option (result Response * list Call))
  : list Call :=
  match run with
  | Some (_, calls) => calls
  | None => []
  end.

End Collab.

(* ================================================================== *)
(** * The three specialised agents *)
(* ================================================================== *)

Module Agents.
Import Collab.

(** The parts that the orchestration does not own: the content of the
    agent memory and the numeric formulas that fill one entry. *)
Record Kernels : Type := {
  (** [InventoryAgent._get_historical_context()] *)
  historical_context : pyval;
  (** key and value of [forecasts[item_id] = {...}] for one item *)
  forecast_entry : dict -> string * pyval;
  (** the recommendation appended for an item with a demand history *)
  reorder_entry : dict -> pyval;
  (** the recommendation appended for one requirement *)
  procurement_entry : pyval -> dict -> pyval
}.

Section WithKernels.
Variable K : Kernels.

(** forecasting_agent.py, [forecast_demand]: items with fewer than
    three observations are skipped. *)
Fixpoint forecast_loop (items : list pyval) (forecasts : dict)
  : result dict :=
  match items with
  | [] => Ok forecasts
  | item :: rest =>
      d <- as_dict item ;;
      n <- py_len (get_default d "historical_demand" (PyList [])) ;;
      if (n <? 3)%nat then forecast_loop rest forecasts
      else let '(k, v) := forecast_entry K d in
           forecast_loop rest (dict_set forecasts k v)
  end.

Definition forecast_demand (historical_data : pyval) : result dict :=
  items <- py_iter historical_data ;;
  forecasts <- forecast_loop items [] ;;
  Ok [("demand_forecasts", PyDict forecasts)].

(** inventory_agent.py, [analyze_stock_levels]. *)
Definition initial_analysis : dict :=
  [("low_stock_items", PyList []);
   ("out_of_stock_items", PyList []);
   ("overstocked_items", PyList []);
   ("critical_items", PyList []);
   ("recommendations", PyList []);
   ("historical_insights", historical_context K)].

Definition analyze_item (analysis : dict) (item : pyval) : result dict :=
  d <- as_dict item ;;
  let current_stock := get_default d "current_stock" (PyInt 0) in
  let min_stock := get_default d "min_stock" (PyInt 0) in
  let max_stock := get_default d "max_stock" (PyInt 0) in
  let reorder_point := get_default d "reorder_point" (PyInt 0) in
  cur <- as_int current_stock ;;
  rp <- as_int reorder_point ;;
  a1 <- (if (cur <=? rp)%Z then
           mn <- as_int min_stock ;;
           Ok (dict_append analysis "low_stock_items"
                 (PyDict [("item_id", get_default d "id" PyNone);
                          ("name", get_default d "name" PyNone);
                          ("current_stock", current_stock);
                          ("reorder_point", reorder_point);
                          ("urgency",
                           PyStr (if (cur <=? mn)%Z then "high"
                                  else "medium"))]))
         else Ok analysis) ;;
  let a2 :=
    if (cur =? 0)%Z then
      dict_append a1 "out_of_stock_items"
        (PyDict [("item_id", get_default d "id" PyNone);
                 ("name", get_default d "name" PyNone);
                 ("impact", PyStr "critical")])
    else a1 in
  mx <- as_int max_stock ;;
  if (float_of_Z mx * 1.2 <? float_of_Z cur)%float then
    Ok (dict_append a2 "overstocked_items"
          (PyDict [("item_id", get_default d "id" PyNone);
                   ("name", get_default d "name" PyNone);
                   ("current_stock", current_stock);
                   ("max_stock", max_stock);
                   ("excess", PyInt (cur - mx))]))
  else Ok a2.

Fixpoint analyze_loop (items : list pyval) (analysis : dict) : result dict :=
  match items with
  | [] => Ok analysis
  | item :: rest =>
      analysis' <- analyze_item analysis item ;; analyze_loop rest analysis'
  end.

Definition analyze_stock_levels (inventory_data : pyval) : result dict :=
  items <- py_iter inventory_data ;; analyze_loop items initial_analysis.

(** inventory_agent.py, [calculate_reorder_points]: the forecast is
    received and not read. *)
Fixpoint reorder_loop (items : list pyval) : result (list pyval) :=
  match items with
  | [] => Ok []
  | item :: rest =>
      d <- as_dict item ;;
      let appended :=
        if truthy (get_default d "historical_demand" (PyList []))
        then [reorder_entry K d] else [] in
      recs <- reorder_loop rest ;;
      Ok (appended ++ recs)
  end.

Definition calculate_reorder_points (inventory_data : pyval)
  (demand_forecast : dict) : result dict :=
  items <- py_iter inventory_data ;;
  recs <- reorder_loop items ;;
  Ok [("reorder_recommendations", PyList recs)].

(** supplier_agent.py, [optimize_procurement]. *)
Definition optimize_procurement (supplier_data : pyval)
  (requirements : dict) : result dict :=
  items <- py_iter (get_default requirements "items" (PyList [])) ;;
  recs <- map_result
            (fun requirement =>
               d <- as_dict requirement ;;
               Ok (procurement_entry K supplier_data d))
            items ;;
  Ok [("procurement_recommendations", PyList recs)].
End WithKernels.

Definition source_agents (K : Kernels) : DomainAgents :=
  {| Collab.forecast_demand := forecast_demand K;
     Collab.analyze_stock_levels := analyze_stock_levels K;
     Collab.calculate_reorder_points := calculate_reorder_points K;
     Collab.optimize_procurement := optimize_procurement K |}.

(** Stand-ins for the formulas in the examples: an entry keeps the
    name of its item and leaves the figures out; the agent memory is
    empty. *)
Definition plain_kernels : Kernels :=
  {| historical_context := PyDict [];
     forecast_entry :=
       fun d => (match get_default d "id" PyNone with
                 | PyStr id => id
                 | _ => "None"
                 end,
                 PyDict [("item_name", get_default d "name" PyNone)]);
     reorder_entry :=
       fun d => PyDict [("item_id", get_default d "id" PyNone);
                        ("name", get_default d "name" PyNone)];
     procurement_entry :=
       fun _ d => PyDict [("item_name", get_default d "item_name" PyNone);
                          ("quantity", get_default d "quantity" (PyInt 1));
                          ("urgency", get_default d "urgency" (PyStr "medium"));
                          ("recommended_suppliers", PyList [])] |}.

(** A request context with one item, five in stock against a reorder
    point of ten. *)
Definition low_stock_context : dict :=
  [("inventory_data",
    PyList [PyDict [("id", PyStr "item_1"); ("name", PyStr "microprocessors");
                    ("current_stock", PyInt 5); ("min_stock", PyInt 2);
                    ("max_stock", PyInt 50); ("reorder_point", PyInt 10)]])].

(** The run of the request to optimize the supply chain on that context,
    with its result and its calls. *)
Definition low_stock_run : option (result Response * list Call) :=
  process_user_request (source_agents plain_kernels) 0
    "optimize supply chain" low_stock_context.

Definition low_stock_response : Response :=
  match low_stock_run with
  | Some (Ok response, _) => response
  | _ => {| response_type := EmptyString; data := []; recommendations := [];
            collaboration_summary := _get_collaboration_summary 0 |}
  end.

Definition low_stock_calls : list Call :=
  match low_stock_run with
  | Some (_, calls) => calls
  | None => []
  end.

End Agents.

(* ================================================================== *)
(** * rule_based_orchestrator.py: status report and initialisation *)
(* ================================================================== *)

Module RuleBasedSystem.
Import RuleBased.

(** ** get_agent_status *)

(** One entry of the [agents] dictionary of the report. *)
Record AgentInfo : Type := {
  info_name : string;
  info_status : string;
  info_capabilities : list string;
  info_success_rate : float;
  info_response_time : float;
  info_last_used : option datetime
}.

Record AgentStatus : Type := {
  total_agents : nat;
  active_agents : nat;
  busy_agents : nat;
  agents : list (string * AgentInfo)
}.

(** [len([a for a in self.registered_agents.values() if a.status == s])]. *)
Definition count_status (s : string) (reg : Registry) : nat :=
  List.length (filter (fun a => String.eqb (status a) s) reg).

Definition agent_info (a : AgentRegistration) : AgentInfo :=
  {| info_name := agent_name a;
     info_status := status a;
     info_capabilities := capability_names a;
     info_success_rate := success_rate a;
     info_response_time := response_time a;
     info_last_used := last_used a |}.

Definition get_agent_status (o : Orchestrator) : AgentStatus :=
  {| total_agents := List.length (registered_agents o);
     active_agents := count_status "active" (registered_agents o);
     busy_agents := count_status "busy" (registered_agents o);
     agents := map (fun a => (agent_id a, agent_info a)) (registered_agents o) |}.

(** ** get_routing_rules *)
Definition get_routing_rules (o : Orchestrator) : list RoutingRule :=
  routing_rules o.

(** ** The other two example agents *)
Definition forecasting_capabilities : list AgentCapability :=
  [ {| name := "demand_forecasting";
       description :=
         "Predict future demand based on historical data and trends";
       input_types := ["historical_data"; "market_trends"];
       output_types := ["demand_forecast"; "trend_analysis"];
       keywords := ["forecast"; "predict"; "demand"; "trends"];
       cap_priority := 1 |};
    {| name := "market_analysis";
       description := "Analyze market conditions and external factors";
       input_types := ["market_data"];
       output_types := ["market_insights"];
       keywords := ["market"; "analysis"; "trends"; "external"];
       cap_priority := 1 |} ].

Definition forecasting_answer : pyval :=
  PyDict
    [ ("agent", PyStr "forecasting_agent");
      ("action", PyStr "demand_forecast");
      ("result", PyStr "Demand forecast generated for next 3 months");
      ("forecast",
       PyDict
         [ ("microprocessors",
            PyDict [("q1", PyInt 150); ("q2", PyInt 180); ("q3", PyInt 200)]);
           ("memory_chips",
            PyDict [("q1", PyInt 200); ("q2", PyInt 220); ("q3", PyInt 250)]);
           ("steel_brackets",
            PyDict [("q1", PyInt 100); ("q2", PyInt 120); ("q3", PyInt 140)]) ]) ].

Definition DemandForecastingAgent (elapsed : float) : BaseAgent :=
  {| base_agent_id := "forecasting_agent";
     base_agent_name := "Demand Forecasting Agent";
     get_capabilities := forecasting_capabilities;
     handle_task := fun _ => Returned forecasting_answer elapsed |}.

Definition supplier_capabilities : list AgentCapability :=
  [ {| name := "supplier_management";
       description :=
         "Manage supplier relationships and performance evaluation";
       input_types := ["supplier_data"; "performance_metrics"];
       output_types := ["supplier_recommendations"; "performance_report"];
       keywords := ["supplier"; "vendor"; "performance"; "relationship"];
       cap_priority := 1 |};
    {| name := "supplier_evaluation";
       description := "Evaluate supplier performance and identify issues";
       input_types := ["supplier_data"];
       output_types := ["evaluation_report"];
       keywords := ["evaluate"; "performance"; "supplier"; "assessment"];
       cap_priority := 1 |} ].

Definition supplier_answer : pyval :=
  PyDict
    [ ("agent", PyStr "supplier_agent");
      ("action", PyStr "supplier_analysis");
      ("result", PyStr "Supplier performance analyzed");
      ("top_suppliers",
       PyList
         [ PyDict [("name", PyStr "TechCorp Solutions"); ("score", PyInt 95);
                   ("delivery_time", PyStr "2 days")];
           PyDict [("name", PyStr "Global Parts Inc"); ("score", PyInt 88);
                   ("delivery_time", PyStr "3 days")];
           PyDict [("name", PyStr "Premium Components"); ("score", PyInt 92);
                   ("delivery_time", PyStr "1 day")] ]) ].

Definition SupplierManagementAgent (elapsed : float) : BaseAgent :=
  {| base_agent_id := "supplier_agent";
     base_agent_name := "Supplier Management Agent";
     get_capabilities := supplier_capabilities;
     handle_task := fun _ => Returned supplier_answer elapsed |}.

(** ** initialize_rule_based_system

    The three agents register with the orchestrator of the module, in
    this order. *)
Definition initialize_rule_based_system (elapsed : float) : Orchestrator :=
  let o1 := snd (register_agent (InventoryManagementAgent elapsed)
                   new_orchestrator) in
  let o2 := snd (register_agent (DemandForecastingAgent elapsed) o1) in
  snd (register_agent (SupplierManagementAgent elapsed) o2).

(** ** States for the examples *)

(** A backup agent whose handler raises, the inventory agent and the
    forecasting agent, with a rule on the keyword [stock]. *)
Definition backup_setup : Orchestrator :=
  add_routing_rule (keyword_rule "stock" ["inventory_management"])
    (snd (register_agent (DemandForecastingAgent 0.1)
            (snd (register_agent (InventoryManagementAgent 0.1)
                    (snd (register_agent
                            (FailingAgent "backup_agent" "disk full")
                            new_orchestrator)))))).

(** An agent whose task is cancelled while its handler runs. *)
Definition CancelledAgent : BaseAgent :=
  {| base_agent_id := "inventory_agent";
     base_agent_name := "Inventory Management Agent";
     get_capabilities := inventory_capabilities;
     handle_task := fun _ => Raised (BaseExn "CancelledError" EmptyString) |}.

Definition cancelled_setup : Orchestrator :=
  add_routing_rule (keyword_rule "stock" ["inventory_management"])
    (snd (register_agent CancelledAgent new_orchestrator)).

(** A list is a prefix of another one. *)
Definition prefix_of {A : Type} (l1 l2 : list A) : Prop :=
  exists rest, l2 = l1 ++ rest.

(** No candidate is directly followed by one with a larger sort key. *)
Definition ranked (l : list AgentRegistration) : Prop :=
  Sorted (fun a b => key_lt (sort_key a) (sort_key b) = false) l.

End RuleBasedSystem.

(* ================================================================== *)
(** * The event queue, as a run of the bus sees it *)
(* ================================================================== *)

Module StreamingSystem.
Import Streaming.

(** The events of a list with the numbers of their puts, from [k] on. *)
Fixpoint numbered (k : nat) (events : list StreamingEvent)
  : list (nat * StreamingEvent) :=
  match events with
  | [] => []
  | event :: rest => (k, event) :: numbered (S k) rest
  end.

(** The number of events that [_process_event_queue] has taken out of
    the queue. *)
Definition consumed (b : Bus) : nat := puts b - List.length (event_queue b).

(** The sends of a fan-out that reaches every client. *)
Definition sends_to (link : Link) (clients : list Client)
  : list (Client * SendOutcome) :=
  map (fun c => (c, link c)) clients.

(** Every socket takes what is sent. *)
Definition all_open : Link := fun _ => Sent.

End StreamingSystem.

(* ================================================================== *)
(** * agent_orchestrator.py: the three handlers of one agent *)
(* ================================================================== *)

Module Handlers.
Import Collab.

(** A request of one agent to another, as the [collaborate_with_...]
    methods build it. The [request_id], made from the clock, is left
    out. *)
Record AgentRequest : Type := {
  request_type : string;
  target_agent : string;
  request_data : pyval
}.

(** inventory_agent.py *)
Definition collaborate_with_forecasting_agent (inventory_data : pyval)
  : AgentRequest :=
  {| request_type := "demand_forecast"; target_agent := "forecasting_agent";
     request_data := inventory_data |}.

Definition collaborate_with_supplier_agent (low_stock_items : pyval)
  : AgentRequest :=
  {| request_type := "supplier_recommendations";
     target_agent := "supplier_agent";
     request_data := low_stock_items |}.

(** forecasting_agent.py *)
Definition collaborate_with_inventory_agent (forecast_data : dict)
  : AgentRequest :=
  {| request_type := "update_forecast_data"; target_agent := "inventory_agent";
     request_data := PyDict forecast_data |}.

(** supplier_agent.py *)
Definition collaborate_with_logistics_agent (procurement_data : dict)
  : AgentRequest :=
  {| request_type := "shipping_optimization"; target_agent := "logistics_agent";
     request_data := PyDict procurement_data |}.

(** The two analyses of the supplier agent that only
    [_handle_supplier_request] calls. *)
Record SupplierAnalyses : Type := {
  analyze_supplier_performance : pyval -> result dict;
  assess_supplier_risks : pyval -> result dict
}.

(** What a handler returns. *)
Inductive Reply : Type :=
| InventoryAnalysis (analysis : dict) (summary : Summary)
| DemandForecast (forecasts : dict) (summary : Summary)
| SupplierAnalysis (performance risks : dict) (summary : Summary)
| ComprehensiveAnalysis (response : Response).

Definition summary_of (reply : Reply) : Summary :=
  match reply with
  | InventoryAnalysis _ s | DemandForecast _ s | SupplierAnalysis _ _ s => s
  | ComprehensiveAnalysis r => collaboration_summary r
  end.

Definition summary (message_queue : list AgentRequest) : Summary :=
  _get_collaboration_summary (List.length message_queue).

(** ** _get_forecast_data *)
Definition demand_history (item : pyval) : result pyval :=
  d <- as_dict item ;;
  Ok (PyDict [("id", get_default d "id" PyNone);
              ("name", get_default d "name" PyNone);
              ("historical_demand",
               get_default d "historical_demand" (PyList []))]).

Definition _get_forecast_data (agents : DomainAgents) (inventory_data : pyval)
  : result dict :=
  items <- py_iter inventory_data ;;
  historical_data <- map_result demand_history items ;;
  forecast_demand agents (PyList historical_data).

(** ** _handle_inventory_request

    A handler gives its result, or the exception that ended it, and the
    message queue as it has left it. *)
Definition forecasting_step (agents : DomainAgents)
  (message_queue : list AgentRequest) (inventory_data : pyval)
  (inventory_analysis : dict) : result dict * list AgentRequest :=
  let queue1 :=
    message_queue ++ [collaborate_with_forecasting_agent inventory_data] in
  match _get_forecast_data agents inventory_data with
  | Raise e => (Raise e, queue1)
  | Ok forecast_data =>
      match calculate_reorder_points agents inventory_data forecast_data with
      | Raise e => (Raise e, queue1)
      | Ok reorder_analysis =>
          (Ok (dict_set inventory_analysis "reorder_analysis"
                 (PyDict reorder_analysis)), queue1)
      end
  end.

Definition supplier_step (agents : DomainAgents)
  (message_queue : list AgentRequest) (context : dict)
  (inventory_analysis : dict) : result dict * list AgentRequest :=
  let low_stock_items :=
    get_default inventory_analysis "low_stock_items" (PyList []) in
  if truthy low_stock_items then
    let queue1 :=
      message_queue ++ [collaborate_with_supplier_agent low_stock_items] in
    let supplier_data := get_default context "supplier_data" (PyList []) in
    match procurement_items low_stock_items with
    | Raise e => (Raise e, queue1)
    | Ok items =>
        match optimize_procurement agents supplier_data
                [("items", PyList items)] with
        | Raise e => (Raise e, queue1)
        | Ok procurement_recs =>
            (Ok (dict_set inventory_analysis "supplier_recommendations"
                   (PyDict procurement_recs)), queue1)
        end
    end
  else (Ok inventory_analysis, message_queue).

Definition _handle_inventory_request (agents : DomainAgents)
  (message_queue : list AgentRequest) (user_input : string) (context : dict)
  (intent : Intent) : result Reply * list AgentRequest :=
  let inventory_data := get_default context "inventory_data" (PyList []) in
  match analyze_stock_levels agents inventory_data with
  | Raise e => (Raise e, message_queue)
  | Ok inventory_analysis =>
      match (if needs_forecasting intent
             then forecasting_step agents message_queue inventory_data
                    inventory_analysis
             else (Ok inventory_analysis, message_queue)) with
      | (Raise e, queue1) => (Raise e, queue1)
      | (Ok analysis1, queue1) =>
          match (if needs_supplier_recommendations intent
                 then supplier_step agents queue1 context analysis1
                 else (Ok analysis1, queue1)) with
          | (Raise e, queue2) => (Raise e, queue2)
          | (Ok analysis2, queue2) =>
              (Ok (InventoryAnalysis analysis2 (summary queue2)), queue2)
          end
      end
  end.

(** ** _handle_forecasting_request *)
Definition _handle_forecasting_request (agents : DomainAgents)
  (message_queue : list AgentRequest) (user_input : string) (context : dict)
  (intent : Intent) : result Reply * list AgentRequest :=
  let historical_data :=
    get_default context "historical_demand_data" (PyList []) in
  match forecast_demand agents historical_data with
  | Raise e => (Raise e, message_queue)
  | Ok forecasts =>
      let queue1 :=
        if needs_inventory_integration intent
        then message_queue ++ [collaborate_with_inventory_agent forecasts]
        else message_queue in
      (Ok (DemandForecast forecasts (summary queue1)), queue1)
  end.

(** ** _handle_supplier_request *)
Definition _handle_supplier_request (analyses : SupplierAnalyses)
  (message_queue : list AgentRequest) (user_input : string) (context : dict)
  (intent : Intent) : result Reply * list AgentRequest :=
  let supplier_data := get_default context "supplier_data" (PyList []) in
  match analyze_supplier_performance analyses supplier_data with
  | Raise e => (Raise e, message_queue)
  | Ok performance_analysis =>
      match assess_supplier_risks analyses supplier_data with
      | Raise e => (Raise e, message_queue)
      | Ok risk_assessment =>
          let queue1 :=
            if needs_logistics_optimization intent
            then message_queue
                 ++ [collaborate_with_logistics_agent
                       [("supplier_data", supplier_data);
                        ("performance_analysis", PyDict performance_analysis)]]
            else message_queue in
          (Ok (SupplierAnalysis performance_analysis risk_assessment
                 (summary queue1)), queue1)
      end
  end.

(** ** process_user_request, with its four branches

    The note that the memory manager takes of the request is left out,
    as in [Collab.process_user_request]. *)
Definition process_user_request (agents : DomainAgents)
  (analyses : SupplierAnalyses) (message_queue : list AgentRequest)
  (user_input : string) (context : dict)
  : result Reply * list AgentRequest :=
  let intent := _analyze_intent user_input in
  match selected_branch intent with
  | InventoryRequest =>
      _handle_inventory_request agents message_queue user_input context intent
  | ForecastingRequest =>
      _handle_forecasting_request agents message_queue user_input context
        intent
  | SupplierRequest =>
      _handle_supplier_request analyses message_queue user_input context
        intent
  | ComplexRequest =>
      match fst (_handle_complex_request agents (List.length message_queue)
                   user_input context intent) with
      | Ok response => (Ok (ComprehensiveAnalysis response), message_queue)
      | Raise e => (Raise e, message_queue)
      end
  end.

(** Requests one after the other on one orchestrator: a request that
    raises leaves the queue as it is at that point, and the next one
    goes on from there. *)
Fixpoint process_all (agents : DomainAgents) (analyses : SupplierAnalyses)
  (message_queue : list AgentRequest) (requests : list (string * dict))
  : list (result Reply) * list AgentRequest :=
  match requests with
  | [] => ([], message_queue)
  | (user_input, context) :: rest =>
      let '(reply, queue1) :=
        process_user_request agents analyses message_queue user_input
          context in
      let '(replies, queue2) := process_all agents analyses queue1 rest in
      (reply :: replies, queue2)
  end.

(** Supplier analyses that find nothing, for the examples. *)
Definition no_analyses : SupplierAnalyses :=
  {| analyze_supplier_performance := fun _ => Ok [];
     assess_supplier_risks := fun _ => Ok [] |}.

(** Domain agents whose forecast fails. *)
Definition forecast_fails (agents : DomainAgents) : DomainAgents :=
  {| forecast_demand := fun _ => Raise (Exn "ValueError" "no data");
     analyze_stock_levels := analyze_stock_levels agents;
     calculate_reorder_points := calculate_reorder_points agents;
     optimize_procurement := optimize_procurement agents |}.

End Handlers.

(* ================================================================== *)
(** * The analyses of the agents, by their shape *)
(* ================================================================== *)

Module AgentResults.
Import Collab Agents.

(** The dictionary that [analyze_stock_levels] builds, with the three
    lists that its loop fills. *)
Definition analysis_of (K : Kernels) (low out over : list pyval) : dict :=
  [("low_stock_items", PyList low);
   ("out_of_stock_items", PyList out);
   ("overstocked_items", PyList over);
   ("critical_items", PyList []);
   ("recommendations", PyList []);
   ("historical_insights", historical_context K)].

(** An entry of [low_stock_items]. *)
Definition low_stock_entry (v : pyval) : Prop :=
  exists id name current_stock reorder_point urgency,
    v = PyDict [("item_id", id); ("name", name);
                ("current_stock", current_stock);
                ("reorder_point", reorder_point);
                ("urgency", PyStr urgency)] /\
    (urgency = "high" \/ urgency = "medium").

(** The requirement that the orchestrator makes of an entry. *)
Definition standard_requirement (v : pyval) : Prop :=
  exists name,
    v = PyDict [("item_name", name); ("quantity", PyInt 100);
                ("urgency", PyStr "medium")].

(** An item with fewer than three observations of its demand. *)
Definition short_history (item : pyval) : Prop :=
  exists d n,
    item = PyDict d /\
    py_len (get_default d "historical_demand" (PyList [])) = Ok n /\
    n < 3.

(** The items that [analyze_stock_levels] lists as low on stock and as
    out of stock, and the entries it makes of them. *)
Definition stock_figure (d : dict) (key : string) : option Z :=
  match as_int (get_default d key (PyInt 0)) with
  | Ok z => Some z
  | Raise _ => None
  end.

Definition is_low (item : pyval) : bool :=
  match item with
  | PyDict d =>
      match stock_figure d "current_stock", stock_figure d "reorder_point" with
      | Some cur, Some rp => (cur <=? rp)%Z
      | _, _ => false
      end
  | _ => false
  end.

Definition is_out (item : pyval) : bool :=
  match item with
  | PyDict d =>
      match stock_figure d "current_stock" with
      | Some cur => (cur =? 0)%Z
      | None => false
      end
  | _ => false
  end.

Definition urgency_of (d : dict) : string :=
  match stock_figure d "current_stock", stock_figure d "min_stock" with
  | Some cur, Some mn => if (cur <=? mn)%Z then "high" else "medium"
  | _, _ => "medium"
  end.

Definition low_entry_of (item : pyval) : pyval :=
  match item with
  | PyDict d =>
      PyDict [("item_id", get_default d "id" PyNone);
              ("name", get_default d "name" PyNone);
              ("current_stock", get_default d "current_stock" (PyInt 0));
              ("reorder_point", get_default d "reorder_point" (PyInt 0));
              ("urgency", PyStr (urgency_of d))]
  | _ => PyNone
  end.

Definition out_entry_of (item : pyval) : pyval :=
  match item with
  | PyDict d =>
      PyDict [("item_id", get_default d "id" PyNone);
              ("name", get_default d "name" PyNone);
              ("impact", PyStr "critical")]
  | _ => PyNone
  end.

(** The requirement that the orchestrator makes of an item low on
    stock. *)
Definition requirement_of (item : pyval) : pyval :=
  match item with
  | PyDict d =>
      PyDict [("item_name", get_default d "name" PyNone);
              ("quantity", PyInt 100); ("urgency", PyStr "medium")]
  | _ => PyNone
  end.

(** An item whose name is not a string (or that has none). *)
Definition nameless (item : pyval) : Prop :=
  exists d, item = PyDict d /\
            forall s, get_default d "name" PyNone <> PyStr s.

(** Two items, the second with a demand history of two days. *)
Definition two_items : pyval :=
  PyList [PyDict [("id", PyStr "item_1"); ("name", PyStr "microprocessors")];
          PyDict [("id", PyStr "item_2"); ("name", PyStr "memory chips");
                  ("historical_demand", PyList [PyInt 4; PyInt 6])]].

End AgentResults.

(* ================================================================== *)
(** * supplier_agent.py: the selection of suppliers *)
(* ================================================================== *)

Module SupplierSelection.
Import Collab.

(** [v.lower()]: only strings have the method. *)
Definition lower_method (v : pyval) : result string :=
  match v with
  | PyStr s => Ok (lower s)
  | _ => Raise (Exn "AttributeError" "object has no attribute lower")
  end.

(** ** _supplier_can_fulfill *)
Definition _supplier_can_fulfill (supplier requirement : dict) : result bool :=
  products <- lower_method (get_default supplier "products" (PyStr EmptyString)) ;;
  item_name <- lower_method
                 (get_default requirement "item_name" (PyStr EmptyString)) ;;
  Ok (str_in item_name products || str_in "general" products).

(** The arithmetic of a candidate: the score of
    [_calculate_procurement_score] and the product
    [supplier.get('unit_cost', 0) * quantity]. *)
Record Scoring : Type := {
  _calculate_procurement_score : dict -> dict -> result float;
  total_cost : pyval -> pyval -> result pyval
}.

(** An element of [suitable_suppliers]. *)
Record Candidate : Type := {
  supplier_id : pyval;
  supplier_name : pyval;
  score : float;
  delivery_time : pyval;
  cost : pyval;
  reliability : pyval
}.

(** ** _generate_procurement_recommendation

    An advice stands for its sentence. *)
Inductive Advice : Type :=
| NoSuitableSuppliers
| UseForFastestDelivery (name : pyval)
| UseForBestPerformance (name : pyval).

Definition is_urgent (urgency : pyval) : bool :=
  match urgency with
  | PyStr s => String.eqb s "urgent"
  | _ => false
  end.

Definition _generate_procurement_recommendation (suppliers : list Candidate)
  (urgency : pyval) : Advice :=
  match suppliers with
  | [] => NoSuitableSuppliers
  | best_supplier :: _ =>
      if is_urgent urgency
      then UseForFastestDelivery (supplier_name best_supplier)
      else UseForBestPerformance (supplier_name best_supplier)
  end.

(** ** optimize_procurement *)
Record ProcurementRecommendation : Type := {
  item_name : pyval;
  quantity : pyval;
  urgency : pyval;
  recommended_suppliers : list Candidate;
  recommendation : Advice
}.

Section WithScoring.
Variable S : Scoring.

(** One pass of the inner loop. *)
Definition candidate_of (requirement : dict) (quantity : pyval)
  (supplier : pyval) : result (option Candidate) :=
  s <- as_dict supplier ;;
  can <- _supplier_can_fulfill s requirement ;;
  if can then
    sc <- _calculate_procurement_score S s requirement ;;
    c <- total_cost S (get_default s "unit_cost" (PyInt 0)) quantity ;;
    Ok (Some {| supplier_id := get_default s "id" PyNone;
                supplier_name := get_default s "name" PyNone;
                score := sc;
                delivery_time := get_default s "delivery_time" (PyInt 0);
                cost := c;
                reliability := get_default s "reliability_score" (PyInt 0) |})
  else Ok None.

Fixpoint suitable_suppliers (requirement : dict) (quantity : pyval)
  (suppliers : list pyval) : result (list Candidate) :=
  match suppliers with
  | [] => Ok []
  | supplier :: rest =>
      c <- candidate_of requirement quantity supplier ;;
      cs <- suitable_suppliers requirement quantity rest ;;
      Ok (match c with Some x => x :: cs | None => cs end)
  end.

(** [sort(key=lambda x: x['score'], reverse=True)]: descending and
    stable, as the sort of the candidates of the router. *)
Fixpoint insert_by_score (c : Candidate) (l : list Candidate)
  : list Candidate :=
  match l with
  | [] => [c]
  | b :: l' =>
      if (score c <? score b)%float then b :: insert_by_score c l'
      else c :: l
  end.

Definition sort_by_score (l : list Candidate) : list Candidate :=
  fold_right insert_by_score [] l.

Definition recommend (supplier_data : pyval) (requirement : pyval)
  : result ProcurementRecommendation :=
  d <- as_dict requirement ;;
  let quantity := get_default d "quantity" (PyInt 1) in
  let urgency := get_default d "urgency" (PyStr "medium") in
  suppliers <- py_iter supplier_data ;;
  suitable <- suitable_suppliers d quantity suppliers ;;
  let ranked := sort_by_score suitable in
  Ok {| item_name := get_default d "item_name" PyNone;
        quantity := quantity;
        urgency := urgency;
        recommended_suppliers := firstn 3 ranked;
        recommendation := _generate_procurement_recommendation ranked urgency |}.

Definition optimize_procurement (supplier_data : pyval) (requirements : dict)
  : result (list ProcurementRecommendation) :=
  items <- py_iter (get_default requirements "items" (PyList [])) ;;
  map_result (recommend supplier_data) items.
End WithScoring.

(** A supplier can fulfil a requirement. *)
Definition can_fulfill (requirement : dict) (supplier : pyval) : Prop :=
  exists s, supplier = PyDict s /\
            _supplier_can_fulfill s requirement = Ok true.

(** A candidate was made of a supplier of the list. *)
Definition candidate_from (suppliers : list pyval) (requirement : dict)
  (c : Candidate) : Prop :=
  exists s, In (PyDict s) suppliers /\
            _supplier_can_fulfill s requirement = Ok true /\
            supplier_name c = get_default s "name" PyNone /\
            supplier_id c = get_default s "id" PyNone.

(** The candidates are in descending order of their scores, each next
    to the following one. *)
Definition by_score (l : list Candidate) : Prop :=
  Sorted (fun a b => (score a <? score b)%float = false) l.

(** A supplier whose [products] is a string, or missing. *)
Definition has_products (supplier : pyval) : Prop :=
  exists s p, supplier = PyDict s /\
              get_default s "products" (PyStr EmptyString) = PyStr p.

(** A scoring for the examples: every supplier scores the same and the
    cost is not computed. *)
Definition flat_scoring : Scoring :=
  {| _calculate_procurement_score := fun _ _ => Ok 0.5%float;
     total_cost := fun _ _ => Ok PyNone |}.

Definition general_supplier : pyval :=
  PyDict [("id", PyStr "SUP-1"); ("name", PyStr "TechCorp Solutions");
          ("products", PyStr "General electronics")].

Definition chip_supplier : pyval :=
  PyDict [("id", PyStr "SUP-2"); ("name", PyStr "ChipWorks");
          ("products", PyStr "Microprocessors, memory")].

(** An item without a name, three in stock against a reorder point of
    ten. *)
Definition nameless_item : pyval :=
  PyDict [("id", PyStr "item_9"); ("current_stock", PyInt 3);
          ("reorder_point", PyInt 10)].

End SupplierSelection.

(* ================================================================== *)
(** * forecasting_agent.py: the four methods and their ensemble *)
(* ================================================================== *)

Module ForecastMethods.
Import Collab.

(** The numbers of a demand history and Python's arithmetic on them.
    The data are taken to be numbers, so that the operations return;
    the divisors of the source are lengths of non-empty lists, an
    average that was tested to be positive, and the denominator of the
    slope, which is not zero for two points or more. *)
Record Arithmetic : Type := {
  num : Type;
  zero : num;
  one : num;
  of_nat : nat -> num;
  add : num -> num -> num;
  sub : num -> num -> num;
  mul : num -> num -> num;
  div : num -> num -> num;
  (** [max(0, y)] *)
  max0 : num -> num;
  (** [y > 0] *)
  positive : num -> bool;
  alpha : num;
  (** [[0.3, 0.3, 0.2, 0.2]] *)
  weights : list num;
  four_weights : List.length weights = 4
}.

Section WithArithmetic.
Variable N : Arithmetic.

(** [sum(l)] *)
Definition sum (l : list (num N)) : num N := fold_left (add N) l (zero N).

(** [l[-n:]] *)
Definition last_n (n : nat) (l : list (num N)) : list (num N) :=
  skipn (List.length l - n) l.

(** [[data[-1]] * periods if data else [0] * periods] *)
Definition repeat_last (data : list (num N)) (periods : nat)
  : list (num N) :=
  match data with
  | [] => repeat (zero N) periods
  | x :: rest => repeat (List.last rest x) periods
  end.

Definition _simple_moving_average (data : list (num N)) (periods : nat)
  : list (num N) :=
  if (List.length data <? 3)%nat then repeat_last data periods
  else
    let window_size := Nat.min 3 (List.length data) in
    let recent_avg :=
      div N (sum (last_n window_size data)) (of_nat N window_size) in
    repeat recent_avg periods.

Definition _exponential_smoothing (data : list (num N)) (periods : nat)
  : list (num N) :=
  match data with
  | [] => repeat (zero N) periods
  | first :: rest =>
      let last_forecast :=
        fold_left
          (fun previous x =>
             add N (mul N (alpha N) x)
                   (mul N (sub N (one N) (alpha N)) previous))
          rest first in
      repeat last_forecast periods
  end.

Definition _calculate_slope (x y : list (num N)) : num N :=
  let n := of_nat N (List.length x) in
  let sum_x := sum x in
  let sum_y := sum y in
  let sum_xy := sum (map (fun p => mul N (fst p) (snd p)) (combine x y)) in
  let sum_x2 := sum (map (fun xi => mul N xi xi) x) in
  div N (sub N (mul N n sum_xy) (mul N sum_x sum_y))
        (sub N (mul N n sum_x2) (mul N sum_x sum_x)).

Definition _trend_analysis (data : list (num N)) (periods : nat)
  : list (num N) :=
  if (List.length data <? 2)%nat then repeat_last data periods
  else
    let n := List.length data in
    let x := map (of_nat N) (seq 0 n) in
    let slope := _calculate_slope x data in
    let last_value := List.last data (zero N) in
    map (fun i => max0 N (add N last_value (mul N slope (of_nat N (i + 1)))))
        (seq 0 periods).

(** The values of one month: [data[m]], [data[m + 12]], ... *)
Definition month_values (data : list (num N)) (month : nat)
  : list (num N) :=
  map snd
    (filter (fun p => Nat.eqb (fst p mod 12) month)
            (combine (seq 0 (List.length data)) data)).

(** [_calculate_seasonal_indices(data).get(month, 1.0)] *)
Definition seasonal_index (data : list (num N)) (month : nat) : num N :=
  if (List.length data <? 12)%nat then one N
  else
    let overall_avg := div N (sum data) (of_nat N (List.length data)) in
    let values := month_values data month in
    let avg :=
      match values with
      | [] => overall_avg
      | _ => div N (sum values) (of_nat N (List.length values))
      end in
    if positive N overall_avg then div N avg overall_avg else one N.

Definition _seasonal_adjustment (data : list (num N)) (periods : nat)
  : list (num N) :=
  if (List.length data <? 12)%nat then _simple_moving_average data periods
  else
    let base_forecast := _simple_moving_average data periods in
    map (fun p => mul N (snd p) (seasonal_index data (fst p mod 12)))
        (combine (seq 0 (List.length base_forecast)) base_forecast).

(** [forecast[i] * weight], for the forecasts that [zip] pairs with a
    weight. *)
Definition weighted_terms (forecasts : list (list (num N))) (i : nat)
  : result (list (num N)) :=
  map_result (fun fw => x <- index (fst fw) i ;; Ok (mul N x (snd fw)))
             (combine forecasts (weights N)).

Definition _ensemble_forecast (forecasts : list (list (num N)))
  : result (list (num N)) :=
  match forecasts with
  | [] => Ok (repeat (zero N) 30)
  | first :: _ =>
      map_result (fun i => terms <- weighted_terms forecasts i ;;
                           Ok (sum terms))
                 (seq 0 (List.length first))
  end.

(** The four methods, as [forecast_demand] lists them. *)
Definition methods (data : list (num N)) (periods : nat)
  : list (list (num N)) :=
  [_simple_moving_average data periods;
   _exponential_smoothing data periods;
   _trend_analysis data periods;
   _seasonal_adjustment data periods].

(** The ensemble of [forecast_demand]. *)
Definition ensemble_of (data : list (num N)) (periods : nat)
  : result (list (num N)) :=
  _ensemble_forecast (methods data periods).
End WithArithmetic.

(** Integers with the division rounded down, for the examples. *)
Definition integers : Arithmetic :=
  {| num := Z; zero := 0%Z; one := 1%Z; of_nat := Z.of_nat;
     add := Z.add; sub := Z.sub; mul := Z.mul; div := Z.div;
     max0 := Z.max 0; positive := fun z => (0 <? z)%Z;
     alpha := 1%Z; weights := [3; 3; 2; 2]%Z; four_weights := eq_refl |}.

End ForecastMethods.

(* ================================================================== *)
(** * The statements of the specification that the code does not meet

    Each is written down as the specification has it, at given
    arguments, to be tested against the code. *)
(* ================================================================== *)

Module AsStated.
Import RuleBased.

(** [route_task] tries the one agent [a] once and returns its answer
    [value] for the request [task]. *)
Definition answered_by (clock : nat -> datetime) (task : TaskRequest)
  (o : Orchestrator) (a : AgentRegistration) (value : pyval) : Prop :=
  exists elapsed o' attempt,
    route_task clock task o =
      (Ok (Success value (agent_name a) elapsed (task_id task)), o', [attempt])
    /\ attempt_agent attempt = agent_id a.

(** The error of an exhausted dispatch names an agent (by its key or by
    its name) together with the reason of its failure. *)
Definition error_lists (error : string) (a : AgentRegistration)
  (reason : string) : Prop :=
  (str_in (agent_id a) error = true \/ str_in (agent_name a) error = true)
  /\ str_in reason error = true.

(** When every candidate fails, the result is a failure whose error
    lists every candidate with its reason, and the success rate of every
    candidate is lower than before. *)
Definition exhaustion_reported (clock : nat -> datetime) (task : TaskRequest)
  (o : Orchestrator) : Prop :=
  exists error o' attempts,
    route_task clock task o = (Ok (Failure error (task_id task)), o', attempts)
    /\ (forall a cls reason,
          In a (find_best_agents o task) ->
          handler a task = Raised (Exn cls reason) ->
          error_lists error a reason)
    /\ (forall a,
          In a (find_best_agents o task) ->
          exists a', In a' (registered_agents o')
                     /\ agent_id a' = agent_id a
                     /\ (success_rate a' <? success_rate a)%float = true).

(** Registering under a key that is present fails with
    [DuplicateHandlerError] and leaves the registry as it was. *)
Definition duplicate_rejected (agent : BaseAgent) (o : Orchestrator) : Prop :=
  (exists msg,
     fst (register_agent agent o) = Raise (Exn "DuplicateHandlerError" msg))
  /\ registered_agents (snd (register_agent agent o)) = registered_agents o.

(** A registered agent that is [busy] and has a capability that a
    matching rule asks for is among the candidates. *)
Definition busy_still_selected (o : Orchestrator) (task : TaskRequest)
  (a : AgentRegistration) : Prop :=
  In a (registered_agents o) ->
  status a = "busy" ->
  (exists rule cap,
     In rule (routing_rules o) /\ _evaluate_rule rule task = true /\
     In cap (required_capabilities rule) /\ In cap (capability_names a)) ->
  In (agent_id a) (map agent_id (find_best_agents o task)).

(** In a fan-out, a client whose send raises [ConnectionClosed] is
    taken out of the list of clients, and the event is still sent to
    every other client of the list. *)
Definition closed_client_dropped (link : Streaming.Link)
  (event : Streaming.StreamingEvent) (clients : list Streaming.Client)
  (c : Streaming.Client) : Prop :=
  In c clients ->
  link c = Streaming.ConnectionClosed ->
  ~ In c (snd (fst (Streaming.broadcast_event link event clients))) /\
  (forall c', In c' clients -> c' <> c ->
              In c' (map fst (snd (Streaming.broadcast_event link event clients)))).

(** The request to optimize the supply chain makes the four calls, the
    forecast first and handed to the inventory step, and the composite
    result has three entries, none of them empty. *)
Definition three_domain_entries (agents : Collab.DomainAgents)
  (message_queue : nat) (context : Collab.dict) : Prop :=
  exists response h i f s requirements e1 e2 e3,
    Collab.process_user_request agents message_queue "optimize supply chain"
      context
    = Some (Ok response,
            [Collab.ForecastDemand h; Collab.AnalyzeStockLevels i;
             Collab.CalculateReorderPoints i f;
             Collab.OptimizeProcurement s requirements]) /\
    Collab.forecast_demand agents h = Ok f /\
    Collab.data response
    = [("forecast", e1); ("inventory", e2); ("supplier_recommendations", e3)] /\
    truthy e1 = true /\ truthy e2 = true /\ truthy e3 = true.

End AsStated.

(* ================================================================== *)
(** * Facts about the registry and the router *)
(* ================================================================== *)

Module RuleBasedFacts.
Import RuleBased.

(** ** Dictionary assignment *)

Lemma registry_set_in (a x : AgentRegistration) (reg : Registry) :
  In x (registry_set a reg) -> x = a \/ In x reg.
Proof.
  induction reg as [|b reg IH]; simpl.
  - intros [<-|[]]; now left.
  - destruct (String.eqb (agent_id b) (agent_id a)); simpl.
    + intros [<-|H]; auto.
    + intros [<-|H]; auto. destruct (IH H); auto.
Qed.

Lemma registry_set_new (a : AgentRegistration) (reg : Registry) :
  In a (registry_set a reg).
Proof.
  induction reg as [|b reg IH]; simpl; auto.
  destruct (String.eqb (agent_id b) (agent_id a)); simpl; auto.
Qed.

Lemma registry_set_other (a x : AgentRegistration) (reg : Registry) :
  In x reg -> agent_id x <> agent_id a -> In x (registry_set a reg).
Proof.
  induction reg as [|b reg IH]; simpl; [tauto|].
  intros [->|H] Hne.
  - destruct (String.eqb_spec (agent_id x) (agent_id a)); [congruence|now left].
  - destruct (String.eqb (agent_id b) (agent_id a)); simpl; auto.
Qed.

Lemma registry_set_ids_in (a : AgentRegistration) (reg : Registry) (id : string) :
  In id (map agent_id (registry_set a reg)) <->
  id = agent_id a \/ In id (map agent_id reg).
Proof.
  induction reg as [|b reg IH]; simpl.
  - intuition.
  - destruct (String.eqb_spec (agent_id b) (agent_id a)) as [E|E]; simpl.
    + rewrite E. intuition.
    + rewrite IH. intuition.
Qed.

Lemma registry_set_wf (a : AgentRegistration) (reg : Registry) :
  wf_registry reg -> wf_registry (registry_set a reg).
Proof.
  unfold wf_registry. induction reg as [|b reg IH]; simpl; intros H.
  - constructor; [intros []|constructor].
  - inversion H as [|? ? Hb Hreg]; subst.
    destruct (String.eqb_spec (agent_id b) (agent_id a)) as [E|E]; simpl.
    + constructor; [now rewrite <- E|assumption].
    + constructor; [|now apply IH].
      rewrite registry_set_ids_in. intros [Heq|Hin]; [congruence|contradiction].
Qed.

(** ** Removal of duplicates in [find_best_agents] *)

Lemma fold_set_in (l : list AgentRegistration) (d : Registry) (x : AgentRegistration) :
  In x (fold_left (fun d a => registry_set a d) l d) -> In x l \/ In x d.
Proof.
  revert d. induction l as [|a l IH]; simpl; intros d H; [now right|].
  destruct (IH _ H) as [Hl|Hd]; [now left; right|].
  destruct (registry_set_in _ _ _ Hd) as [->|Hd']; auto.
Qed.

Lemma fold_set_wf (l : list AgentRegistration) (d : Registry) :
  wf_registry d -> wf_registry (fold_left (fun d a => registry_set a d) l d).
Proof.
  revert d. induction l as [|a l IH]; simpl; intros d H; [assumption|].
  apply IH, registry_set_wf, H.
Qed.

Lemma fold_set_keeps (l : list AgentRegistration) (d : Registry) (x : AgentRegistration) :
  same_id_same_agent (l ++ d) ->
  In x l \/ In x d ->
  In x (fold_left (fun d a => registry_set a d) l d).
Proof.
  revert d. induction l as [|a l IH]; simpl; intros d Hsame Hx.
  - destruct Hx as [[]|Hx]; assumption.
  - apply IH.
    + intros u v Hu Hv Huv. apply Hsame; [| |assumption].
      * apply in_app_or in Hu. destruct Hu as [Hu|Hu].
        { right. apply in_or_app. now left. }
        destruct (registry_set_in _ _ _ Hu) as [->|Hu']; [now left|].
        right. apply in_or_app. now right.
      * apply in_app_or in Hv. destruct Hv as [Hv|Hv].
        { right. apply in_or_app. now left. }
        destruct (registry_set_in _ _ _ Hv) as [->|Hv']; [now left|].
        right. apply in_or_app. now right.
    + destruct Hx as [[->|Hx]|Hx].
      * right. apply registry_set_new.
      * now left.
      * right.
        destruct (string_dec (agent_id x) (agent_id a)) as [E|E].
        -- assert (x = a) as ->.
           { apply Hsame; [right; apply in_or_app; now right|now left|assumption]. }
           apply registry_set_new.
        -- now apply registry_set_other.
Qed.

Lemma unique_by_id_in (l : list AgentRegistration) (x : AgentRegistration) :
  In x (unique_by_id l) -> In x l.
Proof.
  intros H. destruct (fold_set_in _ _ _ H) as [H'|[]]. exact H'.
Qed.

Lemma unique_by_id_keeps (l : list AgentRegistration) (x : AgentRegistration) :
  same_id_same_agent l -> In x l -> In x (unique_by_id l).
Proof.
  intros Hsame Hx. apply fold_set_keeps; [now rewrite app_nil_r|now left].
Qed.

Lemma unique_by_id_wf (l : list AgentRegistration) :
  wf_registry (unique_by_id l).
Proof. apply fold_set_wf. constructor. Qed.

(** ** The sort *)

Lemma insert_desc_perm (a : AgentRegistration) (l : list AgentRegistration) :
  Permutation (a :: l) (insert_desc a l).
Proof.
  induction l as [|b l IH]; simpl; [reflexivity|].
  destruct (key_lt (sort_key a) (sort_key b)); [|reflexivity].
  rewrite perm_swap. now apply perm_skip.
Qed.

Lemma sort_desc_perm (l : list AgentRegistration) :
  Permutation l (sort_desc l).
Proof.
  induction l as [|a l IH]; simpl; [reflexivity|].
  rewrite <- insert_desc_perm. now apply perm_skip.
Qed.

Lemma sort_desc_in (l : list AgentRegistration) (x : AgentRegistration) :
  In x (sort_desc l) <-> In x l.
Proof.
  split; apply Permutation_in; [symmetry|]; apply sort_desc_perm.
Qed.

Lemma sort_desc_wf (l : list AgentRegistration) :
  wf_registry l -> wf_registry (sort_desc l).
Proof.
  unfold wf_registry. intros H.
  eapply Permutation_NoDup; [|exact H].
  apply Permutation_map, sort_desc_perm.
Qed.

(** ** Membership in the lists the router builds *)

Lemma wf_same_id (reg : Registry) :
  wf_registry reg -> same_id_same_agent reg.
Proof.
  unfold wf_registry, same_id_same_agent.
  induction reg as [|b reg IH]; simpl; intros H x y Hx Hy E; [contradiction|].
  inversion H as [|? ? Hb Hreg]; subst.
  destruct Hx as [->|Hx], Hy as [->|Hy]; auto.
  - exfalso. apply Hb. rewrite E. now apply in_map.
  - exfalso. apply Hb. rewrite <- E. now apply in_map.
Qed.

Lemma has_any_capability_spec (required : list string) (a : AgentRegistration) :
  has_any_capability required a = true <->
  exists cap, In cap required /\ In cap (capability_names a).
Proof.
  unfold has_any_capability. rewrite existsb_exists. split.
  - intros (cap & Hc & Hn). exists cap. split; [assumption|].
    apply existsb_exists in Hn. destruct Hn as (n & Hn & E).
    apply String.eqb_eq in E. now subst.
  - intros (cap & Hc & Hn). exists cap. split; [assumption|].
    apply existsb_exists. exists cap. split; [assumption|apply String.eqb_refl].
Qed.

Lemma find_agents_spec (reg : Registry) (required : list string) (a : AgentRegistration) :
  In a (_find_agents_by_capabilities reg required) <->
  In a reg /\ status a = "active" /\
  exists cap, In cap required /\ In cap (capability_names a).
Proof.
  unfold _find_agents_by_capabilities.
  rewrite filter_In, andb_true_iff, String.eqb_eq, has_any_capability_spec.
  tauto.
Qed.

Lemma suitable_agents_spec (o : Orchestrator) (task : TaskRequest) (a : AgentRegistration) :
  In a (suitable_agents o task) <->
  In a (registered_agents o) /\ status a = "active" /\
  exists rule cap,
    In rule (routing_rules o) /\ _evaluate_rule rule task = true /\
    In cap (required_capabilities rule) /\ In cap (capability_names a).
Proof.
  unfold suitable_agents. rewrite in_flat_map. split.
  - intros (rule & Hr & Ha).
    destruct (_evaluate_rule rule task) eqn:E; [|contradiction].
    apply find_agents_spec in Ha. destruct Ha as (H1 & H2 & cap & H3 & H4).
    repeat split; try assumption. now exists rule, cap.
  - intros (H1 & H2 & rule & cap & Hr & E & H3 & H4).
    exists rule. split; [assumption|]. rewrite E.
    apply find_agents_spec. repeat split; try assumption. now exists cap.
Qed.

Lemma suitable_agents_registered (o : Orchestrator) (task : TaskRequest) :
  incl (suitable_agents o task) (registered_agents o).
Proof.
  intros a H. now apply suitable_agents_spec in H.
Qed.

Lemma find_best_agents_in (o : Orchestrator) (task : TaskRequest) (a : AgentRegistration) :
  wf_registry (registered_agents o) ->
  (In a (find_best_agents o task) <-> In a (suitable_agents o task)).
Proof.
  intros Hwf. unfold find_best_agents. rewrite sort_desc_in. split.
  - apply unique_by_id_in.
  - apply unique_by_id_keeps.
    intros x y Hx Hy. apply (wf_same_id _ Hwf).
    + exact (suitable_agents_registered o task x Hx).
    + exact (suitable_agents_registered o task y Hy).
Qed.

Lemma find_best_agents_wf (o : Orchestrator) (task : TaskRequest) :
  wf_registry (find_best_agents o task).
Proof. apply sort_desc_wf, unique_by_id_wf. Qed.

End RuleBasedFacts.

(* ================================================================== *)
(** * Facts about the dispatcher *)
(* ================================================================== *)

Module DispatchFacts.
Import RuleBased RuleBasedFacts.

(** ** Assignments through a reference *)

Lemma update_agent_in (id : string) (f : AgentRegistration -> AgentRegistration)
  (reg : Registry) (x : AgentRegistration) :
  In x (update_agent id f reg) <->
  exists b, In b reg /\ x = (if String.eqb (agent_id b) id then f b else b).
Proof.
  unfold update_agent. rewrite in_map_iff.
  split; intros (b & H1 & H2); exists b; auto.
Qed.

Lemma update_agent_other (id : string) (f : AgentRegistration -> AgentRegistration)
  (reg : Registry) (x : AgentRegistration) :
  In x reg -> agent_id x <> id -> In x (update_agent id f reg).
Proof.
  intros Hx Hne. apply update_agent_in. exists x. split; [assumption|].
  destruct (String.eqb_spec (agent_id x) id); congruence.
Qed.

Lemma update_agent_hit (f : AgentRegistration -> AgentRegistration)
  (reg : Registry) (x : AgentRegistration) :
  In x reg -> In (f x) (update_agent (agent_id x) f reg).
Proof.
  intros Hx. apply update_agent_in. exists x. split; [assumption|].
  now rewrite String.eqb_refl.
Qed.

Lemma update_agent_Forall (P : AgentRegistration -> Prop) (id : string)
  (f : AgentRegistration -> AgentRegistration) (reg : Registry) :
  (forall a, P a -> P (f a)) -> Forall P reg -> Forall P (update_agent id f reg).
Proof.
  intros Hf H. unfold update_agent. apply Forall_map.
  eapply Forall_impl; [|exact H].
  intros a Ha. destruct (String.eqb (agent_id a) id); auto.
Qed.

Lemma set_busy_keeps_id (t : datetime) : keeps_id (set_busy t).
Proof. now intros a. Qed.

Lemma set_succeeded_keeps_id (e : float) : keeps_id (set_succeeded e).
Proof. now intros a. Qed.

Lemma set_failed_keeps_id : keeps_id set_failed.
Proof. now intros a. Qed.

Lemma update_agent_ids (id : string) (f : AgentRegistration -> AgentRegistration)
  (reg : Registry) :
  keeps_id f -> map agent_id (update_agent id f reg) = map agent_id reg.
Proof.
  intros Hf. unfold update_agent. rewrite map_map. apply map_ext.
  intros a. destruct (String.eqb (agent_id a) id); auto.
Qed.

(** An entry of the registry after one pass of the loop over [id]:
    the assigned object when its key is [id], an old entry otherwise. *)
Lemma pass_in (id : string) (f g : AgentRegistration -> AgentRegistration)
  (reg : Registry) (x : AgentRegistration) :
  keeps_id f ->
  In x (update_agent id g (update_agent id f reg)) ->
  exists b, In b reg /\
    ((agent_id b = id /\ x = g (f b)) \/ (agent_id b <> id /\ x = b)).
Proof.
  intros Hf H.
  apply update_agent_in in H. destruct H as (b1 & H1 & ->).
  apply update_agent_in in H1. destruct H1 as (b & Hb & ->).
  exists b. split; [assumption|].
  destruct (String.eqb_spec (agent_id b) id) as [E|E].
  - left. rewrite Hf, E, String.eqb_refl. auto.
  - right. destruct (String.eqb_spec (agent_id b) id); [contradiction|auto].
Qed.

(** ** The loop of [route_task] *)

(** Whatever the loop does to the registry, it does with the three
    assignments. *)
Lemma try_agents_Forall (P : AgentRegistration -> Prop)
  (clock : nat -> datetime) (task : TaskRequest) :
  (forall t a, P a -> P (set_busy t a)) ->
  (forall e a, P a -> P (set_succeeded e a)) ->
  (forall a, P a -> P (set_failed a)) ->
  forall candidates k o,
    Forall P (registered_agents o) ->
    Forall P (registered_agents (snd (fst (try_agents clock k task candidates o)))).
Proof.
  intros Hb Hs Hf. induction candidates as [|c rest IH]; intros k o H; simpl.
  - exact H.
  - destruct (handler c task) as [value elapsed|[cls msg|cls msg]]; simpl.
    + apply update_agent_Forall; [apply Hs|].
      apply update_agent_Forall; [apply Hb|exact H].
    + specialize (IH (S k)
        (with_registry o
           (update_agent (agent_id c) set_failed
              (update_agent (agent_id c) (set_busy (clock k))
                 (registered_agents o))))).
      destruct (try_agents clock (S k) task rest _) as [[r o'] attempts].
      simpl in *. apply IH.
      apply update_agent_Forall; [apply Hf|].
      apply update_agent_Forall; [apply Hb|exact H].
    + apply update_agent_Forall; [apply Hb|exact H].
Qed.

(** The loop does not add or drop entries. *)
Lemma try_agents_ids (clock : nat -> datetime) (task : TaskRequest) :
  forall candidates k o,
    map agent_id (registered_agents (snd (fst (try_agents clock k task candidates o))))
    = map agent_id (registered_agents o).
Proof.
  induction candidates as [|c rest IH]; intros k o; simpl; [reflexivity|].
  destruct (handler c task) as [value elapsed|[cls msg|cls msg]]; simpl.
  - now rewrite !update_agent_ids.
  - specialize (IH (S k)
      (with_registry o
         (update_agent (agent_id c) set_failed
            (update_agent (agent_id c) (set_busy (clock k))
               (registered_agents o))))).
    destruct (try_agents clock (S k) task rest _) as [[r o'] attempts].
    simpl in *. rewrite IH. now rewrite !update_agent_ids.
  - now rewrite update_agent_ids.
Qed.

(** Entries whose agent was not tried are the entries of before. *)
Lemma try_agents_untouched (clock : nat -> datetime) (task : TaskRequest) :
  forall candidates k o r o' attempts,
    try_agents clock k task candidates o = (r, o', attempts) ->
    forall a, In a (registered_agents o') ->
              ~ In (agent_id a) (map attempt_agent attempts) ->
              In a (registered_agents o).
Proof.
  induction candidates as [|c rest IH]; intros k o r o' attempts H a Ha Hn;
    simpl in H.
  - injection H as <- <- <-. exact Ha.
  - destruct (handler c task) as [value elapsed|[cls msg|cls msg]].
    + injection H as <- <- <-. simpl in *.
      apply pass_in in Ha; [|apply set_busy_keeps_id].
      destruct Ha as (b & Hb & [[E ->]|[E ->]]); [|exact Hb].
      exfalso. apply Hn. left. simpl. now rewrite E.
    + destruct (try_agents clock (S k) task rest _) as [[r1 o1] att1] eqn:Hrec.
      injection H as <- <- <-. simpl in Hn.
      assert (Ha1 := IH _ _ _ _ _ Hrec a Ha (fun H0 => Hn (or_intror H0))).
      simpl in Ha1.
      apply pass_in in Ha1; [|apply set_busy_keeps_id].
      destruct Ha1 as (b & Hb & [[E ->]|[E ->]]); [|exact Hb].
      exfalso. apply Hn. left. simpl. now rewrite E.
    + injection H as <- <- <-. simpl in *.
      apply update_agent_in in Ha. destruct Ha as (b & Hb & ->).
      destruct (String.eqb_spec (agent_id b) (agent_id c)) as [E|E]; [|exact Hb].
      exfalso. apply Hn. left. simpl. now rewrite E.
Qed.

(** When the loop returns, the agents it tried are [active] again. *)
Lemma try_agents_restores (clock : nat -> datetime) (task : TaskRequest) :
  forall candidates k o r o' attempts,
    try_agents clock k task candidates o = (Ok r, o', attempts) ->
    forall a, In a (registered_agents o') ->
              In (agent_id a) (map attempt_agent attempts) ->
              status a = "active".
Proof.
  induction candidates as [|c rest IH]; intros k o r o' attempts H a Ha Hin;
    simpl in H.
  - injection H as <- <- <-. destruct Hin.
  - destruct (handler c task) as [value elapsed|[cls msg|cls msg]].
    + injection H as <- <- <-. simpl in *.
      destruct Hin as [E|[]].
      apply pass_in in Ha; [|apply set_busy_keeps_id].
      destruct Ha as (b & Hb & [[E' ->]|[E' ->]]); [reflexivity|congruence].
    + destruct (try_agents clock (S k) task rest _) as [[r1 o1] att1] eqn:Hrec.
      injection H as -> <- <-.
      destruct (in_dec string_dec (agent_id a) (map attempt_agent att1))
        as [Hi|Hi].
      * eapply IH; eassumption.
      * destruct Hin as [E|Hin]; [|contradiction]. simpl in E.
        assert (Ha1 := try_agents_untouched _ _ _ _ _ _ _ _ Hrec a Ha Hi).
        simpl in Ha1.
        apply pass_in in Ha1; [|apply set_busy_keeps_id].
        destruct Ha1 as (b & Hb & [[E' ->]|[E' ->]]); [reflexivity|congruence].
    + discriminate.
Qed.

(** While a handler runs, its agent is [busy]. *)
Lemma try_agents_busy_during (clock : nat -> datetime) (task : TaskRequest) :
  forall candidates k o r o' attempts,
    try_agents clock k task candidates o = (r, o', attempts) ->
    forall attempt a,
      In attempt attempts -> In a (attempt_registry attempt) ->
      agent_id a = attempt_agent attempt -> status a = "busy".
Proof.
  assert (Hhead : forall id t reg a,
             In a (update_agent id (set_busy t) reg) -> agent_id a = id ->
             status a = "busy").
  { intros id t reg a Ha E. apply update_agent_in in Ha.
    destruct Ha as (b & Hb & ->).
    destruct (String.eqb_spec (agent_id b) id); [reflexivity|contradiction]. }
  induction candidates as [|c rest IH]; intros k o r o' attempts H at0 a Hat Ha E;
    simpl in H.
  - injection H as <- <- <-. destruct Hat.
  - destruct (handler c task) as [value elapsed|[cls msg|cls msg]].
    + injection H as <- <- <-. destruct Hat as [<-|[]]. eapply Hhead; eassumption.
    + destruct (try_agents clock (S k) task rest _) as [[r1 o1] att1] eqn:Hrec.
      injection H as <- <- <-. destruct Hat as [<-|Hat].
      * eapply Hhead; eassumption.
      * eapply IH; eassumption.
    + injection H as <- <- <-. destruct Hat as [<-|[]]. eapply Hhead; eassumption.
Qed.

(** While a handler runs, the call has made no other agent [busy]. *)
Lemma try_agents_busy_only (clock : nat -> datetime) (task : TaskRequest) :
  forall candidates k o r o' attempts,
    try_agents clock k task candidates o = (r, o', attempts) ->
    forall attempt a,
      In attempt attempts -> In a (attempt_registry attempt) ->
      status a = "busy" ->
      agent_id a = attempt_agent attempt \/
      (In a (registered_agents o) /\ agent_id a <> attempt_agent attempt).
Proof.
  assert (Hhead : forall id t reg a,
             In a (update_agent id (set_busy t) reg) ->
             agent_id a = id \/ (In a reg /\ agent_id a <> id)).
  { intros id t reg a Ha. apply update_agent_in in Ha.
    destruct Ha as (b & Hb & ->).
    destruct (String.eqb_spec (agent_id b) id); [now left|now right]. }
  induction candidates as [|c rest IH]; intros k o r o' attempts H at0 a Hat Ha Hs;
    simpl in H.
  - injection H as <- <- <-. destruct Hat.
  - destruct (handler c task) as [value elapsed|[cls msg|cls msg]].
    + injection H as <- <- <-. destruct Hat as [<-|[]]. now apply Hhead in Ha.
    + destruct (try_agents clock (S k) task rest _) as [[r1 o1] att1] eqn:Hrec.
      injection H as <- <- <-. destruct Hat as [<-|Hat].
      * now apply Hhead in Ha.
      * destruct (IH _ _ _ _ _ Hrec _ _ Hat Ha Hs) as [E|[Hin Hne]]; [now left|].
        right. split; [|assumption]. simpl in Hin.
        apply pass_in in Hin; [|apply set_busy_keeps_id].
        destruct Hin as (b & Hb & [[E' ->]|[E' ->]]); [discriminate|exact Hb].
    + injection H as <- <- <-. destruct Hat as [<-|[]]. now apply Hhead in Ha.
Qed.

(** The loop only tries candidates. *)
Lemma try_agents_attempted (clock : nat -> datetime) (task : TaskRequest) :
  forall candidates k o r o' attempts,
    try_agents clock k task candidates o = (r, o', attempts) ->
    incl (map attempt_agent attempts) (map agent_id candidates).
Proof.
  induction candidates as [|c rest IH]; intros k o r o' attempts H; simpl in H.
  - injection H as <- <- <-. intros x [].
  - destruct (handler c task) as [value elapsed|[cls msg|cls msg]].
    + injection H as <- <- <-. intros x [<-|[]]. now left.
    + destruct (try_agents clock (S k) task rest _) as [[r1 o1] att1] eqn:Hrec.
      injection H as <- <- <-. intros x [<-|Hx]; [now left|].
      right. eapply IH; eassumption.
    + injection H as <- <- <-. intros x [<-|[]]. now left.
Qed.

(** Entries under other keys than those of the candidates stay. *)
Lemma try_agents_keeps (clock : nat -> datetime) (task : TaskRequest) :
  forall candidates k o x,
    In x (registered_agents o) ->
    ~ In (agent_id x) (map agent_id candidates) ->
    In x (registered_agents (snd (fst (try_agents clock k task candidates o)))).
Proof.
  induction candidates as [|c rest IH]; intros k o x Hx Hn; simpl; [exact Hx|].
  simpl in Hn.
  assert (Hc : agent_id x <> agent_id c) by (intros E; apply Hn; now left).
  assert (Hr : ~ In (agent_id x) (map agent_id rest))
    by (intros E; apply Hn; now right).
  destruct (handler c task) as [value elapsed|[cls msg|cls msg]]; simpl.
  - now repeat apply update_agent_other.
  - specialize (IH (S k)
      (with_registry o
         (update_agent (agent_id c) set_failed
            (update_agent (agent_id c) (set_busy (clock k))
               (registered_agents o)))) x).
    destruct (try_agents clock (S k) task rest _) as [[r o'] attempts].
    simpl in *. apply IH; [|exact Hr]. now repeat apply update_agent_other.
  - now apply update_agent_other.
Qed.

(** When the handler of every candidate raises an [Exception], the loop
    tries them all, in order, marks each as failed and reports the
    exhaustion. *)
Lemma try_agents_all_fail (clock : nat -> datetime) (task : TaskRequest) :
  forall candidates k o,
    NoDup (map agent_id candidates) ->
    incl candidates (registered_agents o) ->
    (forall a, In a candidates ->
               exists cls reason, handler a task = Raised (Exn cls reason)) ->
    exists o' attempts,
      try_agents clock k task candidates o
      = (Ok (Failure "All suitable agents failed to process the task"
               (task_id task)), o', attempts)
      /\ map attempt_agent attempts = map agent_id candidates
      /\ map attempt_outcome attempts = map (fun a => handler a task) candidates
      /\ (forall a, In a candidates ->
            exists t, In (set_failed (set_busy t a)) (registered_agents o'))
      /\ routing_rules o' = routing_rules o
      /\ task_history o' = task_history o.
Proof.
  induction candidates as [|c rest IH]; intros k o Hnd Hincl Hfail.
  - exists o, []. simpl. repeat split; auto. intros a [].
  - destruct (Hfail c (or_introl eq_refl)) as (cls & reason & Hc).
    simpl in Hnd. inversion Hnd as [|? ? Hnot Hnd']; subst.
    set (reg2 := update_agent (agent_id c) set_failed
                   (update_agent (agent_id c) (set_busy (clock k))
                      (registered_agents o))).
    assert (Hrest : incl rest (registered_agents (with_registry o reg2))).
    { intros a Ha. simpl. unfold reg2.
      assert (agent_id a <> agent_id c).
      { intros E. apply Hnot. rewrite <- E. now apply in_map. }
      repeat apply update_agent_other; auto. apply Hincl. now right. }
    destruct (IH (S k) (with_registry o reg2) Hnd' Hrest
                (fun a Ha => Hfail a (or_intror Ha)))
      as (o' & attempts & Hrun & Hids & Houts & Hmarks & Hrules & Hhist).
    assert (Hkeep := try_agents_keeps clock task rest (S k) (with_registry o reg2)
                       (set_failed (set_busy (clock k) c))).
    rewrite Hrun in Hkeep. simpl in Hkeep.
    exists o'.
    exists ({| attempt_agent := agent_id c;
               attempt_registry :=
                 update_agent (agent_id c) (set_busy (clock k))
                   (registered_agents o);
               attempt_outcome := Raised (Exn cls reason) |} :: attempts).
    split.
    { simpl. rewrite Hc. fold reg2. rewrite Hrun. reflexivity. }
    simpl. repeat split; auto.
    + now rewrite Hids.
    + now rewrite Houts, Hc.
    + intros a [<-|Ha]; [|now apply Hmarks].
      exists (clock k). apply Hkeep; [|exact Hnot].
      unfold reg2.
      apply (update_agent_hit set_failed _ (set_busy (clock k) c)).
      apply (update_agent_hit (set_busy (clock k))).
      apply Hincl. now left.
Qed.

End DispatchFacts.

(* ================================================================== *)
(** * Properties of the registry, the router and the dispatcher *)
(* ================================================================== *)

Module RuleBasedProperties.
Import RuleBased RuleBasedFacts DispatchFacts.

(** ** Rules *)

(** A rule matches exactly when its condition is a string that contains
    [in] and [user_input.lower()] and whose text between the first two
    double quotes occurs in the lowered request. *)
Lemma evaluate_rule_true (rule : RoutingRule) (task : TaskRequest) :
  _evaluate_rule rule task = true <->
  exists text keyword,
    condition rule = PyStr text /\
    str_in "in" text = true /\
    str_in "user_input.lower()" text = true /\
    nth_error (split dquote text) 1 = Some keyword /\
    str_in keyword (lower (user_input task)) = true.
Proof.
  unfold _evaluate_rule, evaluate_rule_body.
  destruct (condition rule) as [| b | z | text | l | d];
    unfold contains, split_method, index, bind;
    try (split; [discriminate|intros (t & k & H & _); discriminate]).
  - destruct (str_in "in" text) eqn:E1;
      [destruct (str_in "user_input.lower()" text) eqn:E2;
       [destruct (nth_error (split dquote text) 1) as [kw|] eqn:E3|]|].
    + split.
      * intros H. exists text, kw. auto.
      * intros (t & k & Ht & _ & _ & Hk & Hin).
        injection Ht as <-. rewrite E3 in Hk. injection Hk as <-. exact Hin.
    + split; [discriminate|].
      intros (t & k & Ht & _ & _ & Hk & _).
      injection Ht as <-. rewrite E3 in Hk. discriminate.
    + split; [discriminate|].
      intros (t & k & Ht & _ & H2 & _). injection Ht as <-. congruence.
    + split; [discriminate|].
      intros (t & k & Ht & H1 & _). injection Ht as <-. congruence.
  - destruct (existsb _ l); [destruct (existsb _ l)|];
      (split; [discriminate|intros (t & k & H & _); discriminate]).
  - destruct (dict_has d "in"); [destruct (dict_has d "user_input.lower()")|];
      (split; [discriminate|intros (t & k & H & _); discriminate]).
Qed.

(** No default rule matches any request: their conditions are the
    booleans that the expressions of [_initialize_default_rules] have. *)
Lemma default_rules_never_match (rule : RoutingRule) (task : TaskRequest) :
  In rule default_rules -> _evaluate_rule rule task = false.
Proof.
  unfold default_rules. simpl.
  intros [<-|[<-|[<-|[<-|[<-|[]]]]]]; reflexivity.
Qed.

Lemma default_rules_route_nothing (o : Orchestrator) (task : TaskRequest) :
  routing_rules o = default_rules -> find_best_agents o task = [].
Proof.
  intros H. unfold find_best_agents, suitable_agents. rewrite H. reflexivity.
Qed.

(** ** Success rates *)

Lemma reachable_rates_closed (ok : bool) (r : float) :
  In r reachable_rates -> In (rate_after ok r) reachable_rates.
Proof.
  unfold reachable_rates. intros H. simpl in H.
  repeat (destruct H as [<-|H];
          [destruct ok; vm_compute; repeat (first [left; reflexivity|right])|]).
  contradiction.
Qed.

Lemma reachable_rates_in_unit (r : float) :
  In r reachable_rates -> (0 <=? r)%float = true /\ (r <=? 1)%float = true.
Proof.
  unfold reachable_rates. intros H. simpl in H.
  repeat (destruct H as [<-|H]; [split; reflexivity|]).
  contradiction.
Qed.

(** A failed attempt lowers a rate that is above zero. *)
Lemma failure_lowers_rate (r : float) :
  In r reachable_rates -> (0 <? r)%float = true ->
  (rate_after false r <? r)%float = true.
Proof.
  unfold reachable_rates. intros H. simpl in H.
  repeat (destruct H as [<-|H]; [vm_compute; intros E; first [reflexivity|discriminate E]|]).
  contradiction.
Qed.

Lemma rate_after_all_snoc (outcomes : list bool) (ok : bool) :
  rate_after_all (outcomes ++ [ok]) = rate_after ok (rate_after_all outcomes).
Proof. unfold rate_after_all. now rewrite fold_left_app. Qed.

Lemma rate_after_all_reachable (outcomes : list bool) :
  In (rate_after_all outcomes) reachable_rates.
Proof.
  induction outcomes as [|ok outcomes IH] using rev_ind.
  - unfold rate_after_all, reachable_rates. simpl.
    repeat (first [left; reflexivity|right]).
  - rewrite rate_after_all_snoc. now apply reachable_rates_closed.
Qed.

Lemma apply_operation_rates (op : Operation) (o : Orchestrator) :
  Forall rate_from_attempts (registered_agents o) ->
  Forall rate_from_attempts (registered_agents (apply_operation op o)).
Proof.
  intros H. destruct op as [agent|rule|clock task]; simpl.
  - apply Forall_forall. intros x Hx.
    destruct (registry_set_in _ _ _ Hx) as [->|Hx'].
    + now exists [].
    + rewrite Forall_forall in H. now apply H.
  - exact H.
  - unfold route_task. destruct (find_best_agents o task) as [|c rest]; [exact H|].
    apply try_agents_Forall; try assumption.
    + intros t a Ha. exact Ha.
    + intros e a (outcomes & Ha). exists (outcomes ++ [true]).
      rewrite rate_after_all_snoc, <- Ha. reflexivity.
    + intros a (outcomes & Ha). exists (outcomes ++ [false]).
      rewrite rate_after_all_snoc, <- Ha. reflexivity.
Qed.

Lemma run_operations_rates (ops : list Operation) (o : Orchestrator) :
  Forall rate_from_attempts (registered_agents o) ->
  Forall rate_from_attempts (registered_agents (run_operations ops o)).
Proof.
  revert o. induction ops as [|op ops IH]; intros o H; simpl; [exact H|].
  apply IH, apply_operation_rates, H.
Qed.

(** The registry of a session stays a dictionary. *)
Lemma run_operations_wf (ops : list Operation) (o : Orchestrator) :
  wf_registry (registered_agents o) ->
  wf_registry (registered_agents (run_operations ops o)).
Proof.
  revert o. induction ops as [|op ops IH]; intros o H; simpl; [exact H|].
  apply IH. destruct op as [agent|rule|clock task]; simpl.
  - now apply registry_set_wf.
  - exact H.
  - unfold route_task. destruct (find_best_agents o task) as [|c rest]; [exact H|].
    unfold wf_registry. now rewrite try_agents_ids.
Qed.


(** ** The router *)

Lemma find_best_agents_registered (o : Orchestrator) (task : TaskRequest)
  (a : AgentRegistration) :
  In a (find_best_agents o task) -> In a (suitable_agents o task).
Proof.
  unfold find_best_agents. rewrite sort_desc_in. apply unique_by_id_in.
Qed.

Lemma stocked_setup_wf : wf_registry (registered_agents stocked_setup).
Proof.
  unfold wf_registry. simpl. constructor; [intros []|constructor].
Defined.

(** C6. For a registry that is a dictionary, the list of candidates
    holds no key twice; a registration is in it exactly when it is in
    the registry, its status is [active] and one of its capabilities is
    asked for by a rule that matches the request; no candidate is
    [inactive]. *)
Theorem router_selects_active_matching_agents (o : Orchestrator)
  (task : TaskRequest) :
  wf_registry (registered_agents o) ->
  NoDup (map agent_id (find_best_agents o task)) /\
  (forall a,
     In a (find_best_agents o task) <->
     In a (registered_agents o) /\ status a = "active" /\
     exists rule cap,
       In rule (routing_rules o) /\ _evaluate_rule rule task = true /\
       In cap (required_capabilities rule) /\ In cap (capability_names a)) /\
  (forall a, In a (find_best_agents o task) -> status a <> "inactive").
Proof.
  intros Hwf. split; [apply find_best_agents_wf|]. split.
  - intros a. rewrite (find_best_agents_in o task a Hwf).
    apply suitable_agents_spec.
  - intros a Ha E.
    apply find_best_agents_registered, suitable_agents_spec in Ha.
    destruct Ha as (_ & Hs & _). rewrite Hs in E. discriminate.
Qed.

Lemma router_selects_witness :
  wf_registry (registered_agents stocked_setup) /\
  NoDup (map agent_id (find_best_agents stocked_setup stock_request)).
Proof.
  split; [exact stocked_setup_wf|].
  exact (proj1 (router_selects_active_matching_agents stocked_setup
                  stock_request stocked_setup_wf)).
Defined.

(** While the inventory agent works on a first request about stock, a
    second request about stock finds no candidate, although the agent is
    registered with a capability that the matching rule asks for. *)
Lemma busy_agent_is_passed_over :
  let o := in_flight stocked_setup
             (snd (route_task midnight stock_request stocked_setup)) in
  registered_agents o = [busy_inventory_agent] /\
  find_best_agents o stock_request = [] /\
  ~ AsStated.busy_still_selected o stock_request busy_inventory_agent.
Proof.
  split; [reflexivity|]. split; [reflexivity|].
  intros H. apply H.
  - now left.
  - reflexivity.
  - exists (keyword_rule "stock" ["inventory_management"]), "inventory_management".
    repeat split.
    + simpl. right. right. right. right. right. now left.
    + now left.
    + now left.
Qed.

(** C4, as the code has it. A registration whose status is [busy] is
    not among the candidates of any request, and with a registry that is
    a dictionary neither is its key. *)
Theorem busy_agent_not_selected (o : Orchestrator) (task : TaskRequest)
  (a : AgentRegistration) :
  wf_registry (registered_agents o) ->
  In a (registered_agents o) ->
  status a = "busy" ->
  ~ In a (find_best_agents o task) /\
  ~ In (agent_id a) (map agent_id (find_best_agents o task)).
Proof.
  intros Hwf Ha Hs.
  assert (Hactive : forall x, In x (find_best_agents o task) ->
                              In x (registered_agents o) /\ status x = "active").
  { intros x Hx. apply find_best_agents_registered, suitable_agents_spec in Hx.
    tauto. }
  split.
  - intros Hin. apply Hactive in Hin. destruct Hin as [_ E].
    rewrite Hs in E. discriminate.
  - intros Hin. apply in_map_iff in Hin. destruct Hin as (x & E & Hx).
    apply Hactive in Hx. destruct Hx as [Hx Hsx].
    assert (x = a) as -> by (apply (wf_same_id _ Hwf); assumption).
    rewrite Hs in Hsx. discriminate.
Qed.

Lemma busy_agent_not_selected_witness :
  let o := with_registry stocked_setup [busy_inventory_agent] in
  ~ In busy_inventory_agent (find_best_agents o stock_request) /\
  ~ In (agent_id busy_inventory_agent)
       (map agent_id (find_best_agents o stock_request)).
Proof.
  apply (busy_agent_not_selected
           (with_registry stocked_setup [busy_inventory_agent])
           stock_request busy_inventory_agent).
  - unfold wf_registry. simpl. constructor; [intros []|constructor].
  - now left.
  - reflexivity.
Defined.

(** ** Registration *)

Lemma registry_set_replaces (a : AgentRegistration) (reg : Registry) :
  In (agent_id a) (map agent_id reg) ->
  exists before old after,
    reg = before ++ old :: after /\
    agent_id old = agent_id a /\
    ~ In (agent_id a) (map agent_id before) /\
    registry_set a reg = before ++ a :: after.
Proof.
  induction reg as [|b reg IH]; simpl; [intros []|].
  intros H. destruct (String.eqb_spec (agent_id b) (agent_id a)) as [E|E].
  - exists [], b, reg. simpl. auto.
  - destruct H as [H|H]; [contradiction|].
    destruct (IH H) as (before & old & after & -> & Hold & Hnot & Hset).
    exists (b :: before), old, after. simpl. rewrite Hset.
    repeat split; auto. intros [H'|H']; auto.
Qed.

(** Registering the key [inventory_agent] a second time returns
    normally and puts a fresh registration in the place of the one that
    a failed dispatch had marked. *)
Lemma second_registration_accepted :
  let agent := FailingAgent "inventory_agent" "disk full" in
  In (base_agent_id agent) (map agent_id (registered_agents worn_setup)) /\
  map success_rate (registered_agents worn_setup) = [0.9%float] /\
  fst (register_agent agent worn_setup) = Ok tt /\
  map success_rate (registered_agents (snd (register_agent agent worn_setup)))
    = [1.0%float] /\
  ~ AsStated.duplicate_rejected agent worn_setup.
Proof.
  repeat split; try reflexivity.
  - now left.
  - intros [(msg & H) _]. discriminate H.
Qed.

(** C3, as the code has it. Registering an agent whose key is present
    returns normally; the entry under the key is replaced, in its place,
    by a new registration of the agent (status [active], success rate
    [1.0], response time [0.0], never used), and the other entries, the
    rules and the history stay as they were. *)
Theorem register_agent_replaces_duplicate (agent : BaseAgent)
  (o : Orchestrator) :
  In (base_agent_id agent) (map agent_id (registered_agents o)) ->
  fst (register_agent agent o) = Ok tt /\
  (exists before old after,
     registered_agents o = before ++ old :: after /\
     agent_id old = base_agent_id agent /\
     ~ In (base_agent_id agent) (map agent_id before) /\
     registered_agents (snd (register_agent agent o))
       = before ++ new_registration agent :: after) /\
  status (new_registration agent) = "active" /\
  success_rate (new_registration agent) = 1.0%float /\
  response_time (new_registration agent) = 0.0%float /\
  last_used (new_registration agent) = None /\
  routing_rules (snd (register_agent agent o)) = routing_rules o /\
  task_history (snd (register_agent agent o)) = task_history o.
Proof.
  intros H. split; [reflexivity|]. split; [|repeat split].
  exact (registry_set_replaces (new_registration agent) (registered_agents o) H).
Qed.

Lemma register_agent_replaces_witness :
  fst (register_agent (FailingAgent "inventory_agent" "disk full") worn_setup)
  = Ok tt.
Proof.
  apply (register_agent_replaces_duplicate
           (FailingAgent "inventory_agent" "disk full") worn_setup).
  simpl. now left.
Defined.

(** ** The dispatcher *)

Lemma single_candidate (o : Orchestrator) (task : TaskRequest)
  (a : AgentRegistration) :
  registered_agents o = [a] ->
  status a = "active" ->
  (exists rule cap,
     In rule (routing_rules o) /\ _evaluate_rule rule task = true /\
     In cap (required_capabilities rule) /\ In cap (capability_names a)) ->
  find_best_agents o task = [a].
Proof.
  intros Hreg Hs Hrule.
  assert (Hwf : wf_registry (registered_agents o)).
  { rewrite Hreg. unfold wf_registry. simpl. constructor; [intros []|constructor]. }
  assert (Hall : forall x, In x (find_best_agents o task) -> x = a).
  { intros x Hx. apply find_best_agents_registered, suitable_agents_spec in Hx.
    destruct Hx as (Hx & _). rewrite Hreg in Hx. destruct Hx as [<-|[]]. reflexivity. }
  assert (Ha : In a (find_best_agents o task)).
  { apply (find_best_agents_in o task a Hwf), suitable_agents_spec.
    rewrite Hreg. split; [now left|]. split; assumption. }
  assert (Hnd := find_best_agents_wf o task). unfold wf_registry in Hnd.
  destruct (find_best_agents o task) as [|x l]; [destruct Ha|].
  assert (x = a) as -> by (apply Hall; now left).
  destruct l as [|y l]; [reflexivity|].
  assert (y = a) as -> by (apply Hall; right; now left).
  simpl in Hnd. inversion Hnd as [|? ? Hnot _]. exfalso. apply Hnot. now left.
Qed.

(** With the rules of a new orchestrator, the request about stock levels
    is answered by a routing failure and the handler of the registered
    inventory agent is not called. *)
Lemma stock_request_finds_no_agent :
  let a := new_registration (InventoryManagementAgent 0.1) in
  registered_agents default_setup = [a] /\
  status a = "active" /\
  handler a stock_request = Returned inventory_answer 0.1 /\
  route_task midnight stock_request default_setup
  = (Ok (Failure "No suitable agents found for this task" "task-1"),
     default_setup, []) /\
  ~ AsStated.answered_by midnight stock_request default_setup a inventory_answer.
Proof.
  repeat split.
  intros (elapsed & o' & attempt & H & _).
  assert (E : route_task midnight stock_request default_setup
              = (Ok (Failure "No suitable agents found for this task" "task-1"),
                 default_setup, [])) by reflexivity.
  rewrite E in H. discriminate H.
Qed.

(** C1, as the code has it. With one registered agent, which is
    [active], a rule that matches the text of the request and asks for a
    capability of the agent, and a handler that returns, [route_task]
    calls the handler once and returns a success that carries the value
    the handler returned; the request about stock levels is such a
    request once a rule on one of its words is added. *)
Theorem matched_request_answered_once (clock : nat -> datetime)
  (o : Orchestrator) (task : TaskRequest) (a : AgentRegistration)
  (value : pyval) (elapsed : float) :
  registered_agents o = [a] ->
  status a = "active" ->
  (exists rule cap,
     In rule (routing_rules o) /\ _evaluate_rule rule task = true /\
     In cap (required_capabilities rule) /\ In cap (capability_names a)) ->
  handler a task = Returned value elapsed ->
  exists o' attempt,
    route_task clock task o
    = (Ok (Success value (agent_name a) elapsed (task_id task)), o', [attempt])
    /\ attempt_agent attempt = agent_id a
    /\ attempt_outcome attempt = Returned value elapsed
    /\ registered_agents o' = [set_succeeded elapsed (set_busy (clock 0) a)]
    /\ task_history o' = task_history o ++ [task].
Proof.
  intros Hreg Hs Hrule Hh.
  unfold route_task. rewrite (single_candidate o task a Hreg Hs Hrule).
  simpl. rewrite Hh, Hreg. simpl. rewrite String.eqb_refl. simpl.
  rewrite String.eqb_refl.
  eexists. eexists. split; [reflexivity|]. simpl. auto.
Qed.

Lemma matched_request_witness :
  exists o' attempt,
    route_task midnight stock_request stocked_setup
    = (Ok (Success inventory_answer "Inventory Management Agent" 0.1 "task-1"),
       o', [attempt])
    /\ attempt_agent attempt = "inventory_agent"
    /\ attempt_outcome attempt = Returned inventory_answer 0.1
    /\ registered_agents o'
       = [set_succeeded 0.1
            (set_busy 0%Z (new_registration (InventoryManagementAgent 0.1)))]
    /\ task_history o' = [stock_request].
Proof.
  apply (matched_request_answered_once midnight stocked_setup stock_request
           (new_registration (InventoryManagementAgent 0.1))
           inventory_answer 0.1).
  - reflexivity.
  - reflexivity.
  - exists (keyword_rule "stock" ["inventory_management"]), "inventory_management".
    repeat split.
    + simpl. right. right. right. right. right. left. reflexivity.
    + simpl. left. reflexivity.
    + simpl. left. reflexivity.
  - reflexivity.
Defined.

(** The one candidate of the request fails with the reason [disk full];
    the error of the result is the fixed sentence, which names neither
    the agent nor the reason. *)
Lemma exhaustion_error_names_nobody :
  let a := new_registration (FailingAgent "inventory_agent" "disk full") in
  find_best_agents failing_setup stock_request = [a] /\
  handler a stock_request = Raised (Exn "RuntimeError" "disk full") /\
  fst (fst (route_task midnight stock_request failing_setup))
  = Ok (Failure "All suitable agents failed to process the task" "task-1") /\
  ~ AsStated.exhaustion_reported midnight stock_request failing_setup.
Proof.
  repeat split.
  intros (error & o' & attempts & Hrun & Hlist & _).
  assert (E : fst (fst (route_task midnight stock_request failing_setup))
              = Ok (Failure "All suitable agents failed to process the task"
                      "task-1")) by reflexivity.
  rewrite Hrun in E. simpl in E. injection E as ->.
  destruct (Hlist (new_registration (FailingAgent "inventory_agent" "disk full"))
              "RuntimeError" "disk full") as [_ Hreason].
  - left. reflexivity.
  - reflexivity.
  - discriminate Hreason.
Qed.

(** C2, as the code has it. When the list of candidates is not empty and
    the handler of every candidate raises, [route_task] tries every
    candidate once, in the order of the list, and returns a failure
    whose error is the sentence [All suitable agents failed to process
    the task]; it names no agent and no reason. Every candidate is
    [active] afterwards and its success rate [r] has become
    [max(0.0, r - 0.1)]. *)
Theorem exhausted_dispatch (clock : nat -> datetime) (task : TaskRequest)
  (o : Orchestrator) :
  find_best_agents o task <> [] ->
  (forall a, In a (find_best_agents o task) ->
             exists cls reason, handler a task = Raised (Exn cls reason)) ->
  exists o' attempts,
    route_task clock task o
    = (Ok (Failure "All suitable agents failed to process the task"
             (task_id task)), o', attempts)
    /\ map attempt_agent attempts = map agent_id (find_best_agents o task)
    /\ map attempt_outcome attempts
       = map (fun a => handler a task) (find_best_agents o task)
    /\ (forall a, In a (find_best_agents o task) ->
          exists a', In a' (registered_agents o')
                     /\ agent_id a' = agent_id a
                     /\ status a' = "active"
                     /\ success_rate a' = rate_after false (success_rate a)).
Proof.
  intros Hne Hfail.
  assert (Hincl : incl (find_best_agents o task) (registered_agents o)).
  { intros a Ha. apply find_best_agents_registered, suitable_agents_spec in Ha.
    tauto. }
  destruct (try_agents_all_fail clock task (find_best_agents o task) 0 o
              (find_best_agents_wf o task) Hincl Hfail)
    as (o' & attempts & Hrun & Hids & Houts & Hmarks & _).
  exists o', attempts. unfold route_task.
  destruct (find_best_agents o task) as [|c rest] eqn:Hc; [contradiction|].
  repeat split; auto.
  intros a Ha. destruct (Hmarks a Ha) as (t & Hin).
  exists (set_failed (set_busy t a)). repeat split. exact Hin.
Qed.

Lemma exhausted_dispatch_witness :
  exists o' attempts,
    route_task midnight stock_request failing_setup
    = (Ok (Failure "All suitable agents failed to process the task" "task-1"),
       o', attempts)
    /\ map attempt_agent attempts
       = map agent_id (find_best_agents failing_setup stock_request)
    /\ map attempt_outcome attempts
       = map (fun a => handler a stock_request)
             (find_best_agents failing_setup stock_request)
    /\ (forall a, In a (find_best_agents failing_setup stock_request) ->
          exists a', In a' (registered_agents o')
                     /\ agent_id a' = agent_id a
                     /\ status a' = "active"
                     /\ success_rate a' = rate_after false (success_rate a)).
Proof.
  apply (exhausted_dispatch midnight stock_request failing_setup).
  - discriminate.
  - intros a [<-|[]]. exists "RuntimeError", "disk full". reflexivity.
Defined.

(** C10. When [route_task] returns, every agent it tried has its entry
    in the registry and every entry of an agent it tried is [active].
    While the handler of an attempt runs, the agent of the attempt is
    [busy], and any other entry that is [busy] then was so before the
    call. The agents tried are candidates, and the registry holds the
    same keys as before. *)
Theorem no_agent_left_busy (clock : nat -> datetime) (task : TaskRequest)
  (o : Orchestrator) (r : RouteResult) (o' : Orchestrator)
  (attempts : list Attempt) :
  route_task clock task o = (Ok r, o', attempts) ->
  (forall attempt, In attempt attempts ->
     exists a, In a (registered_agents o') /\
               agent_id a = attempt_agent attempt /\ status a = "active") /\
  (forall a, In a (registered_agents o') ->
             In (agent_id a) (map attempt_agent attempts) ->
             status a = "active") /\
  (forall attempt a,
     In attempt attempts -> In a (attempt_registry attempt) ->
     agent_id a = attempt_agent attempt -> status a = "busy") /\
  (forall attempt a,
     In attempt attempts -> In a (attempt_registry attempt) ->
     status a = "busy" ->
     agent_id a = attempt_agent attempt \/
     (In a (registered_agents o) /\ agent_id a <> attempt_agent attempt)) /\
  incl (map attempt_agent attempts) (map agent_id (find_best_agents o task)) /\
  map agent_id (registered_agents o') = map agent_id (registered_agents o).
Proof.
  unfold route_task. intros H.
  assert (Hcand : incl (map agent_id (find_best_agents o task))
                       (map agent_id (registered_agents o))).
  { intros id Hid. apply in_map_iff in Hid. destruct Hid as (c & <- & Hc).
    apply in_map. apply find_best_agents_registered, suitable_agents_spec in Hc.
    tauto. }
  destruct (find_best_agents o task) as [|c rest] eqn:Hc.
  - injection H as <- <- <-.
    repeat split; try (intros; contradiction). intros x [].
  - assert (Hrestore := try_agents_restores _ _ _ _ _ _ _ _ H).
    assert (Htried := try_agents_attempted _ _ _ _ _ _ _ _ H).
    assert (Hids := try_agents_ids clock task (c :: rest) 0 o).
    rewrite H in Hids. simpl in Hids.
    split; [|split; [|split; [|split; [|split]]]].
    + intros attempt Hat.
      assert (Hin : In (attempt_agent attempt) (map agent_id (registered_agents o'))).
      { rewrite Hids. apply Hcand, Htried. now apply in_map. }
      apply in_map_iff in Hin. destruct Hin as (a & E & Ha).
      exists a. split; [assumption|]. split; [assumption|].
      apply Hrestore; [assumption|]. rewrite E. now apply in_map.
    + exact Hrestore.
    + eapply try_agents_busy_during; eassumption.
    + eapply try_agents_busy_only; eassumption.
    + exact Htried.
    + exact Hids.
Qed.

Lemma no_agent_left_busy_witness :
  fst (fst (route_task midnight stock_request failing_setup))
  = Ok (Failure "All suitable agents failed to process the task" "task-1") /\
  map status (registered_agents worn_setup) = ["active"] /\
  (forall a,
     In a (registered_agents worn_setup) ->
     In (agent_id a)
        (map attempt_agent
             (snd (route_task midnight stock_request failing_setup))) ->
     status a = "active").
Proof.
  split; [reflexivity|]. split; [reflexivity|].
  exact (proj1 (proj2
               (no_agent_left_busy midnight stock_request failing_setup
                  (Failure "All suitable agents failed to process the task"
                     "task-1")
                  worn_setup
                  (snd (route_task midnight stock_request failing_setup))
                  eq_refl))).
Defined.

End RuleBasedProperties.

(* ================================================================== *)
(** * Properties of the broadcast bus *)
(* ================================================================== *)

Module StreamingProperties.
Import Streaming.

(** ** One fan-out *)

Lemma list_remove_incl (c : Client) (clients : list Client) :
  incl (list_remove c clients) clients.
Proof.
  induction clients as [|c' rest IH]; simpl; [intros x []|].
  destruct (Nat.eqb c' c).
  - intros x Hx. now right.
  - intros x [<-|Hx]; [now left|right; now apply IH].
Qed.

Lemma remove_client_incl (c : Client) (clients : list Client) :
  incl (remove_client c clients) clients.
Proof.
  unfold remove_client. destruct (existsb (Nat.eqb c) clients).
  - apply list_remove_incl.
  - apply incl_refl.
Qed.

Lemma remove_all_incl (disconnected clients : list Client) :
  incl (remove_all disconnected clients) clients.
Proof.
  unfold remove_all. revert clients.
  induction disconnected as [|c rest IH]; intros clients; simpl.
  - apply incl_refl.
  - eapply incl_tran; [apply IH|apply remove_client_incl].
Qed.

Lemma send_loop_receivers (link : Link) (clients : list Client) :
  incl (map fst (snd (send_loop link clients))) clients.
Proof.
  induction clients as [|c rest IH]; simpl; [intros x []|].
  destruct (link c); simpl.
  - destruct (send_loop link rest) as [r sends]. simpl in *.
    intros x [<-|Hx]; [now left|right; now apply IH].
  - destruct (send_loop link rest) as [r sends]. simpl in *.
    intros x [<-|Hx]; [now left|right; now apply IH].
  - intros x [<-|[]]. now left.
Qed.

Lemma broadcast_event_receivers (link : Link) (event : StreamingEvent)
  (clients : list Client) :
  incl (map fst (snd (broadcast_event link event clients))) clients.
Proof.
  unfold broadcast_event. destruct clients as [|c rest]; [intros x []|].
  assert (H := send_loop_receivers link (c :: rest)).
  destruct (send_loop link (c :: rest)) as [[d|e] sends]; exact H.
Qed.

Lemma broadcast_event_clients (link : Link) (event : StreamingEvent)
  (clients : list Client) :
  incl (snd (fst (broadcast_event link event clients))) clients.
Proof.
  unfold broadcast_event. destruct clients as [|c rest]; [apply incl_refl|].
  destruct (send_loop link (c :: rest)) as [[d|e] sends]; simpl.
  - apply remove_all_incl.
  - apply incl_refl.
Qed.

(** When no send raises anything but [ConnectionClosed], the loop goes
    through the whole list and collects the closed clients. *)
Lemma send_loop_complete (link : Link) (clients : list Client) :
  (forall c, In c clients -> link c = Sent \/ link c = ConnectionClosed) ->
  send_loop link clients
  = (Ok (filter (fun c => is_closed (link c)) clients),
     map (fun c => (c, link c)) clients).
Proof.
  induction clients as [|c rest IH]; intros H; simpl; [reflexivity|].
  rewrite IH by (intros c' Hc'; apply H; now right).
  destruct (H c (or_introl eq_refl)) as [E|E]; rewrite E; reflexivity.
Qed.

Lemma list_remove_first (c : Client) (before after : list Client) :
  ~ In c before -> list_remove c (before ++ c :: after) = before ++ after.
Proof.
  induction before as [|b before IH]; simpl; intros H.
  - now rewrite Nat.eqb_refl.
  - destruct (Nat.eqb_spec b c) as [E|E]; [exfalso; apply H; now left|].
    rewrite IH; [reflexivity|]. intros Hin. apply H. now right.
Qed.

Lemma remove_client_first (c : Client) (before after : list Client) :
  ~ In c before -> remove_client c (before ++ c :: after) = before ++ after.
Proof.
  intros H. unfold remove_client.
  replace (existsb (Nat.eqb c) (before ++ c :: after)) with true.
  - now apply list_remove_first.
  - symmetry. apply existsb_exists. exists c. split.
    + apply in_or_app. right. now left.
    + apply Nat.eqb_refl.
Qed.

(** The second loop takes out exactly the clients the first collected. *)
Lemma remove_all_closed (closed : Client -> bool) (kept clients : list Client) :
  (forall c, In c kept -> closed c = false) ->
  remove_all (filter closed clients) (kept ++ clients)
  = kept ++ filter (fun c => negb (closed c)) clients.
Proof.
  unfold remove_all. revert kept.
  induction clients as [|c rest IH]; intros kept Hkept; simpl; [reflexivity|].
  destruct (closed c) eqn:E; simpl.
  - rewrite remove_client_first.
    + now apply IH.
    + intros Hin. apply Hkept in Hin. congruence.
  - replace (kept ++ c :: rest) with ((kept ++ [c]) ++ rest)
      by (now rewrite <- app_assoc).
    rewrite IH.
    + now rewrite <- app_assoc.
    + intros c' Hc'. apply in_app_or in Hc'.
      destruct Hc' as [Hc'|[<-|[]]]; auto.
Qed.

Lemma broadcast_event_complete (link : Link) (event : StreamingEvent)
  (clients : list Client) :
  (forall c, In c clients -> link c = Sent \/ link c = ConnectionClosed) ->
  broadcast_event link event clients
  = (Ok tt,
     filter (fun c => negb (is_closed (link c))) clients,
     map (fun c => (c, link c)) clients).
Proof.
  intros H. unfold broadcast_event. destruct clients as [|c rest]; [reflexivity|].
  rewrite (send_loop_complete link (c :: rest) H).
  assert (E := remove_all_closed (fun c => is_closed (link c)) [] (c :: rest)).
  simpl app in E. rewrite E; [reflexivity|intros c' []].
Qed.

(** ** Runs of the bus *)

Lemma step_receivers (a : Action) (b : Bus) :
  incl (map receiver (snd (step a b))) (connected_clients b).
Proof.
  destruct a as [event|c|c|link]; simpl; try (intros x []).
  unfold process_one. destruct (event_queue b) as [|[n event] queue]; [intros x []|].
  assert (H := broadcast_event_receivers link event (connected_clients b)).
  destruct (broadcast_event link event (connected_clients b)) as [[r clients'] sends].
  simpl in *. rewrite map_map. simpl. exact H.
Qed.

Lemma step_clients (a : Action) (b : Bus) (c : Client) :
  a <> AddClient c ->
  In c (connected_clients (fst (step a b))) -> In c (connected_clients b).
Proof.
  destruct a as [event|c'|c'|link]; simpl; intros Hne Hin; auto.
  - unfold add_client in Hin. apply in_app_or in Hin.
    destruct Hin as [Hin|[<-|[]]]; [assumption|congruence].
  - now apply remove_client_incl in Hin.
  - unfold process_one in Hin.
    destruct (event_queue b) as [|[n event] queue]; [assumption|].
    assert (H := broadcast_event_clients link event (connected_clients b)).
    destruct (broadcast_event link event (connected_clients b)) as [[r clients'] sends].
    simpl in *. now apply H.
Qed.

(** A client that is not connected receives nothing until it is added. *)
Lemma run_never_reaches (actions : list Action) (b : Bus) (c : Client) :
  ~ In c (connected_clients b) ->
  ~ In (AddClient c) actions ->
  forall d, In d (snd (run actions b)) -> receiver d <> c.
Proof.
  revert b. induction actions as [|a rest IH]; intros b Hc Hadd d Hd; simpl in Hd.
  - destruct Hd.
  - assert (Hrec := step_receivers a b).
    assert (Hcl := step_clients a b c).
    destruct (step a b) as [b1 log1]. simpl in *.
    specialize (IH b1).
    destruct (run rest b1) as [b2 log2]. simpl in *.
    apply in_app_or in Hd. destruct Hd as [Hd|Hd].
    + intros E. apply Hc, Hrec. rewrite <- E. now apply in_map.
    + assert (Hne : a <> AddClient c) by (intros E; apply Hadd; now left).
      apply IH; auto.
Qed.

(** ** Order of the deliveries *)

Lemma StronglySorted_app {A : Type} (R : A -> A -> Prop) (l1 l2 : list A) :
  StronglySorted R l1 -> StronglySorted R l2 ->
  (forall x y, In x l1 -> In y l2 -> R x y) ->
  StronglySorted R (l1 ++ l2).
Proof.
  induction l1 as [|a l1 IH]; simpl; intros H1 H2 H; [assumption|].
  inversion H1 as [|? ? Hs Hf]; subst. constructor.
  - apply IH; auto.
  - apply Forall_app. split; [assumption|].
    apply Forall_forall. intros y Hy. apply H; auto.
Qed.

Lemma same_number_sorted (n : nat) (log : list Delivery) :
  Forall (fun d => seq_no d = n) log -> StronglySorted not_later log.
Proof.
  induction 1 as [|d log Hd Hlog IH]; constructor; [assumption|].
  eapply Forall_impl; [|exact Hlog].
  intros d' Hd'. unfold not_later. simpl in Hd'. lia.
Qed.

Lemma queue_recorded_bound (history : list StreamingEvent) (b : Bus) :
  queue_recorded history b -> Forall (fun n => n < puts b) (queued b).
Proof.
  intros [Hp Hq]. unfold queued. apply Forall_map.
  eapply Forall_impl; [|exact Hq].
  intros [n e] H. simpl in *. rewrite Hp. apply nth_error_Some. congruence.
Qed.

(** The invariant of a run: the queue holds increasing numbers, so what
    is delivered later carries a number that is not smaller. *)
Lemma run_ordered (actions : list Action) :
  forall (b : Bus) (lo : nat) (history : list StreamingEvent),
    queue_recorded history b ->
    StronglySorted lt (queued b) ->
    Forall (fun n => lo <= n) (queued b) ->
    lo <= puts b ->
    StronglySorted not_later (snd (run actions b)) /\
    Forall (fun d => lo <= seq_no d) (snd (run actions b)) /\
    Forall (fun d => nth_error (history ++ published actions) (seq_no d)
                     = Some (delivered_event d))
           (snd (run actions b)).
Proof.
  induction actions as [|a rest IH]; intros b lo history Hrec Hsort Hlo Hput.
  - simpl. repeat split; constructor.
  - assert (Hbound := queue_recorded_bound history b Hrec).
    destruct Hrec as [Hp Hq].
    destruct a as [event|c|c|link]; simpl.
    + (* put *)
      specialize (IH {| connected_clients := connected_clients b;
                        event_queue := event_queue b ++ [(puts b, event)];
                        puts := S (puts b) |} lo (history ++ [event])).
      destruct (run rest _) as [b2 log2]. simpl in *.
      rewrite <- app_assoc in IH. simpl in IH. apply IH.
      * split; simpl; [rewrite length_app; simpl; lia|].
        apply Forall_app. split.
        -- eapply Forall_impl; [|exact Hq]. intros [n e] H. simpl in *.
           rewrite nth_error_app1; [assumption|].
           apply nth_error_Some. congruence.
        -- constructor; [|constructor]. simpl.
           rewrite Hp, nth_error_app2, Nat.sub_diag; [reflexivity|lia].
      * unfold queued in *. simpl. rewrite map_app. simpl.
        apply StronglySorted_app; [assumption|repeat constructor|].
        intros x y Hx [<-|[]]. rewrite Forall_forall in Hbound. now apply Hbound.
      * unfold queued in *. simpl. rewrite map_app.
        apply Forall_app. split; [assumption|]. repeat constructor. simpl. lia.
      * lia.
    + (* a client is added *)
      specialize (IH {| connected_clients := add_client c (connected_clients b);
                        event_queue := event_queue b; puts := puts b |}
                     lo history).
      destruct (run rest _) as [b2 log2]. simpl in *.
      apply IH; auto. now split.
    + (* a client is removed *)
      specialize (IH {| connected_clients := remove_client c (connected_clients b);
                        event_queue := event_queue b; puts := puts b |}
                     lo history).
      destruct (run rest _) as [b2 log2]. simpl in *.
      apply IH; auto. now split.
    + (* one pass of the consuming loop *)
      unfold process_one. unfold queued in *.
      destruct (event_queue b) as [|[n event] queue] eqn:Hqueue.
      * specialize (IH b lo history).
        destruct (run rest b) as [b2 log2]. simpl in *.
        unfold queued, queue_recorded in IH. rewrite Hqueue in IH.
        apply IH; auto.
      * destruct (broadcast_event link event (connected_clients b))
          as [[r clients'] sends].
        simpl in Hsort, Hlo, Hbound.
        inversion Hsort as [|? ? Hsort' Hlt]; subst.
        inversion Hlo as [|? ? Hn Hlo']; subst.
        inversion Hbound as [|? ? Hnb Hbound']; subst.
        inversion Hq as [|? ? Hev Hq']; subst. simpl in Hev.
        specialize (IH {| connected_clients := clients'; event_queue := queue;
                          puts := puts b |} n history).
        destruct (run rest _) as [b2 log2]. simpl in *.
        destruct IH as (IH1 & IH2 & IH3).
        { now split. }
        { exact Hsort'. }
        { eapply Forall_impl; [|exact Hlt]. intros m Hm. simpl in Hm. lia. }
        { lia. }
        set (log1 := map (fun s => {| seq_no := n; delivered_event := event;
                                      receiver := fst s; send_outcome := snd s |})
                         sends).
        assert (Hsame : Forall (fun d => seq_no d = n /\ delivered_event d = event)
                               log1).
        { unfold log1. apply Forall_map. apply Forall_forall. now intros s _. }
        repeat split.
        -- apply StronglySorted_app; [|assumption|].
           ++ apply (same_number_sorted n).
              eapply Forall_impl; [|exact Hsame]. now intros d [E _].
           ++ intros x y Hx Hy. rewrite Forall_forall in Hsame, IH2.
              destruct (Hsame x Hx) as [E _]. specialize (IH2 y Hy).
              unfold not_later. lia.
        -- apply Forall_app. split.
           ++ eapply Forall_impl; [|exact Hsame]. intros d [E _]. lia.
           ++ eapply Forall_impl; [|exact IH2]. intros d Hd. simpl in Hd. lia.
        -- apply Forall_app. split; [|assumption].
           eapply Forall_impl; [|exact Hsame]. intros d [E1 E2].
           rewrite E1, E2, nth_error_app1; [assumption|].
           apply nth_error_Some. congruence.
Qed.


(** ** Clients that are closed *)




End StreamingProperties.

(* ================================================================== *)
(** * Properties of the collaboration pipeline *)
(* ================================================================== *)

Module CollabProperties.
Import Collab.

(** The request is classified as a complex one: none of the keywords of
    the three agents occurs in it, and [optimize] is a complex keyword. *)
Lemma optimize_supply_chain_is_complex :
  _analyze_intent "optimize supply chain"
  = {| primary_agent := Some "orchestrator";
       needs_forecasting := false;
       needs_supplier_recommendations := false;
       needs_logistics_optimization := false;
       needs_inventory_integration := false;
       complex_request := true |} /\
  selected_branch (_analyze_intent "optimize supply chain") = ComplexRequest.
Proof. split; reflexivity. Qed.

(** Without inventory data no item is low on stock: the pipeline makes
    three calls and the result has the two entries [forecast] and
    [inventory]. *)
Lemma no_low_stock_two_entries :
  let run := process_user_request (Agents.source_agents Agents.plain_kernels)
               0 "optimize supply chain" [] in
  option_map (fun r => map fst (data r)) (returned run)
  = Some ["forecast"; "inventory"] /\
  calls_made run
  = [ForecastDemand (PyList []); AnalyzeStockLevels (PyList []);
     CalculateReorderPoints (PyList []) [("demand_forecasts", PyDict [])]] /\
  ~ AsStated.three_domain_entries (Agents.source_agents Agents.plain_kernels)
      0 [].
Proof.
  split; [reflexivity|]. split; [reflexivity|].
  intros (response & h & i & f & s & req & e1 & e2 & e3 & H & _).
  assert (E : List.length
                (calls_made
                   (process_user_request
                      (Agents.source_agents Agents.plain_kernels)
                      0 "optimize supply chain" [])) = 3) by reflexivity.
  rewrite H in E. discriminate E.
Qed.

(** C9, as the code has it. When the request to optimize the supply
    chain returns a result, the forecast was made first, then the stock
    levels were analysed and the reorder points calculated with the
    forecast handed over; the result has the entries [forecast] and
    [inventory], in that order. The procurement is optimized, after
    these, exactly when the analysis lists a low stock item, and only
    then does the result have the third entry
    [supplier_recommendations]. *)
Theorem pipeline_steps_and_entries (agents : DomainAgents)
  (message_queue : nat) (context : dict) (response : Response)
  (calls : list Call) :
  process_user_request agents message_queue "optimize supply chain" context
  = Some (Ok response, calls) ->
  let h := get_default context "historical_demand_data" (PyList []) in
  let i := get_default context "inventory_data" (PyList []) in
  let s := get_default context "supplier_data" (PyList []) in
  exists f a r,
    forecast_demand agents h = Ok f /\
    analyze_stock_levels agents i = Ok a /\
    calculate_reorder_points agents i f = Ok r /\
    if truthy (get_default a "low_stock_items" (PyList [])) then
      exists items p,
        procurement_items (get_default a "low_stock_items" (PyList []))
        = Ok items /\
        optimize_procurement agents s [("items", PyList items)] = Ok p /\
        calls = [ForecastDemand h; AnalyzeStockLevels i;
                 CalculateReorderPoints i f;
                 OptimizeProcurement s [("items", PyList items)]] /\
        data response = [("forecast", PyDict f);
                         ("inventory", PyDict (dict_merge a r));
                         ("supplier_recommendations", PyDict p)]
    else
      calls = [ForecastDemand h; AnalyzeStockLevels i;
               CalculateReorderPoints i f] /\
      data response = [("forecast", PyDict f);
                       ("inventory", PyDict (dict_merge a r))].
Proof.
  intros H h i s. unfold process_user_request in H.
  rewrite (proj2 optimize_supply_chain_is_complex) in H.
  unfold _handle_complex_request in H. fold h i s in H.
  destruct (forecast_demand agents h) as [f|e] eqn:Hf; [|discriminate H].
  destruct (analyze_stock_levels agents i) as [a|e] eqn:Ha; [|discriminate H].
  destruct (calculate_reorder_points agents i f) as [r|e] eqn:Hr;
    [|discriminate H].
  exists f, a, r.
  split; [reflexivity|]. split; [reflexivity|]. split; [exact Hr|].
  destruct (truthy (get_default a "low_stock_items" (PyList []))).
  - destruct (procurement_items _) as [items|e]; [|discriminate H].
    destruct (optimize_procurement agents s _) as [p|e] eqn:Hp;
      [|discriminate H].
    exists items, p. split; [reflexivity|]. split; [exact Hp|].
    injection H as Hres <-. split; [reflexivity|].
    unfold respond, Py.bind in Hres.
    destruct (_generate_comprehensive_recommendations _); [|discriminate Hres].
    injection Hres as <-. reflexivity.
  - injection H as Hres <-. split; [reflexivity|].
    unfold respond, Py.bind in Hres.
    destruct (_generate_comprehensive_recommendations _); [|discriminate Hres].
    injection Hres as <-. reflexivity.
Qed.

Lemma pipeline_steps_witness :
  map fst (data Agents.low_stock_response)
  = ["forecast"; "inventory"; "supplier_recommendations"] /\
  List.length Agents.low_stock_calls = 4 /\
  exists f a r,
    forecast_demand (Agents.source_agents Agents.plain_kernels) (PyList [])
    = Ok f /\
    analyze_stock_levels (Agents.source_agents Agents.plain_kernels)
      (get_default Agents.low_stock_context "inventory_data" (PyList []))
    = Ok a /\
    calculate_reorder_points (Agents.source_agents Agents.plain_kernels)
      (get_default Agents.low_stock_context "inventory_data" (PyList [])) f
    = Ok r /\
    truthy (get_default a "low_stock_items" (PyList [])) = true.
Proof.
  split; [reflexivity|]. split; [reflexivity|].
  destruct (pipeline_steps_and_entries
              (Agents.source_agents Agents.plain_kernels) 0
              Agents.low_stock_context Agents.low_stock_response
              Agents.low_stock_calls eq_refl)
    as (f & a & r & Hf & Ha & Hr & _).
  exists f, a, r. split; [exact Hf|]. split; [exact Ha|]. split; [exact Hr|].
  injection Ha as <-. reflexivity.
Defined.

End CollabProperties.

(* ================================================================== *)
(** * Further properties of the dispatcher and the registry *)
(* ================================================================== *)

Module DispatchProperties.
Import RuleBased RuleBasedSystem RuleBasedFacts DispatchFacts.

(** ** Routing failures *)

Lemma try_agents_failure_message (clock : nat -> datetime) (task : TaskRequest) :
  forall candidates k o error t o' attempts,
    try_agents clock k task candidates o = (Ok (Failure error t), o', attempts) ->
    error = "All suitable agents failed to process the task".
Proof.
  induction candidates as [|c rest IH]; intros k o error t o' attempts H;
    simpl in H.
  - now injection H as <- _ _ _.
  - destruct (handler c task) as [value elapsed|[cls msg|cls msg]].
    + discriminate H.
    + destruct (try_agents clock (S k) task rest _) as [[r1 o1] att1] eqn:Hrec.
      injection H as -> _ _. eapply IH; eassumption.
    + discriminate H.
Qed.

(** X1. With a registry that is a dictionary, [route_task] answers
    [No suitable agents found for this task] exactly when no registered
    agent is [active] with a capability that a matching rule asks for;
    it then calls no handler and leaves the orchestrator as it was. *)
Theorem routing_failure_iff_no_eligible_agent (clock : nat -> datetime)
  (task : TaskRequest) (o : Orchestrator) :
  wf_registry (registered_agents o) ->
  (fst (fst (route_task clock task o))
   = Ok (Failure "No suitable agents found for this task" (task_id task))
   <->
   ~ exists a rule cap,
       In a (registered_agents o) /\ status a = "active" /\
       In rule (routing_rules o) /\ _evaluate_rule rule task = true /\
       In cap (required_capabilities rule) /\ In cap (capability_names a)) /\
  (fst (fst (route_task clock task o))
   = Ok (Failure "No suitable agents found for this task" (task_id task)) ->
   route_task clock task o
   = (Ok (Failure "No suitable agents found for this task" (task_id task)),
      o, [])).
Proof.
  intros Hwf.
  assert (Hnone : fst (fst (route_task clock task o))
                  = Ok (Failure "No suitable agents found for this task"
                          (task_id task)) ->
                  find_best_agents o task = []).
  { unfold route_task. destruct (find_best_agents o task) as [|c rest] eqn:Hc.
    - reflexivity.
    - intros H.
      destruct (try_agents clock 0 task (c :: rest) o) as [[r o'] attempts] eqn:Hrun.
      simpl in H. subst r.
      apply try_agents_failure_message in Hrun. discriminate Hrun. }
  split; [split|].
  - intros H (a & rule & cap & Ha & Hs & Hrule).
    apply Hnone in H.
    assert (Hin : In a (find_best_agents o task)).
    { apply (find_best_agents_in o task a Hwf), suitable_agents_spec.
      split; [assumption|]. split; [assumption|]. now exists rule, cap. }
    rewrite H in Hin. destruct Hin.
  - intros H. unfold route_task.
    destruct (find_best_agents o task) as [|c rest] eqn:Hc; [reflexivity|].
    exfalso. apply H.
    assert (Hin : In c (find_best_agents o task)) by (rewrite Hc; now left).
    apply (find_best_agents_in o task c Hwf), suitable_agents_spec in Hin.
    destruct Hin as (H1 & H2 & rule & cap & H3).
    now exists c, rule, cap.
  - intros H. apply Hnone in H. unfold route_task. now rewrite H.
Qed.

Lemma routing_failure_witness :
  wf_registry (registered_agents default_setup) /\
  route_task midnight stock_request default_setup
  = (Ok (Failure "No suitable agents found for this task" "task-1"),
     default_setup, []).
Proof.
  assert (Hwf : wf_registry (registered_agents default_setup)).
  { unfold wf_registry. simpl. constructor; [intros []|constructor]. }
  split; [exact Hwf|].
  apply (proj2 (routing_failure_iff_no_eligible_agent midnight stock_request
                  default_setup Hwf)).
  reflexivity.
Defined.

(** X2. An orchestrator that has the rules of
    [_initialize_default_rules] and no other answers every request with
    the routing failure, whatever agents are registered: no handler is
    called and nothing changes. *)
Theorem default_rules_dispatch_nothing (clock : nat -> datetime)
  (task : TaskRequest) (o : Orchestrator) :
  routing_rules o = default_rules ->
  route_task clock task o
  = (Ok (Failure "No suitable agents found for this task" (task_id task)),
     o, []).
Proof.
  intros H. unfold route_task, find_best_agents, suitable_agents.
  rewrite H. reflexivity.
Qed.

Lemma default_rules_dispatch_witness :
  List.length (registered_agents (initialize_rule_based_system 0.1)) = 3 /\
  route_task midnight stock_request (initialize_rule_based_system 0.1)
  = (Ok (Failure "No suitable agents found for this task" "task-1"),
     initialize_rule_based_system 0.1, []).
Proof.
  split; [reflexivity|].
  apply (default_rules_dispatch_nothing midnight stock_request
           (initialize_rule_based_system 0.1)).
  reflexivity.
Defined.

(** ** What a dispatch leaves alone *)

Lemma try_agents_history (clock : nat -> datetime) (task : TaskRequest) :
  forall candidates k o,
    routing_rules (snd (fst (try_agents clock k task candidates o)))
    = routing_rules o /\
    task_history (snd (fst (try_agents clock k task candidates o)))
    = match fst (fst (try_agents clock k task candidates o)) with
      | Ok (Success _ _ _ _) => task_history o ++ [task]
      | _ => task_history o
      end.
Proof.
  induction candidates as [|c rest IH]; intros k o; simpl; [now split|].
  destruct (handler c task) as [value elapsed|[cls msg|cls msg]]; simpl;
    try (now split).
  specialize (IH (S k)
    (with_registry o
       (update_agent (agent_id c) set_failed
          (update_agent (agent_id c) (set_busy (clock k))
             (registered_agents o))))).
  destruct (try_agents clock (S k) task rest _) as [[r o'] attempts].
  simpl in *. exact IH.
Qed.

(** X3. A dispatch never changes the routing rules, and it appends the
    request to the task history exactly when it returns a success; a
    routing failure, an exhausted dispatch and a dispatch that raises
    leave the history as it was. *)
Theorem history_records_successes_only (clock : nat -> datetime)
  (task : TaskRequest) (o : Orchestrator) :
  routing_rules (snd (fst (route_task clock task o))) = routing_rules o /\
  task_history (snd (fst (route_task clock task o)))
  = match fst (fst (route_task clock task o)) with
    | Ok (Success _ _ _ _) => task_history o ++ [task]
    | _ => task_history o
    end.
Proof.
  unfold route_task. destruct (find_best_agents o task) as [|c rest].
  - now split.
  - apply try_agents_history.
Qed.

Lemma try_agents_prefix (clock : nat -> datetime) (task : TaskRequest) :
  forall candidates k o,
    prefix_of (map attempt_agent (snd (try_agents clock k task candidates o)))
              (map agent_id candidates).
Proof.
  induction candidates as [|c rest IH]; intros k o; simpl.
  - now exists [].
  - destruct (handler c task) as [value elapsed|[cls msg|cls msg]]; simpl.
    + now exists (map agent_id rest).
    + specialize (IH (S k)
        (with_registry o
           (update_agent (agent_id c) set_failed
              (update_agent (agent_id c) (set_busy (clock k))
                 (registered_agents o))))).
      destruct (try_agents clock (S k) task rest _) as [[r o'] attempts].
      simpl in *. destruct IH as (more & E). exists more. now rewrite E.
    + now exists (map agent_id rest).
Qed.

Lemma try_agents_earlier_failed (clock : nat -> datetime) (task : TaskRequest) :
  forall candidates k o before attempt after,
    snd (try_agents clock k task candidates o) = before ++ attempt :: after ->
    after <> [] ->
    exists cls msg, attempt_outcome attempt = Raised (Exn cls msg).
Proof.
  induction candidates as [|c rest IH]; intros k o before attempt after H Hne;
    simpl in H.
  - destruct before; discriminate H.
  - destruct (handler c task) as [value elapsed|[cls msg|cls msg]] eqn:Hc;
      simpl in H.
    + destruct before as [|x [|y before]]; simpl in H.
      * injection H as _ E. now subst after.
      * injection H as _ E. discriminate E.
      * injection H as _ E. discriminate E.
    + specialize (IH (S k)
        (with_registry o
           (update_agent (agent_id c) set_failed
              (update_agent (agent_id c) (set_busy (clock k))
                 (registered_agents o))))).
      destruct (try_agents clock (S k) task rest _) as [[r o'] attempts].
      simpl in *. destruct before as [|x before]; simpl in H.
      * injection H as <- _. simpl. now exists cls, msg.
      * injection H as _ E. eapply IH; eassumption.
    + destruct before as [|x [|y before]]; simpl in H.
      * injection H as _ E. now subst after.
      * injection H as _ E. discriminate E.
      * injection H as _ E. discriminate E.
Qed.

(** X4. The handlers that a dispatch calls are those of a prefix of the
    ranked candidates, in the order of the ranking; no agent is tried
    twice, and an agent is tried only after every agent before it has
    raised an exception. *)
Theorem attempts_follow_ranking (clock : nat -> datetime)
  (task : TaskRequest) (o : Orchestrator) :
  prefix_of (map attempt_agent (snd (route_task clock task o)))
            (map agent_id (find_best_agents o task)) /\
  NoDup (map attempt_agent (snd (route_task clock task o))) /\
  (forall before attempt after,
     snd (route_task clock task o) = before ++ attempt :: after ->
     after <> [] ->
     exists cls msg, attempt_outcome attempt = Raised (Exn cls msg)).
Proof.
  assert (Hwf := find_best_agents_wf o task). unfold wf_registry in Hwf.
  unfold route_task.
  destruct (find_best_agents o task) as [|c rest] eqn:Hc.
  - split; [now exists []|]. split; [constructor|].
    intros before attempt after H. destruct before; discriminate H.
  - assert (Hp := try_agents_prefix clock task (c :: rest) 0 o).
    split; [exact Hp|]. split.
    + destruct Hp as (more & E). rewrite E in Hwf.
      now apply NoDup_app_remove_r in Hwf.
    + apply try_agents_earlier_failed.
Qed.

(** X5. A dispatch does not touch the registrations of agents that are
    not among the candidates of the request: each of them is in the
    registry afterwards with every field as before. *)
Theorem non_candidates_untouched (clock : nat -> datetime)
  (task : TaskRequest) (o : Orchestrator) (a : AgentRegistration) :
  In a (registered_agents o) ->
  ~ In (agent_id a) (map agent_id (find_best_agents o task)) ->
  In a (registered_agents (snd (fst (route_task clock task o)))).
Proof.
  intros Ha Hn. unfold route_task.
  destruct (find_best_agents o task) as [|c rest] eqn:Hc; [exact Ha|].
  now apply try_agents_keeps.
Qed.

Lemma non_candidates_untouched_witness :
  In (new_registration (DemandForecastingAgent 0.1))
     (registered_agents
        (snd (fst (route_task midnight stock_request backup_setup)))).
Proof.
  apply (non_candidates_untouched midnight stock_request backup_setup
           (new_registration (DemandForecastingAgent 0.1))).
  - simpl. right. right. left. reflexivity.
  - assert (E : map agent_id (find_best_agents backup_setup stock_request)
                = ["backup_agent"; "inventory_agent"]) by reflexivity.
    rewrite E. simpl. intros [H|[H|[]]]; discriminate H.
Defined.

(** ** Falling back to the next candidate *)

Lemma candidates_registered (o : Orchestrator) (task : TaskRequest) :
  incl (find_best_agents o task) (registered_agents o).
Proof.
  intros a Ha. unfold find_best_agents in Ha.
  apply (Permutation_in a (Permutation_sym (sort_desc_perm _))) in Ha.
  apply unique_by_id_in in Ha.
  exact (suitable_agents_registered o task a Ha).
Qed.

Lemma candidates_active (o : Orchestrator) (task : TaskRequest)
  (a : AgentRegistration) :
  In a (find_best_agents o task) -> status a = "active".
Proof.
  intros Ha. unfold find_best_agents in Ha.
  apply (Permutation_in a (Permutation_sym (sort_desc_perm _))) in Ha.
  apply unique_by_id_in in Ha.
  apply suitable_agents_spec in Ha. tauto.
Qed.

Lemma failed_pass_hit (t : datetime) (c : AgentRegistration) (reg : Registry) :
  In c reg ->
  In (set_failed (set_busy t c))
     (update_agent (agent_id c) set_failed
        (update_agent (agent_id c) (set_busy t) reg)).
Proof.
  intros H.
  apply (update_agent_hit (set_busy t)) in H.
  apply (update_agent_hit set_failed) in H. exact H.
Qed.

Lemma succeeded_pass_hit (t : datetime) (e : float) (c : AgentRegistration)
  (reg : Registry) :
  In c reg ->
  In (set_succeeded e (set_busy t c))
     (update_agent (agent_id c) (set_succeeded e)
        (update_agent (agent_id c) (set_busy t) reg)).
Proof.
  intros H.
  apply (update_agent_hit (set_busy t)) in H.
  apply (update_agent_hit (set_succeeded e)) in H. exact H.
Qed.

Lemma pass_other (id : string) (f g : AgentRegistration -> AgentRegistration)
  (reg : Registry) (x : AgentRegistration) :
  In x reg -> agent_id x <> id ->
  In x (update_agent id g (update_agent id f reg)).
Proof.
  intros H Hne.
  apply update_agent_other; [|exact Hne].
  apply update_agent_other; [exact H|exact Hne].
Qed.

(** The candidates whose handlers raise an exception are passed one
    after the other; the dispatch goes on with the candidates behind
    them, in a registry where each of the passed ones has been marked
    busy and then failed. *)
Lemma try_agents_after_failures (clock : nat -> datetime) (task : TaskRequest) :
  forall failed k o ending,
    NoDup (map agent_id (failed ++ ending)) ->
    incl (failed ++ ending) (registered_agents o) ->
    (forall a, In a failed ->
               exists cls reason, handler a task = Raised (Exn cls reason)) ->
    exists o1 attempts1,
      try_agents clock k task (failed ++ ending) o
      = (fst (fst (try_agents clock (List.length failed + k) task ending o1)),
         snd (fst (try_agents clock (List.length failed + k) task ending o1)),
         attempts1
         ++ snd (try_agents clock (List.length failed + k) task ending o1))
      /\ map attempt_agent attempts1 = map agent_id failed
      /\ (forall a, In a failed ->
            exists t, In (set_failed (set_busy t a)) (registered_agents o1))
      /\ (forall a, In a (registered_agents o) ->
            ~ In (agent_id a) (map agent_id failed) ->
            In a (registered_agents o1))
      /\ routing_rules o1 = routing_rules o
      /\ task_history o1 = task_history o.
Proof.
  induction failed as [|c failed IH]; intros k o ending Hnd Hincl Hfail.
  - exists o, []. simpl.
    destruct (try_agents clock k task ending o) as [[r o'] attempts].
    simpl. split; [reflexivity|]. split; [reflexivity|].
    split; [intros a []|]. split; [auto|]. now split.
  - simpl in Hnd. inversion Hnd as [|? ? Hnotin Hnd']; subst.
    destruct (Hfail c (or_introl eq_refl)) as (cls & reason & Hc).
    set (reg2 := update_agent (agent_id c) set_failed
                   (update_agent (agent_id c) (set_busy (clock k))
                      (registered_agents o))).
    assert (Hincl' : incl (failed ++ ending)
                          (registered_agents (with_registry o reg2))).
    { intros x Hx. simpl. unfold reg2. apply pass_other.
      - apply Hincl. now right.
      - intros E. apply Hnotin. rewrite <- E. now apply in_map. }
    destruct (IH (S k) (with_registry o reg2) ending Hnd' Hincl'
                (fun a Ha => Hfail a (or_intror Ha)))
      as (o1 & attempts1 & Hrun & Hids & Hfailed & Hkept & Hrules & Hhist).
    exists o1,
      ({| attempt_agent := agent_id c;
          attempt_registry := update_agent (agent_id c) (set_busy (clock k))
                                (registered_agents o);
          attempt_outcome := Raised (Exn cls reason) |} :: attempts1).
    split.
    { simpl. rewrite Hc. fold reg2. rewrite Hrun.
      replace (List.length failed + S k) with (S (List.length failed + k)) by lia.
      reflexivity. }
    split; [simpl; now rewrite Hids|].
    split.
    { intros a [<-|Ha]; [|now apply Hfailed].
      exists (clock k). apply Hkept.
      - simpl. unfold reg2. apply failed_pass_hit, Hincl. now left.
      - simpl. intros Hin. apply Hnotin. rewrite map_app. apply in_or_app.
        now left. }
    split.
    { intros a Ha Hn. apply Hkept.
      - simpl. unfold reg2. apply pass_other; [exact Ha|].
        intros E. apply Hn. simpl. now left.
      - intros Hin. apply Hn. simpl. now right. }
    split; [exact Hrules|exact Hhist].
Qed.

(** X6. When the handlers of the first candidates raise exceptions and
    the handler of the next one returns, the dispatch answers with the
    output, the name and the time of that one. The handlers called are
    those of the failed candidates and of the answering one, in ranked
    order; each failed candidate's registration has its rate lowered,
    the answering one has its rate raised and its response time set,
    the candidates behind it are as they were, and the request is
    appended to the history. *)
Theorem first_returning_candidate_answers (clock : nat -> datetime)
  (task : TaskRequest) (o : Orchestrator)
  (failed : list AgentRegistration) (winner : AgentRegistration)
  (rest : list AgentRegistration) (value : pyval) (elapsed : float) :
  find_best_agents o task = failed ++ winner :: rest ->
  (forall a, In a failed ->
             exists cls reason, handler a task = Raised (Exn cls reason)) ->
  handler winner task = Returned value elapsed ->
  exists o' attempts,
    route_task clock task o
    = (Ok (Success value (agent_name winner) elapsed (task_id task)),
       o', attempts)
    /\ map attempt_agent attempts = map agent_id failed ++ [agent_id winner]
    /\ (forall a, In a failed ->
          exists t, In (set_failed (set_busy t a)) (registered_agents o'))
    /\ In (set_succeeded elapsed (set_busy (clock (List.length failed)) winner))
          (registered_agents o')
    /\ (forall a, In a rest -> In a (registered_agents o'))
    /\ task_history o' = task_history o ++ [task].
Proof.
  intros Hcand Hfail Hwin.
  assert (Hnd := find_best_agents_wf o task). unfold wf_registry in Hnd.
  assert (Hincl := candidates_registered o task).
  rewrite Hcand in Hnd, Hincl.
  destruct (try_agents_after_failures clock task failed 0 o (winner :: rest)
              Hnd Hincl Hfail)
    as (o1 & attempts1 & Hrun & Hids & Hfailed & Hkept & Hrules & Hhist).
  assert (Hsplit : NoDup (map agent_id failed ++ agent_id winner :: map agent_id rest)).
  { now rewrite map_app in Hnd. }
  assert (Hwin_not_failed : ~ In (agent_id winner) (map agent_id failed)).
  { intros Hin. apply NoDup_remove_2 in Hsplit. apply Hsplit.
    apply in_or_app. now left. }
  assert (Hrest_not_winner :
            forall a, In a rest -> agent_id a <> agent_id winner).
  { intros a Ha E. apply NoDup_app_remove_l in Hsplit.
    inversion Hsplit as [|? ? Hn _]; subst. apply Hn. rewrite <- E.
    now apply in_map. }
  assert (Hrest_not_failed :
            forall a, In a rest -> ~ In (agent_id a) (map agent_id failed)).
  { intros a Ha Hin.
    assert (Hd := NoDup_remove_1 _ _ _ Hsplit).
    clear - Ha Hin Hd.
    induction failed as [|c failed IH]; simpl in *; [destruct Hin|].
    inversion Hd as [|? ? Hn Hd']; subst.
    destruct Hin as [E|Hin]; [|now apply IH].
    apply Hn. rewrite E. apply in_or_app. right. now apply in_map. }
  assert (Hfailed_not_winner :
            forall a, In a failed -> agent_id a <> agent_id winner).
  { intros a Ha E. apply Hwin_not_failed. rewrite <- E. now apply in_map. }
  replace (List.length failed + 0) with (List.length failed) in Hrun by lia.
  simpl in Hrun. rewrite Hwin in Hrun. simpl in Hrun.
  eexists. eexists. split.
  { unfold route_task. rewrite Hcand.
    destruct (failed ++ winner :: rest) eqn:E.
    - destruct failed; discriminate E.
    - exact Hrun. }
  split; [rewrite map_app, Hids; reflexivity|].
  split.
  { intros a Ha. destruct (Hfailed a Ha) as (t & Ht). exists t. simpl.
    apply pass_other; [exact Ht|]. simpl. now apply Hfailed_not_winner. }
  split.
  { simpl. apply succeeded_pass_hit, Hkept; [|exact Hwin_not_failed].
    apply Hincl, in_or_app. right. now left. }
  split.
  { intros a Ha. simpl. apply pass_other; [|now apply Hrest_not_winner].
    apply Hkept; [|now apply Hrest_not_failed].
    apply Hincl, in_or_app. right. now right. }
  simpl. now rewrite Hhist.
Qed.

Lemma first_returning_candidate_witness :
  exists o' attempts,
    route_task midnight stock_request backup_setup
    = (Ok (Success inventory_answer "Inventory Management Agent" 0.1 "task-1"),
       o', attempts)
    /\ map attempt_agent attempts = ["backup_agent"; "inventory_agent"]
    /\ map success_rate (registered_agents o') = [0.9; 1.0; 1.0]%float.
Proof.
  destruct (first_returning_candidate_answers midnight stock_request backup_setup
              [new_registration (FailingAgent "backup_agent" "disk full")]
              (new_registration (InventoryManagementAgent 0.1)) []
              inventory_answer 0.1 eq_refl)
    as (o' & attempts & Hrun & Hids & _).
  - intros a [<-|[]]. now exists "RuntimeError", "disk full".
  - reflexivity.
  - exists o', attempts. split; [exact Hrun|]. split; [exact Hids|].
    assert (E : o' = snd (fst (route_task midnight stock_request backup_setup)))
      by now rewrite Hrun.
    rewrite E. reflexivity.
Defined.

(** ** An exception that [except Exception] does not catch *)

(** X7. When the handlers of the first candidates raise exceptions and
    the handler of the next one raises outside [Exception] (a
    cancellation), the dispatch raises that exception. The agent keeps
    the status [busy] that was set before its handler was called, its
    rate is as before, the history is as before, and from then on the
    agent is a candidate of no request and is called by no dispatch. *)
Theorem escaping_exception_leaves_agent_busy (clock : nat -> datetime)
  (task : TaskRequest) (o : Orchestrator)
  (failed : list AgentRegistration) (culprit : AgentRegistration)
  (rest : list AgentRegistration) (cls msg : string) :
  wf_registry (registered_agents o) ->
  find_best_agents o task = failed ++ culprit :: rest ->
  (forall a, In a failed ->
             exists c reason, handler a task = Raised (Exn c reason)) ->
  handler culprit task = Raised (BaseExn cls msg) ->
  exists o' attempts,
    route_task clock task o = (Raise (BaseExn cls msg), o', attempts)
    /\ map attempt_agent attempts = map agent_id failed ++ [agent_id culprit]
    /\ In (set_busy (clock (List.length failed)) culprit) (registered_agents o')
    /\ task_history o' = task_history o
    /\ (forall clock2 task2,
          ~ In (agent_id culprit) (map agent_id (find_best_agents o' task2)) /\
          ~ In (agent_id culprit)
               (map attempt_agent (snd (route_task clock2 task2 o')))).
Proof.
  intros Hwf Hcand Hfail Hesc.
  assert (Hnd := find_best_agents_wf o task). unfold wf_registry in Hnd.
  assert (Hincl := candidates_registered o task).
  rewrite Hcand in Hnd, Hincl.
  destruct (try_agents_after_failures clock task failed 0 o (culprit :: rest)
              Hnd Hincl Hfail)
    as (o1 & attempts1 & Hrun & Hids & Hfailed & Hkept & Hrules & Hhist).
  assert (Hnot : ~ In (agent_id culprit) (map agent_id failed)).
  { rewrite map_app in Hnd. simpl in Hnd. apply NoDup_remove_2 in Hnd.
    intros Hin. apply Hnd, in_or_app. now left. }
  replace (List.length failed + 0) with (List.length failed) in Hrun by lia.
  simpl in Hrun. rewrite Hesc in Hrun. simpl in Hrun.
  assert (Hroute : route_task clock task o
                   = try_agents clock 0 task (failed ++ culprit :: rest) o).
  { unfold route_task. rewrite Hcand.
    destruct (failed ++ culprit :: rest) eqn:E; [|reflexivity].
    destruct failed; discriminate E. }
  assert (Hbusy : In (set_busy (clock (List.length failed)) culprit)
                     (update_agent (agent_id culprit)
                        (set_busy (clock (List.length failed)))
                        (registered_agents o1))).
  { apply update_agent_hit, Hkept; [|exact Hnot].
    apply Hincl, in_or_app. right. now left. }
  assert (Hwf' : wf_registry
                   (update_agent (agent_id culprit)
                      (set_busy (clock (List.length failed)))
                      (registered_agents o1))).
  { assert (E := try_agents_ids clock task (failed ++ culprit :: rest) 0 o).
    rewrite Hrun in E. simpl in E. unfold wf_registry. rewrite E. exact Hwf. }
  eexists. eexists. split; [rewrite Hroute; exact Hrun|].
  split; [rewrite map_app, Hids; reflexivity|].
  split; [exact Hbusy|]. split; [exact Hhist|].
  intros clock2 task2.
  match goal with |- ~ In _ (map agent_id (find_best_agents ?o2 _)) /\ _ =>
    set (o' := o2) end.
  assert (Hout : ~ In (agent_id culprit)
                      (map agent_id (find_best_agents o' task2))).
  { intros Hin. apply in_map_iff in Hin. destruct Hin as (a & Hid & Ha).
    assert (Hact := candidates_active o' task2 a Ha).
    apply candidates_registered in Ha.
    assert (E : a = set_busy (clock (List.length failed)) culprit).
    { apply (wf_same_id _ Hwf' a _ Ha Hbusy). now rewrite Hid. }
    rewrite E in Hact. discriminate Hact. }
  split; [exact Hout|].
  intros Hin. apply Hout.
  destruct (route_task clock2 task2 o') as [[r2 o2] attempts2] eqn:Hrun2.
  unfold route_task in Hrun2.
  destruct (find_best_agents o' task2) as [|c cs] eqn:Hc.
  - injection Hrun2 as _ _ <-. destruct Hin.
  - exact (try_agents_attempted clock2 task2 (c :: cs) 0 o' r2 o2 attempts2
             Hrun2 _ Hin).
Qed.

Lemma escaping_exception_witness :
  exists o' attempts,
    route_task midnight stock_request cancelled_setup
    = (Raise (BaseExn "CancelledError" EmptyString), o', attempts)
    /\ map status (registered_agents o') = ["busy"]
    /\ find_best_agents o' stock_request = [].
Proof.
  assert (Hwf : wf_registry (registered_agents cancelled_setup)).
  { unfold wf_registry. simpl. constructor; [intros []|constructor]. }
  destruct (escaping_exception_leaves_agent_busy midnight stock_request
              cancelled_setup [] (new_registration CancelledAgent) []
              "CancelledError" EmptyString Hwf eq_refl)
    as (o' & attempts & Hrun & _).
  - intros a [].
  - reflexivity.
  - exists o', attempts. split; [exact Hrun|].
    assert (E : o' = snd (fst (route_task midnight stock_request cancelled_setup)))
      by now rewrite Hrun.
    rewrite E. split; reflexivity.
Defined.

(** ** The registry is a dictionary *)

(** X8. [register_agent] on a registry that is a dictionary gives a
    registry that is one: the agent's id maps to a fresh registration
    and to nothing else, every other id maps to what it did, and an id
    that was absent is added at the end, after the agents registered
    before. *)
Theorem register_agent_assigns_key (agent : BaseAgent) (o : Orchestrator) :
  wf_registry (registered_agents o) ->
  wf_registry (registered_agents (snd (register_agent agent o))) /\
  In (new_registration agent) (registered_agents (snd (register_agent agent o))) /\
  (forall a, In a (registered_agents (snd (register_agent agent o))) ->
             agent_id a = base_agent_id agent -> a = new_registration agent) /\
  (forall a, agent_id a <> base_agent_id agent ->
             (In a (registered_agents (snd (register_agent agent o))) <->
              In a (registered_agents o))) /\
  (~ In (base_agent_id agent) (map agent_id (registered_agents o)) ->
   registered_agents (snd (register_agent agent o))
   = registered_agents o ++ [new_registration agent]).
Proof.
  intros Hwf. simpl.
  assert (Hwf' := registry_set_wf (new_registration agent) _ Hwf).
  split; [exact Hwf'|].
  split; [apply registry_set_new|].
  split.
  { intros a Ha Hid.
    apply (wf_same_id _ Hwf' a (new_registration agent) Ha
             (registry_set_new _ _)).
    exact Hid. }
  split.
  { intros a Hne. split.
    - intros Ha. apply registry_set_in in Ha. destruct Ha as [->|Ha];
        [now elim Hne|exact Ha].
    - intros Ha. now apply registry_set_other. }
  intros Hnew. induction (registered_agents o) as [|b reg IH]; [reflexivity|].
  simpl in *. destruct (String.eqb_spec (agent_id b) (base_agent_id agent)) as [E|E].
  - elim Hnew. now left.
  - f_equal. apply IH.
    + now inversion Hwf.
    + now apply registry_set_wf; inversion Hwf.
    + intros Hin. apply Hnew. now right.
Qed.

Lemma register_agent_assigns_witness :
  wf_registry (registered_agents new_orchestrator) /\
  registered_agents
    (snd (register_agent (DemandForecastingAgent 0.1)
            (snd (register_agent (InventoryManagementAgent 0.1)
                    new_orchestrator))))
  = [new_registration (InventoryManagementAgent 0.1);
     new_registration (DemandForecastingAgent 0.1)].
Proof.
  assert (Hwf : wf_registry (registered_agents new_orchestrator))
    by constructor.
  split; [exact Hwf|].
  assert (H1 := register_agent_assigns_key (InventoryManagementAgent 0.1)
                  new_orchestrator Hwf).
  destruct H1 as (Hwf1 & _).
  apply (proj2 (proj2 (proj2 (proj2
           (register_agent_assigns_key (DemandForecastingAgent 0.1)
              (snd (register_agent (InventoryManagementAgent 0.1)
                      new_orchestrator)) Hwf1))))).
  simpl. intros [H|[]]. discriminate H.
Defined.

(** ** The status report *)

Lemma pass_statuses (id : string) (f g : AgentRegistration -> AgentRegistration)
  (reg : Registry) :
  keeps_id f ->
  (forall a, status (g a) = "active") ->
  (forall a, In a reg -> agent_id a = id -> status a = "active") ->
  map status (update_agent id g (update_agent id f reg)) = map status reg.
Proof.
  intros Hf Hg. induction reg as [|b reg IH]; intros Hact; [reflexivity|].
  simpl. rewrite IH by (intros a Ha; apply Hact; now right). f_equal.
  destruct (String.eqb_spec (agent_id b) id) as [E|E].
  - rewrite Hf. rewrite (proj2 (String.eqb_eq _ _) E). rewrite Hg.
    symmetry. apply Hact; [now left|exact E].
  - now rewrite (proj2 (String.eqb_neq _ _) E).
Qed.

Lemma try_agents_statuses (clock : nat -> datetime) (task : TaskRequest) :
  forall candidates k o r o' attempts,
    (forall c a, In c candidates -> In a (registered_agents o) ->
                 agent_id a = agent_id c -> status a = "active") ->
    try_agents clock k task candidates o = (Ok r, o', attempts) ->
    map status (registered_agents o') = map status (registered_agents o).
Proof.
  induction candidates as [|c rest IH]; intros k o r o' attempts Hact H;
    simpl in H.
  - now injection H as _ <- _.
  - destruct (handler c task) as [value elapsed|[cls msg|cls msg]].
    + injection H as _ <- _. simpl.
      apply pass_statuses; [apply set_busy_keeps_id|reflexivity|].
      intros a Ha. apply (Hact c a); [now left|exact Ha].
    + destruct (try_agents clock (S k) task rest _) as [[r1 o1] att1] eqn:Hrec.
      injection H as -> -> _.
      apply IH in Hrec.
      * rewrite Hrec. simpl.
        apply pass_statuses; [apply set_busy_keeps_id|reflexivity|].
        intros a Ha. apply (Hact c a); [now left|exact Ha].
      * intros c' a Hc' Ha Hid. simpl in Ha.
        apply pass_in in Ha; [|apply set_busy_keeps_id].
        destruct Ha as (b & Hb & [[_ ->]|[_ ->]]); [reflexivity|].
        apply (Hact c' b); [now right|exact Hb|exact Hid].
    + discriminate H.
Qed.

Lemma count_status_statuses (s : string) (reg : Registry) :
  count_status s reg
  = List.length (filter (fun x => String.eqb x s) (map status reg)).
Proof.
  unfold count_status. induction reg as [|a reg IH]; [reflexivity|].
  simpl. destruct (String.eqb (status a) s); simpl; now rewrite IH.
Qed.

(** X9. A dispatch that returns, on a registry that is a dictionary,
    leaves the status of every registration as it was, so
    [get_agent_status] reports the same totals and the same status per
    agent before and after: the agents that were tried were [active]
    when they were chosen and are [active] again. *)
Theorem status_report_unchanged_by_dispatch (clock : nat -> datetime)
  (task : TaskRequest) (o : Orchestrator) (r : RouteResult)
  (o' : Orchestrator) (attempts : list Attempt) :
  wf_registry (registered_agents o) ->
  route_task clock task o = (Ok r, o', attempts) ->
  total_agents (get_agent_status o') = total_agents (get_agent_status o) /\
  active_agents (get_agent_status o') = active_agents (get_agent_status o) /\
  busy_agents (get_agent_status o') = busy_agents (get_agent_status o) /\
  map (fun entry => (fst entry, info_status (snd entry)))
      (agents (get_agent_status o'))
  = map (fun entry => (fst entry, info_status (snd entry)))
      (agents (get_agent_status o)).
Proof.
  intros Hwf H.
  assert (Hst : map status (registered_agents o')
                = map status (registered_agents o)).
  { unfold route_task in H.
    destruct (find_best_agents o task) as [|c rest] eqn:Hc.
    - now injection H as _ <- _.
    - eapply try_agents_statuses; [|exact H].
      intros c' a Hc' Ha Hid. rewrite <- Hc in Hc'.
      assert (Hact := candidates_active o task c' Hc').
      apply candidates_registered in Hc'.
      now rewrite (wf_same_id _ Hwf a c' Ha Hc' Hid). }
  assert (Hids : map agent_id (registered_agents o')
                 = map agent_id (registered_agents o)).
  { unfold route_task in H.
    destruct (find_best_agents o task) as [|c rest] eqn:Hc.
    - now injection H as _ <- _.
    - assert (E := try_agents_ids clock task (c :: rest) 0 o).
      now rewrite H in E. }
  unfold get_agent_status. simpl.
  split.
  { rewrite <- (length_map agent_id (registered_agents o')), Hids.
    apply length_map. }
  split; [now rewrite !count_status_statuses, Hst|].
  split; [now rewrite !count_status_statuses, Hst|].
  rewrite !map_map. simpl.
  revert Hst Hids. generalize (registered_agents o) as reg.
  induction (registered_agents o') as [|a reg' IH]; intros [|b reg] Hst Hids;
    try discriminate; [reflexivity|].
  simpl in *. injection Hst as Hs Hst. injection Hids as Hi Hids.
  rewrite Hs, Hi. f_equal. now apply IH.
Qed.

Lemma status_report_witness :
  wf_registry (registered_agents backup_setup) /\
  active_agents
    (get_agent_status
       (snd (fst (route_task midnight stock_request backup_setup)))) = 3 /\
  busy_agents
    (get_agent_status
       (snd (fst (route_task midnight stock_request backup_setup)))) = 0.
Proof.
  assert (Hwf : wf_registry (registered_agents backup_setup)).
  { unfold wf_registry. simpl.
    repeat (constructor; [simpl; intuition discriminate|]). constructor. }
  split; [exact Hwf|].
  destruct (route_task midnight stock_request backup_setup)
    as [[r o'] attempts] eqn:Hrun.
  assert (Hr : exists r', r = Ok r').
  { assert (E : r = fst (fst (route_task midnight stock_request backup_setup)))
      by now rewrite Hrun.
    rewrite E. eexists. reflexivity. }
  destruct Hr as (r' & ->).
  destruct (status_report_unchanged_by_dispatch midnight stock_request
              backup_setup r' o' attempts Hwf Hrun) as (_ & Ha & Hb & _).
  cbn [fst snd]. rewrite Ha, Hb. split; reflexivity.
Defined.

(** ** The ranking *)

Lemma SFcompare_opp (a b : SpecFloat.spec_float) :
  SpecFloat.SFcompare b a = option_map CompOpp (SpecFloat.SFcompare a b).
Proof.
  destruct a as [sa|sa| |sa ma ea], b as [sb|sb| |sb mb eb]; simpl;
    try reflexivity;
    try (destruct sa; reflexivity); try (destruct sb; reflexivity);
    try (destruct sa, sb; reflexivity).
  destruct sa, sb; simpl; try reflexivity.
  - rewrite (Z.compare_antisym ea eb). destruct (ea ?= eb)%Z; simpl;
      try reflexivity.
    rewrite Pos.compare_cont_antisym. simpl.
    destruct (Pos.compare_cont Eq ma mb); reflexivity.
  - rewrite (Z.compare_antisym ea eb). destruct (ea ?= eb)%Z; simpl;
      try reflexivity.
    rewrite Pos.compare_cont_antisym. simpl.
    destruct (Pos.compare_cont Eq ma mb); reflexivity.
Qed.

Lemma float_ltb_asym (x y : float) :
  (x <? y)%float = true -> (y <? x)%float = false.
Proof.
  rewrite !FloatAxioms.ltb_spec. unfold SpecFloat.SFltb.
  rewrite (SFcompare_opp (FloatOps.Prim2SF x) (FloatOps.Prim2SF y)).
  destruct (SpecFloat.SFcompare (FloatOps.Prim2SF x) (FloatOps.Prim2SF y))
    as [[]|]; simpl; congruence.
Qed.

Lemma float_eqb_sym (x y : float) : (x =? y)%float = (y =? x)%float.
Proof.
  rewrite !FloatAxioms.eqb_spec. unfold SpecFloat.SFeqb.
  rewrite (SFcompare_opp (FloatOps.Prim2SF y) (FloatOps.Prim2SF x)).
  destruct (SpecFloat.SFcompare (FloatOps.Prim2SF y) (FloatOps.Prim2SF x))
    as [[]|]; reflexivity.
Qed.

(** The order of the sort keys is asymmetric, NaN included. *)
Lemma key_lt_asym (k1 k2 : float * float) :
  key_lt k1 k2 = true -> key_lt k2 k1 = false.
Proof.
  unfold key_lt. rewrite (float_eqb_sym (fst k2) (fst k1)).
  rewrite (float_eqb_sym (snd k2) (snd k1)).
  destruct (fst k1 =? fst k2)%float; simpl.
  - destruct (snd k1 =? snd k2)%float; simpl; [discriminate|].
    apply float_ltb_asym.
  - apply float_ltb_asym.
Qed.

Lemma insert_desc_ranked (a : AgentRegistration) (l : list AgentRegistration) :
  ranked l -> ranked (insert_desc a l).
Proof.
  unfold ranked. induction l as [|b l IH]; intros Hl; simpl.
  - repeat constructor.
  - destruct (key_lt (sort_key a) (sort_key b)) eqn:E.
    + inversion Hl as [|? ? Hs Hh]; subst. constructor; [now apply IH|].
      destruct l as [|b' l]; simpl.
      * constructor. now apply key_lt_asym.
      * destruct (key_lt (sort_key a) (sort_key b')).
        -- constructor. now inversion Hh.
        -- constructor. now apply key_lt_asym.
    + constructor; [exact Hl|]. constructor. exact E.
Qed.

(** X10. The candidates come out of [find_best_agents] ranked: no
    candidate is directly followed by one with a larger key
    [(success_rate, -response_time)]. (The sort is the stable
    descending insertion of [sort_desc], which is what the list sort
    gives when no key is NaN.) *)
Theorem find_best_agents_ranked (o : Orchestrator) (task : TaskRequest) :
  ranked (find_best_agents o task).
Proof.
  unfold find_best_agents, sort_desc.
  induction (unique_by_id (suitable_agents o task)) as [|a l IH]; simpl.
  - constructor.
  - now apply insert_desc_ranked.
Qed.

Lemma sort_desc_ties (l : list AgentRegistration) :
  (forall a b, In a l -> In b l ->
               key_lt (sort_key a) (sort_key b) = false) ->
  sort_desc l = l.
Proof.
  induction l as [|a l IH]; intros H; [reflexivity|].
  unfold sort_desc in *. simpl. rewrite IH.
  - destruct l as [|b l]; [reflexivity|]. simpl.
    now rewrite (H a b (or_introl eq_refl) (or_intror (or_introl eq_refl))).
  - intros x y Hx Hy. apply H; now right.
Qed.

(** X11. The sort is stable: when no agent that a matching rule selects
    has a smaller key than another one (as with agents that have not
    been used yet), the candidates are tried in the order in which the
    rules and the registry list them, each agent at its first
    occurrence. *)
Theorem ranking_keeps_order_of_ties (o : Orchestrator) (task : TaskRequest) :
  (forall a b, In a (suitable_agents o task) -> In b (suitable_agents o task) ->
               key_lt (sort_key a) (sort_key b) = false) ->
  find_best_agents o task = unique_by_id (suitable_agents o task).
Proof.
  intros H. unfold find_best_agents. apply sort_desc_ties.
  intros a b Ha Hb. apply H; now apply unique_by_id_in.
Qed.

Lemma ranking_keeps_order_witness :
  map agent_id (find_best_agents backup_setup stock_request)
  = ["backup_agent"; "inventory_agent"].
Proof.
  rewrite (ranking_keeps_order_of_ties backup_setup stock_request).
  - reflexivity.
  - assert (E : suitable_agents backup_setup stock_request
                = [new_registration (FailingAgent "backup_agent" "disk full");
                   new_registration (InventoryManagementAgent 0.1)])
      by reflexivity.
    rewrite E. intros a b [<-|[<-|[]]] [<-|[<-|[]]]; reflexivity.
Defined.

End DispatchProperties.

(* ================================================================== *)
(** * Further properties of the event bus *)
(* ================================================================== *)

Module BusProperties.
Import Streaming StreamingSystem StreamingProperties.

(** ** A fan-out that is left by an exception *)

Lemma send_loop_aborts (link : Link) (e : exn) (c : Client)
  (after : list Client) :
  forall before,
    (forall x, In x before -> link x = Sent \/ link x = ConnectionClosed) ->
    link c = SendRaised e ->
    send_loop link (before ++ c :: after)
    = (Raise e, sends_to link before ++ [(c, SendRaised e)]).
Proof.
  induction before as [|x before IH]; intros Hbefore Hc; simpl.
  - now rewrite Hc.
  - rewrite (IH (fun y Hy => Hbefore y (or_intror Hy)) Hc).
    destruct (Hbefore x (or_introl eq_refl)) as [E|E]; rewrite E; reflexivity.
Qed.



(** ** Adding and removing clients *)

Lemma list_remove_count (c x : Client) (clients : list Client) :
  count_occ Nat.eq_dec (list_remove c clients) x
  = if Nat.eqb x c then Nat.pred (count_occ Nat.eq_dec clients c)
    else count_occ Nat.eq_dec clients x.
Proof.
  induction clients as [|y clients IH]; simpl.
  - now destruct (Nat.eqb x c).
  - destruct (Nat.eqb_spec y c) as [->|Hyc].
    + destruct (Nat.eq_dec c c) as [_|N]; [|now elim N]. simpl.
      destruct (Nat.eqb_spec x c) as [->|Hxc]; [reflexivity|].
      destruct (Nat.eq_dec c x) as [E|_]; [now elim Hxc|reflexivity].
    + simpl. rewrite IH.
      destruct (Nat.eq_dec y c) as [E|_]; [now elim Hyc|].
      destruct (Nat.eqb_spec x c) as [->|Hxc].
      * destruct (Nat.eq_dec y c) as [E|_]; [now elim Hyc|reflexivity].
      * reflexivity.
Qed.

Lemma remove_client_absent (c : Client) (clients : list Client) :
  ~ In c clients -> remove_client c clients = clients.
Proof.
  intros H. unfold remove_client.
  destruct (existsb (Nat.eqb c) clients) eqn:E; [|reflexivity].
  apply existsb_exists in E. destruct E as (x & Hx & Hxc).
  apply Nat.eqb_eq in Hxc. subst x. now elim H.
Qed.

Lemma remove_client_count (c x : Client) (clients : list Client) :
  count_occ Nat.eq_dec (remove_client c clients) x
  = if Nat.eqb x c then Nat.pred (count_occ Nat.eq_dec clients c)
    else count_occ Nat.eq_dec clients x.
Proof.
  unfold remove_client.
  destruct (existsb (Nat.eqb c) clients) eqn:E; [apply list_remove_count|].
  destruct (Nat.eqb_spec x c) as [->|Hxc]; [|reflexivity].
  assert (Hn : ~ In c clients).
  { intros Hin.
    assert (Ht : existsb (Nat.eqb c) clients = true).
    { apply existsb_exists. exists c. split; [exact Hin|apply Nat.eqb_refl]. }
    rewrite Ht in E. discriminate E. }
  apply (count_occ_not_In Nat.eq_dec) in Hn. now rewrite Hn.
Qed.

Lemma add_client_count (c x : Client) (clients : list Client) :
  count_occ Nat.eq_dec (add_client c clients) x
  = if Nat.eqb x c then S (count_occ Nat.eq_dec clients c)
    else count_occ Nat.eq_dec clients x.
Proof.
  unfold add_client. rewrite count_occ_app. simpl.
  destruct (Nat.eqb_spec x c) as [->|Hxc];
    destruct (Nat.eq_dec c _) as [E|N]; simpl; unfold Client in *;
    try lia; congruence.
Qed.

(** X13. [remove_client] takes one occurrence of the client out of the
    list, the first one, and leaves every other entry; on a client that
    is not in the list it does nothing. [add_client] does not look for
    the client in the list, so a client added twice is in the list
    twice, and one [remove_client] leaves it connected. *)
Theorem remove_client_takes_one_occurrence (c x : Client)
  (clients : list Client) :
  count_occ Nat.eq_dec (remove_client c clients) x
  = (if Nat.eqb x c then Nat.pred (count_occ Nat.eq_dec clients c)
     else count_occ Nat.eq_dec clients x) /\
  count_occ Nat.eq_dec (add_client c clients) x
  = (if Nat.eqb x c then S (count_occ Nat.eq_dec clients c)
     else count_occ Nat.eq_dec clients x) /\
  count_occ Nat.eq_dec (remove_client c (add_client c clients)) x
  = count_occ Nat.eq_dec clients x /\
  In c (remove_client c (add_client c (add_client c clients))).
Proof.
  split; [apply remove_client_count|]. split; [apply add_client_count|].
  split.
  - rewrite remove_client_count.
    destruct (Nat.eqb x c) eqn:Hxc; rewrite add_client_count.
    + apply Nat.eqb_eq in Hxc. subst x. now rewrite Nat.eqb_refl.
    + now rewrite Hxc.
  - apply (count_occ_In Nat.eq_dec).
    rewrite remove_client_count, !add_client_count, !Nat.eqb_refl.
    simpl. unfold Client in *. lia.
Qed.

(** ** The queue *)

Lemma numbered_length (events : list StreamingEvent) :
  forall k, List.length (numbered k events) = List.length events.
Proof.
  induction events as [|e events IH]; intros k; simpl; [reflexivity|].
  now rewrite IH.
Qed.

Lemma numbered_snoc (events : list StreamingEvent) (e : StreamingEvent) :
  forall k, numbered k (events ++ [e])
            = numbered k events ++ [(k + List.length events, e)].
Proof.
  induction events as [|x events IH]; intros k; simpl.
  - now rewrite Nat.add_0_r.
  - rewrite IH. simpl. now rewrite Nat.add_succ_r.
Qed.

Lemma skipn_cons_next {A : Type} (l : list A) :
  forall k x rest, skipn k l = x :: rest ->
                   skipn (S k) l = rest /\ nth_error l k = Some x /\
                   k < List.length l.
Proof.
  induction l as [|y l IH]; intros k x rest H.
  - destruct k; discriminate H.
  - destruct k as [|k]; simpl in H.
    + injection H as -> ->. simpl. repeat split. lia.
    + destruct (IH k x rest H) as (H1 & H2 & H3). simpl. repeat split;
        [exact H1|exact H2|lia].
Qed.

Lemma run_app (l1 l2 : list Action) :
  forall b,
    run (l1 ++ l2) b
    = (fst (run l2 (fst (run l1 b))),
       snd (run l1 b) ++ snd (run l2 (fst (run l1 b)))).
Proof.
  induction l1 as [|a l1 IH]; intros b; simpl.
  - now destruct (run l2 b).
  - destruct (step a b) as [b1 log1]. rewrite IH.
    destruct (run l1 b1) as [b2 log2]. simpl.
    now rewrite app_assoc.
Qed.

(** The invariant of a run: the queue holds the puts that have not been
    consumed, in the order of the puts, each with its number; what is
    sent carries a number that has been consumed. *)
Lemma run_queue (actions : list Action) :
  forall (b : Bus) (history : list StreamingEvent) (k : nat),
    puts b = List.length history ->
    k <= List.length history ->
    event_queue b = numbered k (skipn k history) ->
    exists k',
      k <= k' /\ k' <= List.length (history ++ published actions) /\
      puts (fst (run actions b)) = List.length (history ++ published actions) /\
      event_queue (fst (run actions b))
      = numbered k' (skipn k' (history ++ published actions)) /\
      Forall (fun d => k <= seq_no d /\ seq_no d < k') (snd (run actions b)).
Proof.
  induction actions as [|a rest IH]; intros b history k Hputs Hk Hqueue.
  - exists k. simpl. rewrite app_nil_r. repeat split; auto.
  - destruct a as [event|c|c|link].
    + (* Put *)
      destruct (IH {| connected_clients := connected_clients b;
                      event_queue := event_queue b ++ [(puts b, event)];
                      puts := S (puts b) |} (history ++ [event]) k)
        as (k' & H1 & H2 & H3 & H4 & H5).
      * simpl. rewrite length_app. simpl. lia.
      * rewrite length_app. simpl. lia.
      * simpl. rewrite Hqueue, skipn_app.
        replace (k - List.length history) with 0 by lia. simpl.
        rewrite numbered_snoc, length_skipn, Hputs.
        replace (k + (List.length history - k)) with (List.length history)
          by lia.
        reflexivity.
      * exists k'. simpl.
        destruct (run rest _) as [b2 log2]. simpl in *.
        rewrite <- app_assoc in H2, H3, H4. simpl in H2, H3, H4.
        repeat split; auto.
    + (* AddClient *)
      destruct (IH {| connected_clients := add_client c (connected_clients b);
                      event_queue := event_queue b; puts := puts b |}
                  history k Hputs Hk Hqueue)
        as (k' & H1 & H2 & H3 & H4 & H5).
      exists k'. simpl. destruct (run rest _) as [b2 log2]. simpl in *.
      repeat split; auto.
    + (* RemoveClient *)
      destruct (IH {| connected_clients := remove_client c (connected_clients b);
                      event_queue := event_queue b; puts := puts b |}
                  history k Hputs Hk Hqueue)
        as (k' & H1 & H2 & H3 & H4 & H5).
      exists k'. simpl. destruct (run rest _) as [b2 log2]. simpl in *.
      repeat split; auto.
    + (* Consume *)
      simpl. unfold process_one.
      destruct (event_queue b) as [|[n event] queue'] eqn:Hq.
      * destruct (IH b history k Hputs Hk) as (k' & H1 & H2 & H3 & H4 & H5).
        { now rewrite Hq. }
        exists k'. destruct (run rest b) as [b2 log2]. simpl in *.
        repeat split; auto.
      * destruct (skipn k history) as [|x tail] eqn:Hskip;
          [discriminate Hqueue|].
        simpl in Hqueue. injection Hqueue as -> -> ->.
        destruct (skipn_cons_next history k x tail Hskip) as (Hnext & _ & Hlt).
        destruct (broadcast_event link x (connected_clients b))
          as [[r clients'] sends].
        destruct (IH {| connected_clients := clients';
                        event_queue := numbered (S k) tail;
                        puts := puts b |} history (S k))
          as (k' & H1 & H2 & H3 & H4 & H5).
        { exact Hputs. }
        { lia. }
        { cbn [event_queue]. now rewrite Hnext. }
        exists k'. destruct (run rest _) as [b2 log2]. simpl in *.
        split; [lia|]. split; [exact H2|]. split; [exact H3|].
        split; [exact H4|].
        apply Forall_app. split.
        -- apply Forall_forall. intros d Hd. apply in_map_iff in Hd.
           destruct Hd as (s0 & <- & _). simpl. lia.
        -- eapply Forall_impl; [|exact H5]. simpl. intros d Hd. lia.
Qed.

(** X14. In every run of the bus from its initial state, [puts] counts
    the events put so far, the queue holds exactly the events that have
    been put and not yet consumed, in the order of the puts, and every
    send that was made carries an event that has been consumed. *)
Theorem queue_holds_unconsumed_puts (actions : list Action) :
  puts (fst (run actions new_bus)) = List.length (published actions) /\
  event_queue (fst (run actions new_bus))
  = numbered (consumed (fst (run actions new_bus)))
      (skipn (consumed (fst (run actions new_bus))) (published actions)) /\
  Forall (fun d => seq_no d < consumed (fst (run actions new_bus)))
         (snd (run actions new_bus)).
Proof.
  destruct (run_queue actions new_bus [] 0 eq_refl (le_n 0) eq_refl)
    as (k' & _ & H2 & H3 & H4 & H5).
  simpl in H2, H3, H4.
  assert (E : consumed (fst (run actions new_bus)) = k').
  { unfold consumed. rewrite H3, H4, numbered_length, length_skipn. lia. }
  rewrite E. split; [exact H3|]. split; [exact H4|].
  eapply Forall_impl; [|exact H5]. simpl. intros d Hd. lia.
Qed.

(** X15. An event that is taken from the queue while no client is
    connected is sent to nobody, and it is not sent later either: no
    send of the whole run carries it, whatever clients are added
    afterwards. *)
Theorem event_without_clients_is_lost (pre : list Action) (link : Link)
  (post : list Action) (n : nat) (event : StreamingEvent)
  (queue' : list (nat * StreamingEvent)) :
  connected_clients (fst (run pre new_bus)) = [] ->
  event_queue (fst (run pre new_bus)) = (n, event) :: queue' ->
  nth_error (published (pre ++ Consume link :: post)) n = Some event /\
  Forall (fun d => seq_no d <> n)
         (snd (run (pre ++ Consume link :: post) new_bus)).
Proof.
  intros Hclients Hqueue.
  destruct (run_queue pre new_bus [] 0 eq_refl (le_n 0) eq_refl)
    as (k1 & _ & H2 & H3 & H4 & H5).
  simpl in H2, H3, H4. rewrite Hqueue in H4.
  destruct (skipn k1 (published pre)) as [|x tail] eqn:Hskip;
    [discriminate H4|].
  simpl in H4. injection H4 as -> -> ->.
  destruct (skipn_cons_next (published pre) k1 x tail Hskip)
    as (Hnext & Hnth & Hlt).
  split.
  { assert (Hpub : forall l1 l2, published (l1 ++ l2)
                                 = published l1 ++ published l2).
    { induction l1 as [|a l1 IH]; intros l2; [reflexivity|].
      destruct a; simpl; now rewrite IH. }
    rewrite Hpub, nth_error_app1; [exact Hnth|exact Hlt]. }
  rewrite run_app. simpl. apply Forall_app. split.
  { eapply Forall_impl; [|exact H5]. simpl. intros d Hd. lia. }
  unfold process_one. rewrite Hqueue, Hclients. simpl.
  destruct (run_queue post
              {| connected_clients := []; event_queue := numbered (S k1) tail;
                 puts := puts (fst (run pre new_bus)) |}
              (published pre) (S k1) H3 Hlt)
    as (k2 & _ & _ & _ & _ & H6).
  { cbn [event_queue]. now rewrite Hnext. }
  destruct (run post _) as [b2 log2]. simpl in *.
  eapply Forall_impl; [|exact H6]. simpl. intros d Hd. lia.
Qed.

Lemma event_without_clients_witness :
  connected_clients (fst (run [Put item_added] new_bus)) = [] /\
  nth_error
    (published ([Put item_added]
                ++ Consume all_open :: [AddClient 1; Consume all_open])) 0
  = Some item_added /\
  Forall (fun d => seq_no d <> 0)
    (snd (run ([Put item_added]
               ++ Consume all_open :: [AddClient 1; Consume all_open])
              new_bus)).
Proof.
  split; [reflexivity|].
  apply (event_without_clients_is_lost [Put item_added] all_open
           [AddClient 1; Consume all_open] 0 item_added []);
    reflexivity.
Defined.

End BusProperties.

(* ================================================================== *)
(** * Further properties of the agent orchestrator *)
(* ================================================================== *)

Module HandlerProperties.
Import Collab Handlers.

(** ** The classification of a request *)


(** The words that would set [needs_inventory_integration] are keywords
    of the inventory branch, which is tried first. *)
Lemma forecasting_branch_has_no_stock_word (text : string) :
  any_in inventory_keywords text = false ->
  str_in "inventory" text || str_in "stock" text = false.
Proof.
  intros Hi. unfold any_in, inventory_keywords in Hi. simpl in Hi.
  apply orb_false_iff in Hi. destruct Hi as (H1 & Hi).
  apply orb_false_iff in Hi. destruct Hi as (H2 & _).
  now rewrite H1, H2.
Qed.

Lemma no_inventory_integration (user_input : string) :
  needs_inventory_integration (_analyze_intent user_input) = false.
Proof.
  unfold _analyze_intent.
  destruct (any_in inventory_keywords (lower user_input)) eqn:Hi.
  - now destruct (any_in complex_keywords (lower user_input)).
  - assert (Hw := forecasting_branch_has_no_stock_word _ Hi).
    destruct (any_in forecasting_keywords (lower user_input));
      destruct (any_in supplier_keywords (lower user_input));
      destruct (any_in complex_keywords (lower user_input)); simpl; auto.
Qed.


(** ** The recommendations of the pipeline *)

Lemma count_if_any_cases (inventory : dict) (key : string)
  (mk : nat -> Recommendation) (l : list Recommendation) :
  count_if_any inventory key mk = Ok l ->
  l = [] \/ exists n, l = [mk n].
Proof.
  unfold count_if_any, Py.bind.
  destruct (truthy (get_default inventory key PyNone)).
  - destruct (py_len (get_default inventory key PyNone)) as [n|e];
      [|discriminate]. intros H. injection H as <-. right. now exists n.
  - intros H. injection H as <-. now left.
Qed.

Lemma recommendations_without_supplier (f i : pyval)
  (recs : list Recommendation) :
  _generate_comprehensive_recommendations [("forecast", f); ("inventory", i)]
  = Ok recs ->
  exists counts,
    recs = counts ++ [ForecastsGenerated] /\
    List.length counts <= 2 /\
    Forall (fun r => exists n, r = LowOnStock n \/ r = OutOfStock n) counts.
Proof.
  unfold _generate_comprehensive_recommendations, Py.bind. simpl.
  destruct (as_dict i) as [inv|e]; [|discriminate].
  destruct (count_if_any inv "low_stock_items" LowOnStock) as [low|e] eqn:Hl;
    [|discriminate].
  destruct (count_if_any inv "out_of_stock_items" OutOfStock) as [out|e] eqn:Ho;
    [|discriminate].
  intros H. injection H as <-. exists (low ++ out).
  apply count_if_any_cases in Hl, Ho.
  split; [reflexivity|].
  destruct Hl as [->|(n & ->)]; destruct Ho as [->|(m & ->)]; simpl;
    split; try lia; repeat constructor; eauto.
Qed.

Lemma recommendations_with_supplier (f i p : pyval)
  (recs : list Recommendation) :
  _generate_comprehensive_recommendations
    [("forecast", f); ("inventory", i); ("supplier_recommendations", p)]
  = Ok recs ->
  exists counts,
    recs = counts ++ [ForecastsGenerated; SupplierRecommendationsGenerated] /\
    List.length counts <= 2 /\
    Forall (fun r => exists n, r = LowOnStock n \/ r = OutOfStock n) counts.
Proof.
  unfold _generate_comprehensive_recommendations, Py.bind. simpl.
  destruct (as_dict i) as [inv|e]; [|discriminate].
  destruct (count_if_any inv "low_stock_items" LowOnStock) as [low|e] eqn:Hl;
    [|discriminate].
  destruct (count_if_any inv "out_of_stock_items" OutOfStock) as [out|e] eqn:Ho;
    [|discriminate].
  intros H. injection H as <-. exists (low ++ out).
  apply count_if_any_cases in Hl, Ho.
  split; [reflexivity|].
  destruct Hl as [->|(n & ->)]; destruct Ho as [->|(m & ->)]; simpl;
    split; try lia; repeat constructor; eauto.
Qed.

Lemma pipeline_response_summary (agents : DomainAgents)
  (message_queue : nat) (user_input : string) (context : dict)
  (intent : Intent) (response : Response) (calls : list Call) :
  _handle_complex_request agents message_queue user_input context intent
  = (Ok response, calls) ->
  response_type response = "comprehensive_analysis" /\
  collaboration_summary response = _get_collaboration_summary message_queue.
Proof.
  unfold _handle_complex_request.
  destruct (forecast_demand agents _) as [f|e]; [|discriminate].
  destruct (analyze_stock_levels agents _) as [a|e]; [|discriminate].
  destruct (calculate_reorder_points agents _ f) as [r|e]; [|discriminate].
  destruct (truthy (get_default a "low_stock_items" (PyList []))).
  - destruct (procurement_items _) as [items|e]; [|discriminate].
    destruct (optimize_procurement agents _ _) as [p|e]; [|discriminate].
    intros H. injection H as Hres _. unfold respond, Py.bind in Hres.
    destruct (_generate_comprehensive_recommendations _); [|discriminate Hres].
    injection Hres as <-. now split.
  - intros H. injection H as Hres _. unfold respond, Py.bind in Hres.
    destruct (_generate_comprehensive_recommendations _); [|discriminate Hres].
    injection Hres as <-. now split.
Qed.

(** X18. The recommendations of a response of the pipeline, for any
    request, context and agents: at most one sentence on the items low
    on stock and one on the items out of stock, then the sentence on
    the forecasts, which is always there, then the sentence on the
    supplier recommendations exactly when the procurement was
    optimized. The summary reports the message queue as the request
    found it. *)
Theorem recommendations_of_pipeline (agents : DomainAgents)
  (message_queue : nat) (user_input : string) (context : dict)
  (intent : Intent) (response : Response) (calls : list Call) :
  _handle_complex_request agents message_queue user_input context intent
  = (Ok response, calls) ->
  exists counts,
    recommendations response
    = counts ++ ForecastsGenerated
             :: (if Nat.eqb (List.length calls) 4
                 then [SupplierRecommendationsGenerated] else []) /\
    List.length counts <= 2 /\
    Forall (fun r => exists n, r = LowOnStock n \/ r = OutOfStock n) counts /\
    response_type response = "comprehensive_analysis" /\
    collaboration_summary response = _get_collaboration_summary message_queue.
Proof.
  unfold _handle_complex_request.
  destruct (forecast_demand agents _) as [f|e]; [|discriminate].
  destruct (analyze_stock_levels agents _) as [a|e]; [|discriminate].
  destruct (calculate_reorder_points agents _ f) as [r|e]; [|discriminate].
  destruct (truthy (get_default a "low_stock_items" (PyList []))).
  - destruct (procurement_items _) as [items|e]; [|discriminate].
    destruct (optimize_procurement agents _ _) as [p|e]; [|discriminate].
    intros H. injection H as Hres <-.
    unfold respond, Py.bind in Hres. simpl dict_set in Hres.
    destruct (_generate_comprehensive_recommendations _) as [recs|e] eqn:Hrecs;
      [|discriminate Hres].
    injection Hres as <-. simpl.
    apply recommendations_with_supplier in Hrecs.
    destruct Hrecs as (counts & -> & Hlen & Hall).
    exists counts. repeat split; auto.
  - intros H. injection H as Hres <-.
    unfold respond, Py.bind in Hres. simpl dict_set in Hres.
    destruct (_generate_comprehensive_recommendations _) as [recs|e] eqn:Hrecs;
      [|discriminate Hres].
    injection Hres as <-. simpl.
    apply recommendations_without_supplier in Hrecs.
    destruct Hrecs as (counts & -> & Hlen & Hall).
    exists counts. repeat split; auto.
Qed.

Lemma recommendations_of_pipeline_witness :
  exists counts,
    recommendations Agents.low_stock_response
    = counts ++ [ForecastsGenerated; SupplierRecommendationsGenerated] /\
    List.length counts <= 2.
Proof.
  destruct (recommendations_of_pipeline
              (Agents.source_agents Agents.plain_kernels) 0
              "optimize supply chain" Agents.low_stock_context
              (_analyze_intent "optimize supply chain")
              Agents.low_stock_response Agents.low_stock_calls eq_refl)
    as (counts & H & Hlen & _).
  exists counts. split; [exact H|exact Hlen].
Defined.

(** ** The message queue *)

Lemma forecasting_step_queue (agents : DomainAgents)
  (queue : list AgentRequest) (inventory_data : pyval) (analysis : dict) :
  snd (forecasting_step agents queue inventory_data analysis)
  = queue ++ [collaborate_with_forecasting_agent inventory_data].
Proof.
  unfold forecasting_step.
  destruct (_get_forecast_data agents inventory_data) as [f|e]; [|reflexivity].
  now destruct (calculate_reorder_points agents inventory_data f).
Qed.

Lemma supplier_step_queue (agents : DomainAgents)
  (queue : list AgentRequest) (context analysis : dict) :
  snd (supplier_step agents queue context analysis)
  = queue
    ++ (if truthy (get_default analysis "low_stock_items" (PyList []))
        then [collaborate_with_supplier_agent
                (get_default analysis "low_stock_items" (PyList []))]
        else []).
Proof.
  unfold supplier_step.
  destruct (truthy (get_default analysis "low_stock_items" (PyList [])));
    [|simpl; now rewrite app_nil_r].
  destruct (procurement_items _) as [items|e]; [|reflexivity].
  now destruct (optimize_procurement agents _ _).
Qed.

(** The messages that one request adds, and the summary of its reply. *)
Lemma inventory_request_queue (agents : DomainAgents)
  (queue : list AgentRequest) (user_input : string) (context : dict)
  (intent : Intent) :
  exists added,
    snd (_handle_inventory_request agents queue user_input context intent)
    = queue ++ added /\
    List.length added <= 2 /\
    Forall (fun m => target_agent m = "forecasting_agent" \/
                     target_agent m = "supplier_agent") added /\
    forall reply,
      fst (_handle_inventory_request agents queue user_input context intent)
      = Ok reply ->
      summary_of reply = summary (queue ++ added).
Proof.
  unfold _handle_inventory_request.
  destruct (analyze_stock_levels agents _) as [a|e].
  2:{ exists []. rewrite app_nil_r. simpl. repeat split; auto. discriminate. }
  set (inv := get_default context "inventory_data" (PyList [])).
  destruct (needs_forecasting intent).
  - assert (Hq := forecasting_step_queue agents queue inv a).
    destruct (forecasting_step agents queue inv a) as [[a1|e] q1];
      simpl in Hq; subst q1.
    + destruct (needs_supplier_recommendations intent).
      * assert (Hq := supplier_step_queue agents
                        (queue ++ [collaborate_with_forecasting_agent inv])
                        context a1).
        destruct (supplier_step agents _ context a1) as [[a2|e] q2];
          simpl in Hq; subst q2; rewrite <- app_assoc;
          eexists; (split; [reflexivity|]);
          destruct (truthy (get_default a1 "low_stock_items" (PyList [])));
          simpl; repeat split; auto; try discriminate;
          try (intros reply H; injection H as <-; reflexivity).
      * exists [collaborate_with_forecasting_agent inv]. simpl.
        repeat split; auto.
        intros reply H. injection H as <-. reflexivity.
    + exists [collaborate_with_forecasting_agent inv]. simpl.
      repeat split; auto. discriminate.
  - destruct (needs_supplier_recommendations intent).
    + assert (Hq := supplier_step_queue agents queue context a).
      destruct (supplier_step agents queue context a) as [[a2|e] q2];
        simpl in Hq; subst q2;
        eexists; (split; [reflexivity|]);
        destruct (truthy (get_default a "low_stock_items" (PyList [])));
        simpl; repeat split; auto; try discriminate;
        try (intros reply H; injection H as <-; reflexivity).
    + exists []. rewrite app_nil_r. simpl. repeat split; auto.
      intros reply H. injection H as <-. reflexivity.
Qed.

Lemma request_adds_messages (agents : DomainAgents)
  (analyses : SupplierAnalyses) (queue : list AgentRequest)
  (user_input : string) (context : dict) :
  exists added,
    snd (process_user_request agents analyses queue user_input context)
    = queue ++ added /\
    List.length added
    <= match selected_branch (_analyze_intent user_input) with
       | InventoryRequest => 2
       | SupplierRequest => 1
       | ForecastingRequest | ComplexRequest => 0
       end /\
    Forall (fun m => target_agent m = "forecasting_agent" \/
                     target_agent m = "supplier_agent" \/
                     target_agent m = "logistics_agent") added /\
    forall reply,
      fst (process_user_request agents analyses queue user_input context)
      = Ok reply ->
      summary_of reply = summary (queue ++ added).
Proof.
  unfold process_user_request.
  destruct (selected_branch (_analyze_intent user_input)).
  - destruct (inventory_request_queue agents queue user_input context
                (_analyze_intent user_input))
      as (added & H1 & H2 & H3 & H4).
    exists added. split; [exact H1|]. split; [exact H2|].
    split; [|exact H4].
    eapply Forall_impl; [|exact H3]. simpl. tauto.
  - exists []. rewrite app_nil_r. unfold _handle_forecasting_request.
    rewrite (no_inventory_integration user_input).
    destruct (forecast_demand agents _) as [f|e]; simpl; repeat split; auto.
    + intros reply H. injection H as <-. reflexivity.
    + discriminate.
  - unfold _handle_supplier_request.
    destruct (analyze_supplier_performance analyses _) as [p|e].
    2:{ exists []. rewrite app_nil_r. simpl. repeat split; auto. discriminate. }
    destruct (assess_supplier_risks analyses _) as [r|e].
    2:{ exists []. rewrite app_nil_r. simpl. repeat split; auto. discriminate. }
    destruct (needs_logistics_optimization (_analyze_intent user_input)).
    + eexists. split; [reflexivity|]. simpl. repeat split; auto.
      intros reply H. injection H as <-. reflexivity.
    + exists []. rewrite app_nil_r. simpl. repeat split; auto.
      intros reply H. injection H as <-. reflexivity.
  - exists []. rewrite app_nil_r.
    destruct (_handle_complex_request agents (List.length queue) user_input
                context (_analyze_intent user_input)) as [[response|e] calls]
      eqn:Hrun; simpl; repeat split; auto.
    + intros reply H. injection H as <-. simpl.
      destruct (pipeline_response_summary agents (List.length queue)
                  user_input context (_analyze_intent user_input) response
                  calls Hrun) as (_ & ->).
      reflexivity.
    + discriminate.
Qed.


(** X20. Nothing is ever taken out of the message queue: over any
    sequence of requests the queue of the start is a prefix of the
    queue of the end, which has at most two messages more per request;
    once the queue holds a message, every reply reports
    [collaboration_active]. *)
Theorem message_queue_never_shrinks (agents : DomainAgents)
  (analyses : SupplierAnalyses) (requests : list (string * dict)) :
  forall queue,
    exists added,
      snd (process_all agents analyses queue requests) = queue ++ added /\
      List.length added <= 2 * List.length requests /\
      List.length (fst (process_all agents analyses queue requests))
      = List.length requests /\
      (queue <> [] ->
       Forall (fun r => forall reply,
                 r = Ok reply -> collaboration_active (summary_of reply) = true)
              (fst (process_all agents analyses queue requests))).
Proof.
  induction requests as [|[user_input context] rest IH]; intros queue.
  - exists []. simpl. rewrite app_nil_r. repeat split; auto.
  - simpl.
    destruct (request_adds_messages agents analyses queue user_input context)
      as (added1 & H1 & H2 & _ & H4).
    destruct (process_user_request agents analyses queue user_input context)
      as [reply queue1].
    simpl in H1, H4. subst queue1.
    destruct (IH (queue ++ added1)) as (added2 & H5 & H6 & H7 & H8).
    destruct (process_all agents analyses (queue ++ added1) rest)
      as [replies queue2].
    simpl in *. subst queue2. exists (added1 ++ added2).
    split; [now rewrite app_assoc|]. split.
    { rewrite length_app.
      assert (List.length added1 <= 2); [|lia].
      destruct (selected_branch (_analyze_intent user_input)); lia. }
    split; [now rewrite H7|].
    intros Hne. constructor.
    + intros r ->. rewrite (H4 r eq_refl). unfold summary. simpl.
      apply Nat.ltb_lt. rewrite length_app.
      destruct queue; [now elim Hne|simpl; lia].
    + apply H8. destruct queue; [now elim Hne|discriminate].
Qed.

(** X21. The request for a forecast is queued before the forecast is
    asked for: when an inventory request that mentions a forecast has
    its stock levels analysed and the forecast then raises, the request
    raises that exception and the message stays in the queue. *)
Theorem forecast_request_stays_queued (agents : DomainAgents)
  (analyses : SupplierAnalyses) (queue : list AgentRequest)
  (user_input : string) (context : dict) (analysis : dict) (e : exn) :
  selected_branch (_analyze_intent user_input) = InventoryRequest ->
  needs_forecasting (_analyze_intent user_input) = true ->
  analyze_stock_levels agents
    (get_default context "inventory_data" (PyList [])) = Ok analysis ->
  _get_forecast_data agents
    (get_default context "inventory_data" (PyList [])) = Raise e ->
  process_user_request agents analyses queue user_input context
  = (Raise e,
     queue ++ [collaborate_with_forecasting_agent
                 (get_default context "inventory_data" (PyList []))]).
Proof.
  intros Hbranch Hflag Hanalysis Hforecast.
  unfold process_user_request. rewrite Hbranch.
  unfold _handle_inventory_request. rewrite Hanalysis, Hflag.
  unfold forecasting_step. rewrite Hforecast. reflexivity.
Qed.

Lemma forecast_request_stays_queued_witness :
  process_user_request
    (forecast_fails (Agents.source_agents Agents.plain_kernels)) no_analyses
    [] "forecast stock" Agents.low_stock_context
  = (Raise (Exn "ValueError" "no data"),
     [collaborate_with_forecasting_agent
        (get_default Agents.low_stock_context "inventory_data" (PyList []))]).
Proof.
  destruct (Agents.analyze_stock_levels Agents.plain_kernels
              (get_default Agents.low_stock_context "inventory_data"
                 (PyList []))) as [analysis|e] eqn:Ha; [|discriminate Ha].
  apply (forecast_request_stays_queued
           (forecast_fails (Agents.source_agents Agents.plain_kernels))
           no_analyses [] "forecast stock" Agents.low_stock_context analysis
           (Exn "ValueError" "no data")).
  - reflexivity.
  - reflexivity.
  - exact Ha.
  - reflexivity.
Defined.

End HandlerProperties.

(* ================================================================== *)
(** * Further properties of the three agents *)
(* ================================================================== *)

Module AgentProperties.
Import Collab Agents AgentResults.

(** ** analyze_stock_levels *)

Lemma analyze_item_shape (K : Kernels) (low out over : list pyval)
  (item : pyval) (a : dict) :
  analyze_item (analysis_of K low out over) item = Ok a ->
  exists low' out' over',
    a = analysis_of K low' out' over' /\
    (low' = low \/ exists e, low_stock_entry e /\ low' = low ++ [e]) /\
    (out' = out \/ exists e, out' = out ++ [e]) /\
    (over' = over \/ exists e, over' = over ++ [e]).
Proof.
  unfold analyze_item, Py.bind.
  destruct (as_dict item) as [d|e]; [|discriminate].
  destruct (as_int (get_default d "current_stock" (PyInt 0))) as [cur|e];
    [|discriminate].
  destruct (as_int (get_default d "reorder_point" (PyInt 0))) as [rp|e];
    [|discriminate].
  destruct (cur <=? rp)%Z.
  - destruct (as_int (get_default d "min_stock" (PyInt 0))) as [mn|e];
      [|discriminate].
    destruct (as_int (get_default d "max_stock" (PyInt 0))) as [mx|e];
      [|destruct (cur =? 0)%Z; discriminate].
    destruct (cur =? 0)%Z;
      destruct (float_of_Z mx * 1.2 <? float_of_Z cur)%float;
      intros H; injection H as <-;
      eexists; eexists; eexists; (split; [reflexivity|]);
      (split; [right; eexists; split; [|reflexivity];
               do 5 eexists; split; [reflexivity|];
               destruct (cur <=? mn)%Z; auto|]);
      split; eauto.
  - destruct (as_int (get_default d "max_stock" (PyInt 0))) as [mx|e];
      [|destruct (cur =? 0)%Z; discriminate].
    destruct (cur =? 0)%Z;
      destruct (float_of_Z mx * 1.2 <? float_of_Z cur)%float;
      intros H; injection H as <-;
      eexists; eexists; eexists; (split; [reflexivity|]);
      (split; [now left|]); split; eauto.
Qed.

Lemma analyze_loop_shape (K : Kernels) (items : list pyval) :
  forall (low out over : list pyval) (a : dict),
    Forall low_stock_entry low ->
    analyze_loop items (analysis_of K low out over) = Ok a ->
    exists low' out' over',
      a = analysis_of K low' out' over' /\
      Forall low_stock_entry low' /\
      List.length low' <= List.length low + List.length items /\
      List.length out' <= List.length out + List.length items /\
      List.length over' <= List.length over + List.length items.
Proof.
  induction items as [|item rest IH]; intros low out over a Hlow H.
  - simpl in H. injection H as <-. exists low, out, over.
    repeat split; auto; lia.
  - simpl in H. unfold Py.bind in H.
    destruct (analyze_item (analysis_of K low out over) item) as [a1|e] eqn:H1;
      [|discriminate H].
    apply analyze_item_shape in H1.
    destruct H1 as (low1 & out1 & over1 & -> & Hl & Ho & Hv).
    assert (Hlow1 : Forall low_stock_entry low1).
    { destruct Hl as [->|(e & He & ->)]; [exact Hlow|].
      apply Forall_app. split; [exact Hlow|]. now constructor. }
    destruct (IH low1 out1 over1 a Hlow1 H)
      as (low' & out' & over' & -> & Hlow' & L1 & L2 & L3).
    exists low', out', over'. split; [reflexivity|]. split; [exact Hlow'|].
    assert (List.length low1 <= S (List.length low)).
    { destruct Hl as [->|(e & _ & ->)]; [lia|].
      rewrite length_app. simpl. lia. }
    assert (List.length out1 <= S (List.length out)).
    { destruct Ho as [->|(e & ->)]; [lia|]. rewrite length_app. simpl. lia. }
    assert (List.length over1 <= S (List.length over)).
    { destruct Hv as [->|(e & ->)]; [lia|]. rewrite length_app. simpl. lia. }
    simpl. lia.
Qed.

Lemma stock_analysis_shape (K : Kernels) (inventory_data : pyval)
  (items : list pyval) (a : dict) :
  py_iter inventory_data = Ok items ->
  analyze_stock_levels K inventory_data = Ok a ->
  exists low out over,
    a = analysis_of K low out over /\
    Forall low_stock_entry low /\
    List.length low <= List.length items /\
    List.length out <= List.length items /\
    List.length over <= List.length items.
Proof.
  intros Hitems H. unfold analyze_stock_levels, Py.bind in H.
  rewrite Hitems in H.
  apply (analyze_loop_shape K items [] [] [] a (Forall_nil _)) in H.
  exact H.
Qed.

(** X22. An analysis that [analyze_stock_levels] returns has its six
    entries in the order of the source: the three lists of the items
    low on stock, out of stock and overstocked, each with at most one
    entry per item of the inventory, the lists [critical_items] and
    [recommendations], which are always empty, and the historical
    insights of the agent memory. Every entry of [low_stock_items] has
    the five fields of the source, with the urgency [high] or
    [medium]. *)
Theorem stock_analysis_has_fixed_shape (K : Kernels) (inventory_data : pyval)
  (items : list pyval) (a : dict) :
  py_iter inventory_data = Ok items ->
  analyze_stock_levels K inventory_data = Ok a ->
  exists low out over,
    a = [("low_stock_items", PyList low);
         ("out_of_stock_items", PyList out);
         ("overstocked_items", PyList over);
         ("critical_items", PyList []);
         ("recommendations", PyList []);
         ("historical_insights", historical_context K)] /\
    Forall low_stock_entry low /\
    List.length low <= List.length items /\
    List.length out <= List.length items /\
    List.length over <= List.length items.
Proof.
  exact (stock_analysis_shape K inventory_data items a).
Qed.

Lemma stock_analysis_shape_witness :
  exists low out over,
    analyze_stock_levels plain_kernels
      (get_default low_stock_context "inventory_data" (PyList []))
    = Ok (analysis_of plain_kernels low out over) /\
    List.length low <= 1 /\ List.length out <= 1 /\ List.length over <= 1.
Proof.
  destruct (analyze_stock_levels plain_kernels
              (get_default low_stock_context "inventory_data" (PyList [])))
    as [a|e] eqn:Ha; [|discriminate Ha].
  destruct (stock_analysis_has_fixed_shape plain_kernels
              (get_default low_stock_context "inventory_data" (PyList []))
              _ a eq_refl Ha)
    as (low & out & over & -> & _ & H1 & H2 & H3).
  exists low, out, over. split; [reflexivity|]. simpl in H1, H2, H3.
  repeat split; assumption.
Defined.

Lemma procurement_items_of_entries (low : list pyval) :
  Forall low_stock_entry low ->
  exists items,
    map_result procurement_item low = Ok items /\
    List.length items = List.length low /\
    Forall standard_requirement items.
Proof.
  induction 1 as [|e low He _ IH].
  - exists []. repeat split; constructor.
  - destruct IH as (items & Hitems & Hlen & Hall).
    destruct He as (id & name & cur & rp & u & -> & _).
    exists (PyDict [("item_name", name); ("quantity", PyInt 100);
                    ("urgency", PyStr "medium")] :: items).
    simpl. unfold Py.bind. rewrite Hitems. simpl.
    split; [reflexivity|]. split; [now rewrite Hlen|].
    constructor; [now exists name|exact Hall].
Qed.

(** X23. The requirements that the orchestrator makes of an analysis of
    [analyze_stock_levels] never fail on a missing name, for any
    inventory data: every entry of [low_stock_items] has a [name]. An
    entry has no [reorder_quantity], so every requirement asks for the
    quantity 100, and its urgency is [medium] whatever the urgency of
    the entry is. *)
Theorem requirements_of_analysis (K : Kernels) (inventory_data : pyval)
  (a : dict) :
  analyze_stock_levels K inventory_data = Ok a ->
  exists low items,
    get_default a "low_stock_items" (PyList []) = PyList low /\
    procurement_items (get_default a "low_stock_items" (PyList []))
    = Ok items /\
    List.length items = List.length low /\
    Forall standard_requirement items.
Proof.
  intros H.
  destruct (py_iter inventory_data) as [entries|e] eqn:Hiter.
  2:{ unfold analyze_stock_levels, Py.bind in H. rewrite Hiter in H.
      discriminate H. }
  destruct (stock_analysis_shape K inventory_data entries a Hiter H)
    as (low & out & over & -> & Hlow & _).
  destruct (procurement_items_of_entries low Hlow) as (items & H1 & H2 & H3).
  exists low, items. split; [reflexivity|].
  split; [|split; assumption].
  unfold procurement_items, Py.bind. simpl. exact H1.
Qed.

Lemma requirements_of_analysis_witness :
  exists a,
    analyze_stock_levels plain_kernels
      (get_default low_stock_context "inventory_data" (PyList [])) = Ok a /\
    procurement_items (get_default a "low_stock_items" (PyList []))
    = Ok [PyDict [("item_name", PyStr "microprocessors");
                  ("quantity", PyInt 100); ("urgency", PyStr "medium")]].
Proof.
  destruct (analyze_stock_levels plain_kernels
              (get_default low_stock_context "inventory_data" (PyList [])))
    as [a|e] eqn:Ha; [|discriminate Ha].
  exists a. split; [reflexivity|].
  destruct (requirements_of_analysis plain_kernels
              (get_default low_stock_context "inventory_data" (PyList []))
              a Ha) as (low & items & _ & Hitems & _).
  rewrite Hitems. injection Ha as <-. simpl in Hitems.
  now injection Hitems as <-.
Defined.

(** ** forecast_demand *)

Lemma dict_set_length {V : Type} (d : list (string * V)) (k : string) (v : V) :
  List.length (dict_set d k v) <= S (List.length d).
Proof.
  induction d as [|[k' v'] d IH]; simpl; [lia|].
  destruct (String.eqb k' k); simpl; lia.
Qed.

Lemma forecast_loop_length (K : Kernels) (items : list pyval) :
  forall forecasts result,
    forecast_loop K items forecasts = Ok result ->
    List.length result <= List.length forecasts + List.length items.
Proof.
  induction items as [|item rest IH]; intros forecasts result H; simpl in H.
  - injection H as <-. lia.
  - unfold Py.bind in H.
    destruct (as_dict item) as [d|e]; [|discriminate H].
    destruct (py_len _) as [n|e]; [|discriminate H].
    destruct (n <? 3)%nat.
    + apply IH in H. simpl. lia.
    + destruct (forecast_entry K d) as [k v]. apply IH in H.
      assert (Hs := dict_set_length forecasts k v). simpl. lia.
Qed.

Lemma forecast_loop_short (K : Kernels) (items : list pyval) :
  forall forecasts,
    Forall short_history items ->
    forecast_loop K items forecasts = Ok forecasts.
Proof.
  induction items as [|item rest IH]; intros forecasts H; [reflexivity|].
  inversion H as [|? ? (d & n & -> & Hlen & Hn) Hrest]; subst.
  simpl. unfold Py.bind. rewrite Hlen.
  apply Nat.ltb_lt in Hn. rewrite Hn. now apply IH.
Qed.

(** X24. [forecast_demand] returns one entry, [demand_forecasts], with
    at most one forecast per item of the history; items with fewer than
    three observations are passed over, so a history in which every
    item is that short gives an empty forecast and no error. *)
Theorem forecast_passes_over_short_histories (K : Kernels)
  (historical_data : pyval) (items : list pyval) :
  py_iter historical_data = Ok items ->
  (forall result,
     forecast_demand K historical_data = Ok result ->
     exists forecasts,
       result = [("demand_forecasts", PyDict forecasts)] /\
       List.length forecasts <= List.length items) /\
  (Forall short_history items ->
   forecast_demand K historical_data = Ok [("demand_forecasts", PyDict [])]).
Proof.
  intros Hitems. unfold forecast_demand, Py.bind. rewrite Hitems. split.
  - intros result H.
    destruct (forecast_loop K items []) as [forecasts|e] eqn:Hloop;
      [|discriminate H].
    injection H as <-. exists forecasts. split; [reflexivity|].
    apply forecast_loop_length in Hloop. simpl in Hloop. exact Hloop.
  - intros Hshort. now rewrite (forecast_loop_short K items [] Hshort).
Qed.

Lemma forecast_passes_over_witness :
  forecast_demand plain_kernels two_items = Ok [("demand_forecasts", PyDict [])].
Proof.
  apply (proj2 (forecast_passes_over_short_histories plain_kernels two_items
                  _ eq_refl)).
  repeat constructor.
  - eexists. exists 0. repeat split. lia.
  - eexists. exists 2. repeat split. lia.
Defined.

End AgentProperties.

(* ================================================================== *)
(** * Properties of the selection of suppliers *)
(* ================================================================== *)

Module SupplierProperties.
Import Collab Agents AgentResults SupplierSelection.

(** ** The lists of the stock analysis, item by item *)

Lemma analyze_item_lists (K : Kernels) (low out over : list pyval)
  (item : pyval) (a : dict) :
  analyze_item (analysis_of K low out over) item = Ok a ->
  exists over',
    a = analysis_of K (low ++ map low_entry_of (filter is_low [item]))
                      (out ++ map out_entry_of (filter is_out [item])) over'.
Proof.
  unfold analyze_item, Py.bind.
  destruct item as [| b | z | s | l | d]; try discriminate.
  simpl as_dict. cbv iota.
  assert (Hlow : forall cur rp,
            as_int (get_default d "current_stock" (PyInt 0)) = Ok cur ->
            as_int (get_default d "reorder_point" (PyInt 0)) = Ok rp ->
            is_low (PyDict d) = (cur <=? rp)%Z).
  { intros cur rp H1 H2. unfold is_low, stock_figure. now rewrite H1, H2. }
  assert (Hout : forall cur,
            as_int (get_default d "current_stock" (PyInt 0)) = Ok cur ->
            is_out (PyDict d) = (cur =? 0)%Z).
  { intros cur H1. unfold is_out, stock_figure. now rewrite H1. }
  assert (Hurg : forall cur mn,
            as_int (get_default d "current_stock" (PyInt 0)) = Ok cur ->
            as_int (get_default d "min_stock" (PyInt 0)) = Ok mn ->
            urgency_of d = if (cur <=? mn)%Z then "high" else "medium").
  { intros cur mn H1 H2. unfold urgency_of, stock_figure. now rewrite H1, H2. }
  destruct (as_int (get_default d "current_stock" (PyInt 0))) as [cur|e]
    eqn:Hcur; [|discriminate].
  destruct (as_int (get_default d "reorder_point" (PyInt 0))) as [rp|e]
    eqn:Hrp; [|discriminate].
  cbn [filter]. rewrite (Hlow cur rp eq_refl eq_refl), (Hout cur eq_refl).
  destruct (cur <=? rp)%Z.
  - destruct (as_int (get_default d "min_stock" (PyInt 0))) as [mn|e] eqn:Hmn;
      [|discriminate].
    destruct (as_int (get_default d "max_stock" (PyInt 0))) as [mx|e];
      [|destruct (cur =? 0)%Z; discriminate].
    destruct (cur =? 0)%Z;
      destruct (float_of_Z mx * 1.2 <? float_of_Z cur)%float;
      intros H; injection H as <-; eexists; simpl;
      rewrite (Hurg cur mn eq_refl eq_refl), ?app_nil_r; reflexivity.
  - destruct (as_int (get_default d "max_stock" (PyInt 0))) as [mx|e];
      [|destruct (cur =? 0)%Z; discriminate].
    destruct (cur =? 0)%Z;
      destruct (float_of_Z mx * 1.2 <? float_of_Z cur)%float;
      intros H; injection H as <-; eexists; simpl;
      rewrite ?app_nil_r; reflexivity.
Qed.

Lemma analyze_loop_lists (K : Kernels) (items : list pyval) :
  forall (low out over : list pyval) (a : dict),
    analyze_loop items (analysis_of K low out over) = Ok a ->
    exists over',
      a = analysis_of K (low ++ map low_entry_of (filter is_low items))
                        (out ++ map out_entry_of (filter is_out items)) over'.
Proof.
  induction items as [|item rest IH]; intros low out over a H.
  - simpl in H. injection H as <-. exists over. simpl.
    now rewrite !app_nil_r.
  - simpl in H. unfold Py.bind in H.
    destruct (analyze_item (analysis_of K low out over) item) as [a1|e] eqn:H1;
      [|discriminate H].
    apply analyze_item_lists in H1. destruct H1 as (over1 & ->).
    apply IH in H. destruct H as (over' & ->). exists over'.
    rewrite <- !app_assoc, <- !map_app.
    change (item :: rest) with ([item] ++ rest).
    now rewrite !filter_app.
Qed.

Lemma analysis_lists (K : Kernels) (inventory_data : pyval)
  (items : list pyval) (a : dict) :
  py_iter inventory_data = Ok items ->
  analyze_stock_levels K inventory_data = Ok a ->
  get_default a "low_stock_items" (PyList [])
  = PyList (map low_entry_of (filter is_low items)) /\
  get_default a "out_of_stock_items" (PyList [])
  = PyList (map out_entry_of (filter is_out items)).
Proof.
  intros Hitems H. unfold analyze_stock_levels, Py.bind in H.
  rewrite Hitems in H.
  apply (analyze_loop_lists K items [] [] []) in H.
  destruct H as (over' & ->). split; reflexivity.
Qed.

(** X25. [low_stock_items] lists exactly the items whose current stock
    is not above their reorder point, and [out_of_stock_items] exactly
    the items with no stock, both in the order of the inventory data,
    each item with the entry that the source makes of it. *)
Theorem analysis_lists_the_low_items (K : Kernels) (inventory_data : pyval)
  (items : list pyval) (a : dict) :
  py_iter inventory_data = Ok items ->
  analyze_stock_levels K inventory_data = Ok a ->
  get_default a "low_stock_items" (PyList [])
  = PyList (map low_entry_of (filter is_low items)) /\
  get_default a "out_of_stock_items" (PyList [])
  = PyList (map out_entry_of (filter is_out items)).
Proof.
  exact (analysis_lists K inventory_data items a).
Qed.

Lemma analysis_lists_witness :
  exists a,
    analyze_stock_levels plain_kernels (PyList [nameless_item]) = Ok a /\
    get_default a "low_stock_items" (PyList [])
    = PyList [PyDict [("item_id", PyStr "item_9"); ("name", PyNone);
                      ("current_stock", PyInt 3); ("reorder_point", PyInt 10);
                      ("urgency", PyStr "medium")]] /\
    get_default a "out_of_stock_items" (PyList []) = PyList [].
Proof.
  destruct (analyze_stock_levels plain_kernels (PyList [nameless_item]))
    as [a|e] eqn:Ha; [|discriminate Ha].
  exists a. split; [reflexivity|].
  exact (analysis_lists_the_low_items plain_kernels (PyList [nameless_item])
           [nameless_item] a eq_refl Ha).
Defined.

(** ** _supplier_can_fulfill *)

Lemma str_in_empty (s : string) : str_in EmptyString s = true.
Proof. destruct s; reflexivity. Qed.

(** X26. [_supplier_can_fulfill] returns exactly when the products of
    the supplier and the name of the item are strings (a missing one
    counts as the empty string), and raises [AttributeError] otherwise.
    A supplier with [general] among its products, in any case of the
    letters, can fulfil every requirement, and a requirement with no
    item name or an empty one is fulfilled by every supplier. *)
Theorem supplier_can_fulfill_cases (supplier requirement : dict) :
  ((exists b, _supplier_can_fulfill supplier requirement = Ok b) <->
   (exists p n,
      get_default supplier "products" (PyStr EmptyString) = PyStr p /\
      get_default requirement "item_name" (PyStr EmptyString) = PyStr n)) /\
  ((forall b, _supplier_can_fulfill supplier requirement <> Ok b) ->
   exists msg,
     _supplier_can_fulfill supplier requirement
     = Raise (Exn "AttributeError" msg)) /\
  (forall p n,
     get_default supplier "products" (PyStr EmptyString) = PyStr p ->
     get_default requirement "item_name" (PyStr EmptyString) = PyStr n ->
     str_in "general" (lower p) = true \/ n = EmptyString ->
     _supplier_can_fulfill supplier requirement = Ok true).
Proof.
  unfold _supplier_can_fulfill, Py.bind, lower_method.
  split; [split|split].
  - intros (b & H).
    destruct (get_default supplier "products" (PyStr EmptyString));
      try discriminate H.
    destruct (get_default requirement "item_name" (PyStr EmptyString));
      try discriminate H.
    eauto.
  - intros (p & n & -> & ->). eauto.
  - intros H.
    destruct (get_default supplier "products" (PyStr EmptyString));
      eauto;
      destruct (get_default requirement "item_name" (PyStr EmptyString));
      eauto.
    now elim (H (str_in (lower s0) (lower s) || str_in "general" (lower s))).
  - intros p n -> -> [H| ->].
    + now rewrite H, orb_true_r.
    + simpl lower. now rewrite str_in_empty.
Qed.

(** ** optimize_procurement *)

Lemma insert_by_score_in (c x : Candidate) (l : list Candidate) :
  In x (insert_by_score c l) -> x = c \/ In x l.
Proof.
  induction l as [|b l IH]; simpl.
  - intros [<-|[]]. now left.
  - destruct (score c <? score b)%float; simpl.
    + intros [<-|H]; [right; now left|].
      destruct (IH H) as [->|H']; [now left|right; now right].
    + intros [<-|H]; [now left|now right].
Qed.

Lemma sort_by_score_in (x : Candidate) (l : list Candidate) :
  In x (sort_by_score l) -> In x l.
Proof.
  induction l as [|c l IH]; simpl; [auto|].
  intros H. apply insert_by_score_in in H.
  destruct H as [->|H]; [now left|right; now apply IH].
Qed.

Lemma sort_by_score_nil (l : list Candidate) :
  sort_by_score l = [] <-> l = [].
Proof.
  split; [|now intros ->].
  destruct l as [|c l]; [reflexivity|]. simpl.
  destruct (sort_by_score l) as [|b l']; simpl; [discriminate|].
  destruct (score c <? score b)%float; discriminate.
Qed.

Lemma insert_by_score_sorted (c : Candidate) (l : list Candidate) :
  by_score l -> by_score (insert_by_score c l).
Proof.
  unfold by_score. induction l as [|b l IH]; intros Hl; simpl.
  - repeat constructor.
  - destruct (score c <? score b)%float eqn:E.
    + inversion Hl as [|? ? Hs Hh]; subst. constructor; [now apply IH|].
      destruct l as [|b' l]; simpl.
      * constructor. now apply DispatchProperties.float_ltb_asym.
      * destruct (score c <? score b')%float.
        -- constructor. now inversion Hh.
        -- constructor. now apply DispatchProperties.float_ltb_asym.
    + constructor; [exact Hl|]. constructor. exact E.
Qed.

Lemma sort_by_score_sorted (l : list Candidate) : by_score (sort_by_score l).
Proof.
  induction l as [|c l IH]; simpl.
  - constructor.
  - now apply insert_by_score_sorted.
Qed.

Lemma by_score_firstn (n : nat) (l : list Candidate) :
  by_score l -> by_score (firstn n l).
Proof.
  unfold by_score. revert l. induction n as [|n IH]; intros l Hl.
  - constructor.
  - destruct l as [|a l]; [constructor|].
    inversion Hl as [|? ? Hs Hh]; subst. simpl.
    constructor; [now apply IH|].
    destruct n; [constructor|].
    destruct l as [|b l]; [constructor|].
    simpl. constructor. now inversion Hh.
Qed.

Lemma suitable_suppliers_from (S : Scoring) (requirement : dict)
  (quantity : pyval) (suppliers : list pyval) :
  forall cs,
    suitable_suppliers S requirement quantity suppliers = Ok cs ->
    Forall (candidate_from suppliers requirement) cs /\
    (cs = [] -> forall supplier, In supplier suppliers ->
                                 ~ can_fulfill requirement supplier).
Proof.
  induction suppliers as [|supplier rest IH]; intros cs H; simpl in H.
  - injection H as <-. split; [constructor|]. intros _ x [].
  - unfold Py.bind in H.
    destruct (candidate_of S requirement quantity supplier) as [c|e] eqn:Hc;
      [|discriminate H].
    destruct (suitable_suppliers S requirement quantity rest) as [cs'|e];
      [|discriminate H].
    injection H as <-. destruct (IH cs' eq_refl) as (Hall & Hnone).
    assert (Hall' : Forall (candidate_from (supplier :: rest) requirement) cs').
    { eapply Forall_impl; [|exact Hall].
      intros x (s & Hin & Hx). exists s. split; [now right|exact Hx]. }
    unfold candidate_of, Py.bind in Hc.
    destruct supplier as [| b | z | str | l | s]; try discriminate Hc.
    simpl in Hc.
    destruct (_supplier_can_fulfill s requirement) as [[|]|e] eqn:Hcan;
      try discriminate Hc.
    + destruct (_calculate_procurement_score S s requirement) as [sc|e];
        [|discriminate Hc].
      destruct (total_cost S _ quantity) as [co|e]; [|discriminate Hc].
      injection Hc as <-. split; [|discriminate].
      constructor; [|exact Hall'].
      exists s. split; [now left|]. split; [exact Hcan|]. now split.
    + injection Hc as <-. split; [exact Hall'|].
      intros -> x [<-|Hx].
      * intros (s' & E & Hs'). injection E as <-.
        rewrite Hcan in Hs'. discriminate Hs'.
      * now apply Hnone.
Qed.

Lemma recommend_sound (S : Scoring) (supplier_data : pyval)
  (suppliers : list pyval) (requirement : pyval)
  (r : ProcurementRecommendation) :
  py_iter supplier_data = Ok suppliers ->
  recommend S supplier_data requirement = Ok r ->
  exists d,
    requirement = PyDict d /\
    item_name r = get_default d "item_name" PyNone /\
    List.length (recommended_suppliers r) <= 3 /\
    by_score (recommended_suppliers r) /\
    Forall (candidate_from suppliers d) (recommended_suppliers r) /\
    match recommended_suppliers r with
    | [] => recommendation r = NoSuitableSuppliers /\
            forall supplier, In supplier suppliers ->
                             ~ can_fulfill d supplier
    | best :: _ =>
        recommendation r
        = (if is_urgent (urgency r)
           then UseForFastestDelivery (supplier_name best)
           else UseForBestPerformance (supplier_name best))
    end.
Proof.
  intros Hiter H. unfold recommend, Py.bind in H.
  destruct requirement as [| b | z | str | l | d]; try discriminate H.
  cbn [as_dict] in H. rewrite Hiter in H.
  destruct (suitable_suppliers S d _ suppliers) as [cs|e] eqn:Hcs;
    [|discriminate H].
  remember (firstn 3 (sort_by_score cs)) as top eqn:Htop in H.
  injection H as <-. subst top. exists d.
  cbn [item_name recommended_suppliers recommendation urgency].
  apply suitable_suppliers_from in Hcs. destruct Hcs as (Hall & Hnone).
  split; [reflexivity|]. split; [reflexivity|].
  split; [apply firstn_le_length|].
  split; [apply by_score_firstn, sort_by_score_sorted|].
  split.
  { apply Forall_forall. intros x Hx.
    apply (proj1 (Forall_forall _ _) Hall).
    apply sort_by_score_in. rewrite <- (firstn_skipn 3 (sort_by_score cs)).
    apply in_or_app. now left. }
  destruct (sort_by_score cs) as [|best rest] eqn:Hsort; simpl.
  - split; [reflexivity|]. apply Hnone. now apply sort_by_score_nil.
  - reflexivity.
Qed.

Lemma map_result_Forall2 {A B : Type} (f : A -> result B) (P : A -> B -> Prop) :
  (forall a b, f a = Ok b -> P a b) ->
  forall l bs, map_result f l = Ok bs -> Forall2 P l bs.
Proof.
  intros Hf. induction l as [|a l IH]; intros bs H; simpl in H.
  - injection H as <-. constructor.
  - unfold Py.bind in H. destruct (f a) as [b|e] eqn:Hb; [|discriminate H].
    destruct (map_result f l) as [bs'|e]; [|discriminate H].
    injection H as <-. constructor; [now apply Hf|now apply IH].
Qed.

(** X27. A result of [optimize_procurement] has one recommendation per
    requirement, in the order of the requirements. Each one carries at
    most three suppliers, in descending order of their scores, every
    one of them a supplier of the data that can fulfil the requirement;
    its advice names the first of them, and it is
    [No suitable suppliers found] exactly when no supplier of the data
    can fulfil the requirement. *)
Theorem procurement_recommends_fulfilling_suppliers (S : Scoring)
  (supplier_data : pyval) (suppliers : list pyval) (requirements : dict)
  (items : list pyval) (recs : list ProcurementRecommendation) :
  py_iter supplier_data = Ok suppliers ->
  py_iter (get_default requirements "items" (PyList [])) = Ok items ->
  optimize_procurement S supplier_data requirements = Ok recs ->
  Forall2
    (fun requirement r =>
       exists d,
         requirement = PyDict d /\
         item_name r = get_default d "item_name" PyNone /\
         List.length (recommended_suppliers r) <= 3 /\
         by_score (recommended_suppliers r) /\
         Forall (candidate_from suppliers d) (recommended_suppliers r) /\
         match recommended_suppliers r with
         | [] => recommendation r = NoSuitableSuppliers /\
                 forall supplier, In supplier suppliers ->
                                  ~ can_fulfill d supplier
         | best :: _ =>
             recommendation r
             = (if is_urgent (urgency r)
                then UseForFastestDelivery (supplier_name best)
                else UseForBestPerformance (supplier_name best))
         end)
    items recs.
Proof.
  intros Hsup Hitems H. unfold optimize_procurement, Py.bind in H.
  rewrite Hitems in H.
  eapply map_result_Forall2; [|exact H].
  intros requirement r Hr. now apply (recommend_sound S supplier_data).
Qed.

Lemma procurement_recommends_witness :
  exists r,
    optimize_procurement flat_scoring
      (PyList [chip_supplier; general_supplier])
      [("items", PyList [PyDict [("item_name", PyStr "Steel brackets")]])]
    = Ok [r] /\
    map supplier_name (recommended_suppliers r)
    = [PyStr "TechCorp Solutions"] /\
    recommendation r = UseForBestPerformance (PyStr "TechCorp Solutions").
Proof.
  destruct (optimize_procurement flat_scoring
              (PyList [chip_supplier; general_supplier])
              [("items", PyList [PyDict [("item_name", PyStr "Steel brackets")]])])
    as [recs|e] eqn:Hrun; [|discriminate Hrun].
  assert (H := procurement_recommends_fulfilling_suppliers flat_scoring
                 (PyList [chip_supplier; general_supplier]) _
                 [("items", PyList [PyDict [("item_name", PyStr "Steel brackets")]])]
                 _ recs eq_refl eq_refl Hrun).
  inversion H as [|x r xs rs _ Hrest]; subst. inversion Hrest; subst.
  exists r. split; [reflexivity|].
  injection Hrun as <-. split; reflexivity.
Defined.

(** X28. Without supplier data [optimize_procurement] does not look at
    the names of the items and does no arithmetic: for requirements
    that are dictionaries it returns, with no supplier and the advice
    [No suitable suppliers found] for every requirement. *)
Theorem no_supplier_data_no_advice (S : Scoring) (requirements : dict)
  (items : list pyval) :
  py_iter (get_default requirements "items" (PyList [])) = Ok items ->
  Forall (fun item => exists d, item = PyDict d) items ->
  exists recs,
    optimize_procurement S (PyList []) requirements = Ok recs /\
    List.length recs = List.length items /\
    Forall (fun r => recommended_suppliers r = [] /\
                     recommendation r = NoSuitableSuppliers) recs.
Proof.
  intros Hitems Hdicts. unfold optimize_procurement, Py.bind.
  rewrite Hitems. clear Hitems.
  induction Hdicts as [|item rest (d & ->) _ IH].
  - exists []. repeat split; constructor.
  - destruct IH as (recs & Hrecs & Hlen & Hall).
    simpl. unfold Py.bind. simpl. rewrite Hrecs.
    eexists. split; [reflexivity|]. simpl. split; [now rewrite Hlen|].
    constructor; [now split|exact Hall].
Qed.

Lemma no_supplier_data_witness :
  exists recs,
    optimize_procurement flat_scoring (PyList [])
      [("items", PyList [requirement_of nameless_item])] = Ok recs /\
    List.length recs = 1 /\
    Forall (fun r => recommended_suppliers r = [] /\
                     recommendation r = NoSuitableSuppliers) recs.
Proof.
  apply (no_supplier_data_no_advice flat_scoring
           [("items", PyList [requirement_of nameless_item])]
           [requirement_of nameless_item] eq_refl).
  constructor; [|constructor]. eexists. reflexivity.
Defined.

(** ** An item without a name *)

Lemma requirements_of_low_items (l : list pyval) :
  Forall (fun item => is_low item = true) l ->
  map_result procurement_item (map low_entry_of l)
  = Ok (map requirement_of l).
Proof.
  induction 1 as [|item l Hitem _ IH]; [reflexivity|].
  destruct item as [| b | z | str | l' | d]; try discriminate Hitem.
  simpl. unfold Py.bind. simpl in IH. now rewrite IH.
Qed.

Lemma candidate_of_total (S : Scoring) (requirement : dict)
  (quantity : pyval) (name : string) (supplier : pyval) :
  (forall s r, exists x, _calculate_procurement_score S s r = Ok x) ->
  (forall u q, exists c, total_cost S u q = Ok c) ->
  get_default requirement "item_name" (PyStr EmptyString) = PyStr name ->
  has_products supplier ->
  exists c, candidate_of S requirement quantity supplier = Ok c.
Proof.
  intros Hscore Hcost Hname (s & p & -> & Hp).
  unfold candidate_of, Py.bind. cbn [as_dict].
  unfold _supplier_can_fulfill, Py.bind, lower_method. rewrite Hp, Hname.
  destruct (str_in (lower name) (lower p) || str_in "general" (lower p)).
  - destruct (Hscore s requirement) as (x & ->).
    destruct (Hcost (get_default s "unit_cost" (PyInt 0)) quantity)
      as (c & ->).
    eauto.
  - eauto.
Qed.

Lemma candidate_of_nameless (S : Scoring) (requirement : dict)
  (quantity : pyval) (supplier : pyval) :
  (forall n, get_default requirement "item_name" (PyStr EmptyString)
             <> PyStr n) ->
  has_products supplier ->
  candidate_of S requirement quantity supplier
  = Raise (Exn "AttributeError" "object has no attribute lower").
Proof.
  intros Hname (s & p & -> & Hp).
  unfold candidate_of, Py.bind. cbn [as_dict].
  unfold _supplier_can_fulfill, Py.bind, lower_method. rewrite Hp.
  destruct (get_default requirement "item_name" (PyStr EmptyString))
    as [| b | z | n | l | d]; try reflexivity.
  now elim (Hname n).
Qed.

Lemma suitable_suppliers_total (S : Scoring) (requirement : dict)
  (quantity : pyval) (name : string) (suppliers : list pyval) :
  (forall s r, exists x, _calculate_procurement_score S s r = Ok x) ->
  (forall u q, exists c, total_cost S u q = Ok c) ->
  get_default requirement "item_name" (PyStr EmptyString) = PyStr name ->
  Forall has_products suppliers ->
  exists cs, suitable_suppliers S requirement quantity suppliers = Ok cs.
Proof.
  intros Hscore Hcost Hname. induction 1 as [|supplier rest Hs _ IH].
  - now exists [].
  - destruct IH as (cs & Hcs).
    destruct (candidate_of_total S requirement quantity name supplier
                Hscore Hcost Hname Hs) as (c & Hc).
    cbn [suitable_suppliers]. unfold Py.bind. rewrite Hc, Hcs. eauto.
Qed.

Lemma recommend_named_or_nameless (S : Scoring) (supplier_data : pyval)
  (first : pyval) (more : list pyval) (item : pyval) :
  (forall s r, exists x, _calculate_procurement_score S s r = Ok x) ->
  (forall u q, exists c, total_cost S u q = Ok c) ->
  py_iter supplier_data = Ok (first :: more) ->
  Forall has_products (first :: more) ->
  is_low item = true ->
  (nameless item ->
   recommend S supplier_data (requirement_of item)
   = Raise (Exn "AttributeError" "object has no attribute lower")) /\
  (~ nameless item ->
   exists r, recommend S supplier_data (requirement_of item) = Ok r).
Proof.
  intros Hscore Hcost Hiter Hsup Hlow.
  destruct item as [| b | z | str | l' | d]; try discriminate Hlow.
  unfold recommend, Py.bind. cbn [requirement_of as_dict].
  rewrite Hiter.
  set (requirement := [("item_name", get_default d "name" PyNone);
                       ("quantity", PyInt 100);
                       ("urgency", PyStr "medium")]).
  assert (Hitem : get_default requirement "item_name" (PyStr EmptyString)
                  = get_default d "name" PyNone) by reflexivity.
  split.
  - intros (d' & E & Hname). injection E as <-.
    cbn [suitable_suppliers]. unfold Py.bind.
    rewrite (candidate_of_nameless S requirement
               (get_default requirement "quantity" (PyInt 1)) first).
    + reflexivity.
    + intros n. rewrite Hitem. apply Hname.
    + now inversion Hsup.
  - intros Hnamed.
    destruct (get_default d "name" PyNone) as [| b | z | n | l | d'] eqn:En;
      try (elim Hnamed; exists d; split; [reflexivity|];
           intros s; rewrite En; discriminate).
    destruct (suitable_suppliers_total S requirement
                (get_default requirement "quantity" (PyInt 1)) n
                (first :: more) Hscore Hcost Hitem Hsup)
      as (cs & Hcs).
    rewrite Hcs. eauto.
Qed.

Lemma map_result_first_error {A B : Type} (f : A -> result B) (e : exn)
  (l : list A) :
  Forall (fun x => (exists b, f x = Ok b) \/ f x = Raise e) l ->
  Exists (fun x => f x = Raise e) l ->
  map_result f l = Raise e.
Proof.
  induction 1 as [|x l Hx _ IH]; intros Hex; [inversion Hex|].
  simpl. unfold Py.bind.
  destruct Hx as [(b & Hb)|Hb]; rewrite Hb; [|reflexivity].
  inversion Hex as [? ? H1|? ? H1]; subst.
  - rewrite Hb in H1. discriminate H1.
  - now rewrite (IH H1).
Qed.

(** X29. An item without a name that is low on stock makes the sourcing
    of the pipeline fail as soon as there is a supplier: its entry in
    [low_stock_items] has the name [None], the orchestrator makes a
    requirement of it, and [optimize_procurement] raises
    [AttributeError] in [_supplier_can_fulfill] on the first supplier,
    where it lowers the name. Here every supplier has a string as its
    products and the scores and costs can be computed, so nothing else
    fails. *)
Theorem nameless_low_item_breaks_sourcing (K : Kernels) (S : Scoring)
  (inventory_data : pyval) (items : list pyval) (supplier_data : pyval)
  (first : pyval) (more : list pyval) (a : dict) :
  py_iter inventory_data = Ok items ->
  analyze_stock_levels K inventory_data = Ok a ->
  Exists (fun item => is_low item = true /\ nameless item) items ->
  py_iter supplier_data = Ok (first :: more) ->
  Forall has_products (first :: more) ->
  (forall s r, exists x, _calculate_procurement_score S s r = Ok x) ->
  (forall u q, exists c, total_cost S u q = Ok c) ->
  procurement_items (get_default a "low_stock_items" (PyList []))
  = Ok (map requirement_of (filter is_low items)) /\
  optimize_procurement S supplier_data
    [("items", PyList (map requirement_of (filter is_low items)))]
  = Raise (Exn "AttributeError" "object has no attribute lower").
Proof.
  intros Hitems Ha Hex Hiter Hsup Hscore Hcost.
  destruct (analysis_lists K inventory_data items a Hitems Ha) as (Hlow & _).
  assert (Hall : Forall (fun item => is_low item = true) (filter is_low items)).
  { apply Forall_forall. intros x Hx. apply filter_In in Hx. tauto. }
  split.
  { rewrite Hlow. unfold procurement_items, Py.bind. simpl.
    now apply requirements_of_low_items. }
  assert (E : forall l,
            optimize_procurement S supplier_data [("items", PyList l)]
            = map_result (recommend S supplier_data) l) by reflexivity.
  rewrite E.
  assert (Hgen : forall l,
            Forall (fun item => is_low item = true) l ->
            Exists nameless l ->
            map_result (recommend S supplier_data) (map requirement_of l)
            = Raise (Exn "AttributeError" "object has no attribute lower")).
  { intros l Hl Hn. apply map_result_first_error.
    - apply Forall_forall. intros x Hx. apply in_map_iff in Hx.
      destruct Hx as (item & <- & Hin).
      assert (Hlow' := proj1 (Forall_forall _ _) Hl item Hin).
      destruct (recommend_named_or_nameless S supplier_data first more item
                  Hscore Hcost Hiter Hsup Hlow') as (H1 & H2).
      destruct (get_default
                  (match item with PyDict d => d | _ => [] end)
                  "name" PyNone) as [| b | z | n | l0 | d0] eqn:En.
      all: try (right; apply H1;
                destruct item as [| b' | z' | str | l' | d];
                try discriminate Hlow';
                exists d; split; [reflexivity|];
                intros s; simpl in En; rewrite En; discriminate).
      left. apply H2. intros (d & -> & Hname). simpl in En.
      now elim (Hname n).
    - apply Exists_exists in Hn. destruct Hn as (item & Hin & Hnameless).
      apply Exists_exists. exists (requirement_of item).
      split; [now apply in_map|].
      assert (Hlow' := proj1 (Forall_forall _ _) Hl item Hin).
      now apply (recommend_named_or_nameless S supplier_data first more item
                   Hscore Hcost Hiter Hsup Hlow'). }
  apply Hgen; [exact Hall|].
  apply Exists_exists in Hex. destruct Hex as (item & Hin & Hl & Hn).
  apply Exists_exists. exists item. split; [|exact Hn].
  apply filter_In. now split.
Qed.

Lemma nameless_low_item_witness :
  exists a,
    analyze_stock_levels plain_kernels (PyList [nameless_item]) = Ok a /\
    procurement_items (get_default a "low_stock_items" (PyList []))
    = Ok [requirement_of nameless_item] /\
    optimize_procurement flat_scoring (PyList [general_supplier])
      [("items", PyList [requirement_of nameless_item])]
    = Raise (Exn "AttributeError" "object has no attribute lower").
Proof.
  destruct (analyze_stock_levels plain_kernels (PyList [nameless_item]))
    as [a|e] eqn:Ha; [|discriminate Ha].
  exists a. split; [reflexivity|].
  apply (nameless_low_item_breaks_sourcing plain_kernels flat_scoring
           (PyList [nameless_item]) [nameless_item]
           (PyList [general_supplier]) general_supplier [] a eq_refl Ha).
  - constructor. split; [reflexivity|].
    eexists. split; [reflexivity|]. intros s. discriminate.
  - reflexivity.
  - constructor; [|constructor]. eexists. eexists. split; reflexivity.
  - intros s r. eexists. reflexivity.
  - intros u q. eexists. reflexivity.
Defined.

End SupplierProperties.

(* ================================================================== *)
(** * Properties of the forecasting methods *)
(* ================================================================== *)

Module ForecastProperties.
Import Collab ForecastMethods.

Section WithArithmetic.
Variable N : Arithmetic.

Lemma repeat_last_length (data : list (num N)) (periods : nat) :
  List.length (repeat_last N data periods) = periods.
Proof. destruct data; simpl; apply repeat_length. Qed.

Lemma simple_moving_average_length (data : list (num N)) (periods : nat) :
  List.length (_simple_moving_average N data periods) = periods.
Proof.
  unfold _simple_moving_average.
  destruct (List.length data <? 3)%nat;
    [apply repeat_last_length|apply repeat_length].
Qed.

Lemma exponential_smoothing_length (data : list (num N)) (periods : nat) :
  List.length (_exponential_smoothing N data periods) = periods.
Proof. destruct data; simpl; apply repeat_length. Qed.

Lemma trend_analysis_length (data : list (num N)) (periods : nat) :
  List.length (_trend_analysis N data periods) = periods.
Proof.
  unfold _trend_analysis.
  destruct (List.length data <? 2)%nat; [apply repeat_last_length|].
  now rewrite length_map, length_seq.
Qed.

Lemma seasonal_adjustment_length (data : list (num N)) (periods : nat) :
  List.length (_seasonal_adjustment N data periods) = periods.
Proof.
  unfold _seasonal_adjustment.
  destruct (List.length data <? 12)%nat;
    [apply simple_moving_average_length|].
  rewrite length_map, length_combine, length_seq, Nat.min_id.
  apply simple_moving_average_length.
Qed.

Lemma methods_lengths (data : list (num N)) (periods : nat) :
  Forall (fun forecast => List.length forecast = periods)
         (methods N data periods).
Proof.
  unfold methods. repeat constructor.
  - apply simple_moving_average_length.
  - apply exponential_smoothing_length.
  - apply trend_analysis_length.
  - apply seasonal_adjustment_length.
Qed.

Lemma map_result_total {A B : Type} (f : A -> result B) (l : list A) :
  (forall a, In a l -> exists b, f a = Ok b) ->
  exists bs, map_result f l = Ok bs /\ List.length bs = List.length l.
Proof.
  induction l as [|a l IH]; intros H.
  - now exists [].
  - destruct (H a (or_introl eq_refl)) as (b & Hb).
    destruct (IH (fun x Hx => H x (or_intror Hx))) as (bs & Hbs & Hlen).
    exists (b :: bs). simpl. unfold Py.bind. rewrite Hb, Hbs.
    split; [reflexivity|]. simpl. now rewrite Hlen.
Qed.

Lemma weighted_terms_total (forecasts : list (list (num N))) (i periods : nat) :
  Forall (fun forecast => List.length forecast = periods) forecasts ->
  i < periods ->
  exists terms, weighted_terms N forecasts i = Ok terms.
Proof.
  intros Hall Hi. unfold weighted_terms.
  destruct (map_result_total
              (fun fw => x <- index (fst fw) i ;; Ok (mul N x (snd fw)))
              (combine forecasts (weights N))) as (terms & H & _).
  - intros [forecast w] Hin. apply in_combine_l in Hin.
    assert (Hlen := proj1 (Forall_forall _ _) Hall forecast Hin).
    simpl in Hlen. simpl. unfold index, Py.bind.
    destruct (nth_error forecast i) as [x|] eqn:E; [eauto|].
    apply nth_error_None in E. lia.
  - now exists terms.
Qed.

(** X30. The four forecasts that [forecast_demand] makes of a demand
    history (moving average, exponential smoothing, trend, seasonal
    adjustment) have [forecast_periods] values each, for every history
    of numbers, short or empty ones included; so [_ensemble_forecast],
    which reads every forecast at the indices of the first one, never
    raises [IndexError] on them and returns [forecast_periods]
    values. *)
Theorem ensemble_has_forecast_periods (data : list (num N)) (periods : nat) :
  Forall (fun forecast => List.length forecast = periods)
         (methods N data periods) /\
  exists ensemble,
    ensemble_of N data periods = Ok ensemble /\
    List.length ensemble = periods.
Proof.
  split; [apply methods_lengths|].
  unfold ensemble_of, _ensemble_forecast.
  assert (Hall := methods_lengths data periods).
  remember (methods N data periods) as forecasts eqn:Hm.
  destruct forecasts as [|first rest]; [discriminate Hm|].
  assert (Hfirst : List.length first = periods) by now inversion Hall.
  destruct (map_result_total
              (fun i => terms <- weighted_terms N (first :: rest) i ;;
                        Ok (sum N terms))
              (seq 0 (List.length first))) as (ensemble & H & Hlen).
  - intros i Hi. apply in_seq in Hi.
    destruct (weighted_terms_total (first :: rest) i periods Hall)
      as (terms & Hterms); [lia|].
    unfold Py.bind. rewrite Hterms. eauto.
  - exists ensemble. split; [exact H|].
    now rewrite Hlen, length_seq.
Qed.
End WithArithmetic.

Lemma ensemble_has_forecast_periods_witness :
  Forall (fun forecast => List.length forecast = 2)
         (methods integers [4; 6; 8]%Z 2) /\
  exists ensemble,
    ensemble_of integers [4; 6; 8]%Z 2 = Ok ensemble /\
    List.length ensemble = 2.
Proof.
  exact (ensemble_has_forecast_periods integers [4; 6; 8]%Z 2).
Defined.

End ForecastProperties.
